(** * mk-proxy-generator: the Tor pool manager and the hybrid proxy handler

    A shallow embedding of [backend/tor_handler.py] and
    [backend/proxy_server.py].

    - Python [int] is [Z]; [float] timestamps and durations are [Q] (seconds).
    - [bytes] is [string] (8-bit characters).  A [str] is represented by its
      UTF-8 encoding, so splitting on, and searching for, ASCII text is the
      same operation on both.
    - Every call that leaves the interpreter (sockets, clock, sub-processes,
      HTTP lookups, the control port) appends one [event] to the trace and
      takes its answer from the environment [env], indexed by the number of
      events logged so far.
    - The clock is part of the state: an external call lets a non-negative
      time chosen by the environment pass, [time.sleep(d)] at least [d].
    - Exceptions are explicit: a computation yields [Returned] or [Raised].
    - A [TorInstance] object lives in exactly one slot of
      [TorPoolManager.instances]; a reference to it is that slot's position. *)

From Stdlib Require Import ZArith QArith Qreduction String Ascii List Lia Lqa DecimalString.
From stdpp Require Import base numbers list.
Import ListNotations.
Open Scope string_scope.
Open Scope Z_scope.

(** ** Python strings *)

Module Py.

Definition CR : ascii := "013"%char.
Definition LF : ascii := "010"%char.
Definition crlf : string := String CR (String LF "").

(** [pat in s] *)
Fixpoint contains (pat s : string) : bool :=
  String.prefix pat s ||
  match s with
  | EmptyString => false
  | String _ s' => contains pat s'
  end.

Definition cons_head (c : ascii) (ps : list string) : list string :=
  match ps with
  | [] => [String c ""]
  | p :: ps' => String c p :: ps'
  end.

(** [s.split(sep)] for a one-character separator *)
Fixpoint split (sep : ascii) (s : string) : list string :=
  match s with
  | EmptyString => [""]
  | String c s' =>
      if Ascii.eqb c sep then "" :: split sep s'
      else cons_head c (split sep s')
  end.

(** [s.split(sep, 1)] *)
Fixpoint split_once (sep : ascii) (s : string) : list string :=
  match s with
  | EmptyString => [""]
  | String c s' =>
      if Ascii.eqb c sep then [""; s']
      else cons_head c (split_once sep s')
  end.

(** [data.split(b'\r\n')] *)
Fixpoint split_crlf (s : string) : list string :=
  match s with
  | EmptyString => [""]
  | String c s' =>
      match s' with
      | String d s'' =>
          if Ascii.eqb c CR && Ascii.eqb d LF then "" :: split_crlf s''
          else cons_head c (split_crlf s')
      | EmptyString => [String c ""]
      end
  end.

Definition code (c : ascii) : Z := Z.of_N (N_of_ascii c).

(** [bytes.lower()]: only A..Z change *)
Definition lower_char (c : ascii) : ascii :=
  if (65 <=? code c) && (code c <=? 90)
  then ascii_of_N (Z.to_N (code c + 32)) else c.

Fixpoint lower (s : string) : string :=
  match s with
  | EmptyString => ""
  | String c s' => String (lower_char c) (lower s')
  end.

(** ASCII whitespace, as stripped by [bytes.strip()] *)
Definition is_space (c : ascii) : bool :=
  existsb (Z.eqb (code c)) [32; 9; 10; 13; 11; 12].

(** the whitespace of [str.strip()] that is one byte long in UTF-8:
    U+0009..U+000D, U+001C..U+001F and U+0020 *)
Definition is_uspace (c : ascii) : bool :=
  is_space c || existsb (Z.eqb (code c)) [28; 29; 30; 31].

(** two bytes long: U+0085 (C2 85) and U+00A0 (C2 A0) *)
Definition is_uspace2 (a b : ascii) : bool :=
  (code a =? 0xC2) && existsb (Z.eqb (code b)) [0x85; 0xA0].

(** three bytes long: U+1680 (E1 9A 80), U+2000..U+200A (E2 80 80..8A),
    U+2028, U+2029, U+202F (E2 80 A8, A9, AF), U+205F (E2 81 9F) and
    U+3000 (E3 80 80) *)
Definition is_uspace3 (a b c : ascii) : bool :=
  ((code a =? 0xE1) && (code b =? 0x9A) && (code c =? 0x80)) ||
  ((code a =? 0xE2) && (code b =? 0x80) &&
   (((0x80 <=? code c) && (code c <=? 0x8A)) ||
    existsb (Z.eqb (code c)) [0xA8; 0xA9; 0xAF])) ||
  ((code a =? 0xE2) && (code b =? 0x81) && (code c =? 0x9F)) ||
  ((code a =? 0xE3) && (code b =? 0x80) && (code c =? 0x80)).

Fixpoint lstrip (sp : ascii -> bool) (s : string) : string :=
  match s with
  | EmptyString => ""
  | String c s' => if sp c then lstrip sp s' else s
  end.

Fixpoint rev_onto (s acc : string) : string :=
  match s with
  | EmptyString => acc
  | String c s' => rev_onto s' (String c acc)
  end.

Definition strip (sp : ascii -> bool) (s : string) : string :=
  rev_onto (lstrip sp (rev_onto (lstrip sp s) "")) "".

(** [str.lstrip()] on the UTF-8 encoding: whitespace characters of one, two
    or three bytes are dropped from the front.  [sp2] and [sp3] take the
    bytes in the order they are met, so that the same function run on the
    reversed text strips its end. *)
Fixpoint lstrip_str (sp2 : ascii -> ascii -> bool)
    (sp3 : ascii -> ascii -> ascii -> bool) (s : string) : string :=
  match s with
  | EmptyString => ""
  | String a s1 =>
      if is_uspace a then lstrip_str sp2 sp3 s1
      else
        match s1 with
        | EmptyString => s
        | String b s2 =>
            if sp2 a b then lstrip_str sp2 sp3 s2
            else
              match s2 with
              | EmptyString => s
              | String c s3 => if sp3 a b c then lstrip_str sp2 sp3 s3 else s
              end
        end
  end.

(** [str.strip()]: all Unicode whitespace, at both ends *)
Definition strip_str (s : string) : string :=
  rev_onto
    (lstrip_str (fun b a => is_uspace2 a b) (fun c b a => is_uspace3 a b c)
       (rev_onto (lstrip_str is_uspace2 is_uspace3 s) ""))
    "".

(** [len] of a [str]: the code points, i.e. the bytes that are not UTF-8
    continuation bytes *)
Fixpoint len (s : string) : Z :=
  match s with
  | EmptyString => 0
  | String c s' =>
      (if Z.land (code c) 0xC0 =? 0x80 then 0 else 1) + len s'
  end.

(** [str(n)] for an [int] *)
Definition str_int (n : Z) : string := NilZero.string_of_int (Z.to_int n).

(** first byte of a non-empty [bytes]; [s[i]] in general *)
Definition byte_at (s : string) (i : nat) : option Z :=
  option_map code (String.get i s).

(** [struct.pack('>B', n)] and [struct.pack('>H', n)]; [None] is
    [struct.error] *)
Definition pack_B (n : Z) : option string :=
  if (0 <=? n) && (n <=? 255)
  then Some (String (ascii_of_N (Z.to_N n)) "") else None.

Definition pack_H (n : Z) : option string :=
  if (0 <=? n) && (n <=? 65535)
  then Some (String (ascii_of_N (Z.to_N (n / 256)))
               (String (ascii_of_N (Z.to_N (n mod 256))) ""))
  else None.

(** index resolution of [l[i]] on a list of length [n]: negative indices
    count from the end, anything else out of range is [IndexError] *)
Definition position (n : nat) (i : Z) : option nat :=
  if (0 <=? i) && (i <? Z.of_nat n) then Some (Z.to_nat i)
  else if (i <? 0) && (- Z.of_nat n <=? i) then Some (Z.to_nat (Z.of_nat n + i))
  else None.

Definition Qltb (a b : Q) : bool := negb (Qle_bool b a).

End Py.

(** ** Data model *)

(** JSON, as far as the lookups inspect it: the value of a field (a nested
    list or object only by whether it is empty) and the parsed document *)
Inductive jvalue :=
| JNull
| JBool (b : bool)
| JNum (n : Z)
| JStr (s : string)
| JNested (empty : bool).

Inductive jdoc :=
| JDict (d : list (string * jvalue))
| JNotDict.

Inductive exn :=
| IndexError
| ValueError
| AttributeError
| RuntimeError (msg : string)
| OSError (msg : string)
| StructError
| UnicodeDecodeError.

Inductive outcome (A : Type) :=
| Returned (a : A)
| Raised (e : exn).
Arguments Returned {A} a.
Arguments Raised {A} e.

(** an HTTP response: [status_code] and the result of [.json()] *)
Record response := {
  status_code : Z;
  json : outcome jdoc
}.

(** [TorInstance]: the attributes the pool and the handler read or write.
    [process] is [Some tt] while a Popen handle is held. *)
Record TorInstance := {
  socks_port : Z;
  control_port : Z;
  password : string;
  process : option unit;
  session : bool;
  _ip_cache : option string;
  _ip_cache_time : Q;
  _cache_ttl : Q
}.

Record TorPoolManager := {
  count : Z;
  base_socks_port : Z;
  base_control_port : Z;
  instances : list TorInstance;
  current_index : Z
}.

Inductive sock := Client | Backend.

(** the two closures handed to [threading.Thread]; the argument is the
    instance they captured *)
Inductive task :=
| renew_single_ip (r : nat)
| prewarm_old_instance (r : nat).

Inductive event :=
| EvTime
| EvSleep (d : Q)
| EvSystem (cmd : string)
| EvPathExists (socks : Z)
| EvPopen (socks : Z)
| EvTerminate (socks : Z)
| EvHttpGet (socks : Z) (via_session : bool)
| EvControl (port : Z) (cmd : string)
| EvRecv (s : sock) (n : Z) (peek : bool)
| EvSendAll (s : sock) (data : string)
| EvConnect (port : Z)
| EvClose (s : sock)
| EvRelay
| EvThreadStart (t : task).

(** the outside world: the answer to the external call made when [k] events
    have been logged, and the nanoseconds that call takes *)
Record env := {
  env_elapsed : nat -> N;
  env_exists : nat -> outcome bool;
  env_popen : nat -> outcome unit;
  env_http : nat -> outcome response;
  env_control : nat -> outcome string;
  env_recv : nat -> outcome string;
  env_io : nat -> outcome unit
}.

Record state := {
  pool : TorPoolManager;
  trace : list event;
  now : Q
}.

(** ** The effect monad *)

Definition M (A : Type) : Type := env -> state -> outcome A * state.

Definition ret {A} (a : A) : M A := fun _ st => (Returned a, st).

Definition bind {A B} (c : M A) (k : A -> M B) : M B :=
  fun e st =>
    match c e st with
    | (Returned a, st') => k a e st'
    | (Raised x, st') => (Raised x, st')
    end.

Definition raise {A} (x : exn) : M A := fun _ st => (Raised x, st).

Notation "x <- c ;; k" := (bind c (fun x => k))
  (at level 100, c at next level, right associativity).
Notation "c ;;; k" := (bind c (fun _ => k))
  (at level 100, right associativity).

(** [try: c except Exception: h] *)
Definition try_except {A} (c : M A) (h : exn -> M A) : M A :=
  fun e st =>
    match c e st with
    | (Returned a, st') => (Returned a, st')
    | (Raised x, st') => h x e st'
    end.

(** [try: c finally: f]; an exception of [f] replaces the result *)
Definition try_finally {A} (c : M A) (f : M unit) : M A :=
  fun e st =>
    match c e st with
    | (r, st') =>
        match f e st' with
        | (Returned _, st'') => (r, st'')
        | (Raised x, st'') => (Raised x, st'')
        end
    end.

(** the result of a future: the exception is kept as a value *)
Definition capture {A} (c : M A) : M (outcome A) :=
  fun e st => match c e st with (r, st') => (Returned r, st') end.

Definition lift {A} (o : outcome A) : M A := fun _ st => (o, st).

Definition get_pool : M TorPoolManager := fun _ st => (Returned (pool st), st).

Definition set_pool (pm : TorPoolManager) : M unit :=
  fun _ st => (Returned tt, {| pool := pm; trace := trace st; now := now st |}).

Definition ns (n : N) : Q := Z.of_N n # 1000000000.

(** the state after the external call [ev] that takes [d] seconds more than
    the environment's share *)
Definition after (ev : event) (d : Q) (e : env) (st : state) : state :=
  {| pool := pool st;
     trace := trace st ++ [ev];
     now := Qred (now st + d + ns (env_elapsed e (length (trace st)))) |}.

(** an external call: log [ev], let time pass, answer from the environment *)
Definition call_exn {A} (ev : event) (answer : env -> nat -> outcome A) : M A :=
  fun e st => (answer e (length (trace st)), after ev 0 e st).

(** [time.time()] reads the clock *)
Definition time_time : M Q :=
  fun _ st =>
    (Returned (now st),
     {| pool := pool st; trace := trace st ++ [EvTime]; now := now st |}).

Definition time_sleep (d : Q) : M unit :=
  fun e st => (Returned tt, after (EvSleep d) d e st).

Definition os_system (cmd : string) : M unit := call_exn (EvSystem cmd) env_io.

(** a Python [dict] built from JSON: [d.get(key)] *)
Fixpoint dict_get (key : string) (d : list (string * jvalue)) : option jvalue :=
  match d with
  | [] => None
  | (k, v) :: d' => if String.eqb k key then Some v else dict_get key d'
  end.

(** ** class TorInstance *)

Module TorInstance.

(** [__init__]: ports as given, no process, empty cache, TTL 60.
    [have_session] tells whether [requests.Session()] could be built.  The
    paths and the instance id play no part below; building the object is
    taken to succeed. *)
Definition __init__ (socks control : Z) (have_session : bool) : TorInstance :=
  {| socks_port := socks;
     control_port := control;
     password := "MySecretPassword123";
     process := None;
     session := have_session;
     _ip_cache := None;
     _ip_cache_time := 0;
     _cache_ttl := 60 |}.

Definition set_process (self : TorInstance) (p : option unit) : TorInstance :=
  {| socks_port := socks_port self;
     control_port := control_port self;
     password := password self;
     process := p;
     session := session self;
     _ip_cache := _ip_cache self;
     _ip_cache_time := _ip_cache_time self;
     _cache_ttl := _cache_ttl self |}.

Definition set_cache (self : TorInstance) (c : option string) (t : Q) : TorInstance :=
  {| socks_port := socks_port self;
     control_port := control_port self;
     password := password self;
     process := process self;
     session := session self;
     _ip_cache := c;
     _ip_cache_time := t;
     _cache_ttl := _cache_ttl self |}.

(** [stop]: terminate, wait, kill are one external step whose failure is
    swallowed; the handle is cleared *)
Definition stop (self : TorInstance) : M TorInstance :=
  match process self with
  | Some _ =>
      try_except (call_exn (EvTerminate (socks_port self)) env_io)
                 (fun _ => ret tt) ;;;
      ret (set_process self None)
  | None => ret self
  end.

Definition is_circuit_ready_socks (self : TorInstance) (timeout_sec : Q) : M bool :=
  try_except
    (r <- call_exn (EvHttpGet (socks_port self) false) env_http ;;
     if status_code r =? 200 then
       d <- lift (json r) ;;
       ret match d with
           | JDict f =>
               match dict_get "ip" f with
               | Some (JStr s) => 0 <? Py.len s
               | _ => false
               end
           | JNotDict => false
           end
     else ret false)
    (fun _ => ret false).

(** the readiness loop of [start]: [n] rounds of sleep and probe *)
Fixpoint wait_probe (n : nat) (self : TorInstance) : M bool :=
  match n with
  | O => ret false
  | S n' =>
      time_sleep 1 ;;;
      ready <- try_except (is_circuit_ready_socks self 5) (fun _ => ret false) ;;
      if ready then ret true else wait_probe n' self
  end.

(** [start]: result and the instance as it is left.  The state clean-up,
    the data directory and the torrc only touch the file system and
    swallow their errors. *)
Definition start (self : TorInstance) : M (bool * TorInstance) :=
  match process self with
  | Some _ => ret (true, self)
  | None =>
      found <- call_exn (EvPathExists (socks_port self)) env_exists ;;
      if negb found then ret (false, self)
      else
        try_except
          (call_exn (EvPopen (socks_port self)) env_popen ;;;
           let self1 := set_process self (Some tt) in
           ready <- wait_probe 180 self1 ;;
           if negb ready then
             self2 <- stop self1 ;; ret (false, self2)
           else ret (true, set_cache self1 None (_ip_cache_time self1)))
          (fun _ => self' <- stop self ;; ret (false, self'))
  end.

Definition renew_ip (self : TorInstance) : M TorInstance :=
  try_except
    (call_exn (EvControl (control_port self) "NEWNYM") env_control ;;;
     ret (set_cache self None (_ip_cache_time self)))
    (fun _ => ret self).

(** truthiness of [self._ip_cache] *)
Definition cached (self : TorInstance) : option string :=
  match _ip_cache self with
  | Some "" => None
  | c => c
  end.

(** the [try] body of one attempt of [get_ip]: [Some] when it returns *)
Definition lookup (self : TorInstance) : M (option (string * TorInstance)) :=
  response <- call_exn (EvHttpGet (socks_port self) (session self)) env_http ;;
  if status_code response =? 200 then
    data <- lift (json response) ;;
    match data with
    | JDict d =>
        match default (JStr "") (dict_get "ip" d) with
        | JStr "" => ret None
        | JStr s =>
            let ip := Py.strip_str s in
            now <- time_time ;;
            ret (Some (ip, set_cache self (Some ip) now))
        | _ => ret None
        end
    | JNotDict => ret None
    end
  else ret None.

Fixpoint attempts (self : TorInstance) (todo : list Z)
    (max_retries : Z) (retry_delay : Q) : M (string * TorInstance) :=
  match todo with
  | [] => ret ("...", self)
  | attempt :: todo' =>
      r <- try_except (lookup self) (fun _ => ret None) ;;
      match r with
      | Some found => ret found
      | None =>
          (if Py.Qltb 0 retry_delay && (attempt <? max_retries - 1)
           then time_sleep retry_delay else ret tt) ;;;
          attempts self todo' max_retries retry_delay
      end
  end.

Definition get_ip (self : TorInstance) (max_retries : Z) (retry_delay : Q)
    : M (string * TorInstance) :=
  current_time <- time_time ;;
  match cached self with
  | Some ip =>
      if Py.Qltb (current_time - _ip_cache_time self) (_cache_ttl self)
      then ret (ip, self)
      else attempts self (seqZ 0 max_retries) max_retries retry_delay
  | None => attempts self (seqZ 0 max_retries) max_retries retry_delay
  end.

Definition is_circuit_ready (self : TorInstance) : M bool :=
  try_except
    (status <- call_exn (EvControl (control_port self)
                           "GETINFO status/circuit-established") env_control ;;
     ret (Py.contains "1" status))
    (fun _ => ret false).

End TorInstance.

(** ** class TorPoolManager *)

Module TorPoolManager.

Definition __init__ (count base_socks_port base_control_port : Z) : TorPoolManager :=
  {| count := count;
     base_socks_port := base_socks_port;
     base_control_port := base_control_port;
     instances := [];
     current_index := 0 |}.

Definition set_instances (self : TorPoolManager) (l : list TorInstance) : TorPoolManager :=
  {| count := count self;
     base_socks_port := base_socks_port self;
     base_control_port := base_control_port self;
     instances := l;
     current_index := current_index self |}.

Definition set_current_index (self : TorPoolManager) (i : Z) : TorPoolManager :=
  {| count := count self;
     base_socks_port := base_socks_port self;
     base_control_port := base_control_port self;
     instances := instances self;
     current_index := i |}.

Definition taskkill : string := "taskkill /F /IM tor.exe >nul 2>&1".

Definition max_wait : Q := 30.

(** [self.instances[i]]: the slot the index denotes, or [IndexError] *)
Definition getitem (self : TorPoolManager) (i : Z) : M nat :=
  match Py.position (length (instances self)) i with
  | Some r => ret r
  | None => raise IndexError
  end.

(** the object in slot [r] *)
Definition deref (r : nat) : M TorInstance :=
  self <- get_pool ;;
  match instances self !! r with
  | Some inst => ret inst
  | None => raise IndexError
  end.

(** an attribute write on the object in slot [r] *)
Definition update (r : nat) (inst : TorInstance) : M unit :=
  self <- get_pool ;;
  set_pool (set_instances self (<[r := inst]> (instances self))).

(** the first loop of [start_pool]: build instance [i] and submit its
    [start].  The workers run concurrently in the program; here each
    [start] runs when it is submitted and its future keeps the result. *)
Fixpoint launch (self : TorPoolManager) (todo : list Z)
    : M (list (TorInstance * outcome bool)) :=
  match todo with
  | [] => ret []
  | i :: todo' =>
      let socks := base_socks_port self + (i * 2) in
      let control := base_control_port self + (i * 2) in
      let instance := TorInstance.__init__ socks control true in
      fut <- capture (TorInstance.start instance) ;;
      let entry :=
        match fut with
        | Returned (ok, instance') => (instance', Returned ok)
        | Raised x => (instance, Raised x)
        end in
      rest <- launch self todo' ;;
      ret (entry :: rest)
  end.

(** the second loop: [self.instances.append(inst)] when [fut.result()] is
    true; an exception of the future is swallowed *)
Fixpoint enroll (launched : list (TorInstance * outcome bool)) : M unit :=
  match launched with
  | [] => ret tt
  | (inst, fut) :: rest =>
      match fut with
      | Returned true =>
          self <- get_pool ;;
          set_pool (set_instances self (instances self ++ [inst]))
      | _ => ret tt
      end ;;;
      enroll rest
  end.

(** [all(inst.is_circuit_ready() for inst in l)] *)
Fixpoint all_ready (l : list TorInstance) : M bool :=
  match l with
  | [] => ret true
  | inst :: l' =>
      ready <- TorInstance.is_circuit_ready inst ;;
      if ready then all_ready l' else ret false
  end.

(** the [while] loop of [start_pool]; [false] only when [fuel] rounds did
    not end it *)
Fixpoint wait_ready (fuel : nat) (start_time : Q) : M bool :=
  match fuel with
  | O => ret false
  | S fuel' =>
      now <- time_time ;;
      if Py.Qltb (now - start_time) max_wait then
        self <- get_pool ;;
        ready <- try_except (all_ready (instances self)) (fun _ => ret false) ;;
        if ready then ret true
        else time_sleep (1 # 2) ;;; wait_ready fuel' start_time
      else ret true
  end.

Definition no_instances : string :=
  "Tor instanceları başlatılamadı (tor.exe veya data izinlerini kontrol et)".

(** [start_pool]; [Returned false] only when the model's [fuel] ran out in
    the readiness wait.  [ThreadPoolExecutor] refuses [max_workers <= 0]
    with [ValueError]. *)
Definition start_pool (fuel : nat) : M bool :=
  try_except (os_system taskkill ;;; time_sleep (1 # 2)) (fun _ => ret tt) ;;;
  self <- get_pool ;;
  if Z.min (count self) 15 <=? 0 then raise ValueError
  else
    launched <- launch self (seqZ 0 (count self)) ;;
    enroll launched ;;;
    start_time <- time_time ;;
    finished <- wait_ready fuel start_time ;;
    if negb finished then ret false
    else
      self <- get_pool ;;
      match instances self with
      | [] => raise (RuntimeError no_instances)
      | _ :: _ => ret true
      end.

Fixpoint stop_all (l : list TorInstance) : M unit :=
  match l with
  | [] => ret tt
  | inst :: l' => TorInstance.stop inst ;;; stop_all l'
  end.

Definition stop_pool : M unit :=
  self <- get_pool ;;
  stop_all (instances self) ;;;
  set_pool (set_instances self []) ;;;
  try_except (os_system taskkill) (fun _ => ret tt).

Definition get_proxy_port : M Z :=
  self <- get_pool ;;
  match instances self with
  | _ :: _ =>
      r <- getitem self (current_index self) ;;
      instance <- deref r ;;
      ret (socks_port instance)
  | [] => ret 0
  end.

Definition get_current_instance : M (option nat) :=
  self <- get_pool ;;
  match instances self with
  | _ :: _ =>
      r <- getitem self (current_index self) ;;
      ret (Some r)
  | [] => ret None
  end.

(** [threading.Thread(target=t, daemon=True).start()]: the closure is handed
    over, the caller goes on *)
Definition thread_start (t : task) : M unit :=
  fun e st => (Returned tt, after (EvThreadStart t) 0 e st).

Definition switch_to_next_instance : M (option nat) :=
  self <- get_pool ;;
  match instances self with
  | [] => ret None
  | [_] =>
      current_instance <- getitem self 0 ;;
      thread_start (renew_single_ip current_instance) ;;;
      ret (Some current_instance)
  | _ :: _ :: _ =>
      let n := Z.of_nat (length (instances self)) in
      set_pool (set_current_index self ((current_index self + 1) mod n)) ;;;
      self <- get_pool ;;
      new_instance <- getitem self (current_index self) ;;
      let old_index := (current_index self - 1) mod n in
      old_instance <- getitem self old_index ;;
      thread_start (prewarm_old_instance old_instance) ;;;
      ret (Some new_instance)
  end.

(** the readiness poll of the two closures: up to [n] rounds *)
Fixpoint poll_ready (n : nat) (r : nat) : M unit :=
  match n with
  | O => ret tt
  | S n' =>
      time_sleep 1 ;;;
      inst <- deref r ;;
      ready <- TorInstance.is_circuit_ready inst ;;
      if ready then ret tt else poll_ready n' r
  end.

(** the body of [renew_single_ip] and of [prewarm_old_instance], run by the
    thread that was started, not by the caller *)
Definition run (t : task) : M unit :=
  let r := match t with renew_single_ip r | prewarm_old_instance r => r end in
  try_except
    (inst <- deref r ;;
     inst1 <- TorInstance.renew_ip inst ;;
     update r inst1 ;;;
     poll_ready 5 r ;;;
     inst2 <- deref r ;;
     res <- TorInstance.get_ip inst2 2 0 ;;
     update r (snd res))
    (fun _ => ret tt).

End TorPoolManager.

(** ** class HybridProxyHandler *)

Module HybridProxyHandler.

Definition detect_protocol (first_byte : Z) : string :=
  if first_byte =? 0x04 then "SOCKS4"
  else if first_byte =? 0x05 then "SOCKS5"
  else if existsb (Z.eqb first_byte) [0x47; 0x48; 0x50; 0x43; 0x4F; 0x50] then "HTTP"
  else "UNKNOWN".

(** socket calls; [recv(n)] hands over at most [n] bytes *)
Definition sendall (s : sock) (data : string) : M unit :=
  call_exn (EvSendAll s data) env_io.

Definition recv (s : sock) (n : Z) (peek : bool) : M string :=
  data <- call_exn (EvRecv s n peek) env_recv ;;
  ret (String.substring 0 (Z.to_nat n) data).

Definition close (s : sock) : M unit := call_exn (EvClose s) env_io.

(** [socket.socket(...)], [settimeout(5)] and [connect(('127.0.0.1', port))] *)
Definition connect (port : Z) : M unit := call_exn (EvConnect port) env_io.

(** [relay_data]: the two forwarding threads and their joins, as one step *)
Definition relay_data : M unit := call_exn EvRelay env_io.

Definition method_request : string := String "005" (String "001" (String "000" "")).

(** [not (not resp or resp[1] != 0x00)]; a one-byte [resp] has no [resp[1]] *)
Definition accepted (resp : string) : M bool :=
  match resp with
  | EmptyString => ret false
  | String _ _ =>
      match Py.byte_at resp 1 with
      | Some b => ret (b =? 0x00)
      | None => raise IndexError
      end
  end.

Definition connect_request (target_host : string) (target_port : Z) : M string :=
  let host_bytes := target_host in
  match Py.pack_B (Z.of_nat (String.length host_bytes)) with
  | Some n =>
      match Py.pack_H target_port with
      | Some p =>
          ret (String "005" (String "001" "") ++ String "000" "" ++
               String "003" "" ++ n ++ host_bytes ++ p)%string
      | None => raise StructError
      end
  | None => raise StructError
  end.

Definition connect_to_tor (target_host : string) (target_port : Z) : M (option sock) :=
  tor_port <- TorPoolManager.get_proxy_port ;;
  if tor_port =? 0 then ret None
  else
    try_except
      (connect tor_port ;;;
       sendall Backend method_request ;;;
       resp <- recv Backend 2 false ;;
       ok <- accepted resp ;;
       if negb ok then close Backend ;;; ret None
       else
         req <- connect_request target_host target_port ;;
         sendall Backend req ;;;
         resp <- recv Backend 10 false ;;
         ok <- accepted resp ;;
         if negb ok then close Backend ;;; ret None
         else ret (Some Backend))
      (fun _ => ret None).

Definition established : string :=
  ("HTTP/1.1 200 Connection Established" ++ Py.crlf ++ Py.crlf)%string.

Definition bad_gateway : string :=
  ("HTTP/1.1 502 Bad Gateway" ++ Py.crlf ++ Py.crlf)%string.

Definition server_error (body : string) : string :=
  ("HTTP/1.1 500 Internal Server Error" ++ Py.crlf ++ Py.crlf ++ body)%string.

Definition nl : string := String Py.LF "".

(** [str(e)] in the [except] of the control path.  What can arrive there
    is the IndexError of a list index, the AttributeError of a call on
    None, and an error of the outside world, which brings its own text
    (such as [Errno 32] Broken pipe).  ValueError, struct.error and
    UnicodeDecodeError are raised by the program only where the exception
    object is discarded; they carry no text in this model and give the
    empty text of an exception built without arguments. *)
Definition exn_str (e : exn) : string :=
  match e with
  | IndexError => "list index out of range"
  | AttributeError => "'NoneType' object has no attribute 'get_ip'"
  | RuntimeError msg => msg
  | OSError msg => msg
  | ValueError | StructError | UnicodeDecodeError => ""
  end.

(** [inst.get_ip(...)] on the object in slot [r] *)
Definition get_ip (r : nat) (max_retries : Z) (retry_delay : Q) : M string :=
  inst <- TorPoolManager.deref r ;;
  res <- TorInstance.get_ip inst max_retries retry_delay ;;
  TorPoolManager.update r (snd res) ;;;
  ret (fst res).

(** the [GET /rotate] branch of [handle_http] *)
Definition rotate : M unit :=
  try_except
    (instance <- TorPoolManager.get_current_instance ;;
     match instance with
     | None => sendall Client (server_error "No active instance")
     | Some r =>
         old_ip <- get_ip r 1 0 ;;
         let old_ip := if String.eqb old_ip "..." then "Hazırlanıyor" else old_ip in
         self <- get_pool ;;
         let pool_size := length (instances self) in
         new_instance <- TorPoolManager.switch_to_next_instance ;;
         match new_instance with
         | None => raise AttributeError
         | Some r' =>
             new_ip <- get_ip r' 1 0 ;;
             let new_ip := if String.eqb new_ip "..." then "Connecting..." else new_ip in
             inst <- TorPoolManager.deref r' ;;
             let port := Py.str_int (socks_port inst) in
             let response_body :=
               (if Nat.eqb pool_size 1
                then "IP Renewal Started" ++ nl ++ "Old IP: " ++ old_ip ++ nl ++
                     "Port: " ++ port ++ nl ++ "New IP: " ++ new_ip ++ nl ++
                     "Time: 0.1s"
                else "IP Rotation Started" ++ nl ++ "Old IP: " ++ old_ip ++ nl ++
                     "New Port: " ++ port ++ nl ++ "New IP: " ++ new_ip ++ nl ++
                     "Time: 0.1s")%string in
             let response :=
               ("HTTP/1.1 200 OK" ++ Py.crlf ++ "Content-Type: text/plain" ++ Py.crlf ++
                "Content-Length: " ++ Py.str_int (Py.len response_body) ++
                Py.crlf ++ Py.crlf ++ response_body)%string in
             sendall Client response
         end
     end)
    (fun e => sendall Client (server_error ("Error: " ++ exn_str e)%string)).

Section Handler.

(** Library functions of Python the handler calls:
    [int(s)] ([None]: ValueError), [b.decode('utf-8', errors='ignore')],
    [b.decode()] ([None]: UnicodeDecodeError), and [urlparse(url)] with its
    [hostname] and [port] (reading [port] may raise). *)
Variable int : string -> option Z.
Variable decode_ignore : string -> string.
Variable decode : string -> option string.
Variable urlparse : string -> outcome (option string * outcome (option Z)).

(** [host, port_str = url.split(':'); port = int(port_str)]; [None] is the
    [except: return] *)
Definition connect_target (url : string) : option (string * Z) :=
  match Py.split ":" url with
  | [host; port_str] =>
      match int port_str with
      | Some port => Some (host, port)
      | None => None
      end
  | _ => None
  end.

(** absolute-URI targets: what [host] and [port] hold after the [try] *)
Definition uri_target (url : string) : option string * Z :=
  if Py.contains "http://" url then
    match urlparse url with
    | Returned (hostname, Returned (Some p)) => (hostname, if p =? 0 then 80 else p)
    | Returned (hostname, Returned None) => (hostname, 80)
    | Returned (hostname, Raised _) => (hostname, 80)
    | Raised _ => (Some "", 80)
    end
  else (Some "", 80).

(** the [Host:] header loop: the first header line decides *)
Fixpoint host_header (lines : list string) (port : Z) : M (string * Z) :=
  match lines with
  | [] => ret ("", port)
  | line :: lines' =>
      if String.prefix "host:" (Py.lower line) then
        match decode (Py.strip Py.is_space (nth 1 (Py.split_once ":" line) "")) with
        | None => raise UnicodeDecodeError
        | Some host =>
            if Py.contains ":" host then
              match Py.split ":" host with
              | [host'; port_str] =>
                  match int port_str with
                  | Some port' => ret (host', port')
                  | None => raise ValueError
                  end
              | _ => raise ValueError
              end
            else ret (host, port)
        end
      else host_header lines' port
  end.

Definition handle_http (data : string) : M unit :=
  let first_line := decode_ignore (hd "" (Py.split_crlf data)) in
  if Py.contains "GET /rotate" first_line then rotate
  else
    match Py.split " " first_line with
    | method :: url :: _ =>
        if String.eqb method "CONNECT" then
          match connect_target url with
          | None => ret tt
          | Some (host, port) =>
              tor_sock <- connect_to_tor host port ;;
              match tor_sock with
              | Some _ => sendall Client established ;;; relay_data
              | None => sendall Client bad_gateway
              end
          end
        else
          let '(hostname, port) := uri_target url in
          target <-
            match hostname with
            | Some (String c h) => ret (String c h, port)
            | _ => host_header (Py.split_crlf data) port
            end ;;
          match fst target with
          | EmptyString => ret tt
          | host =>
              tor_sock <- connect_to_tor host (snd target) ;;
              match tor_sock with
              | Some s => sendall s data ;;; relay_data
              | None => sendall Client bad_gateway
              end
          end
    | _ => ret tt
    end.

Definition handle : M unit :=
  try_finally
    (try_except
       (header <- recv Client 4096 true ;;
        match Py.byte_at header 0 with
        | None => ret tt
        | Some first =>
            let protocol := detect_protocol first in
            if String.eqb protocol "HTTP" then
              data <- recv Client 65536 false ;;
              handle_http data
            else ret tt
        end)
       (fun _ => ret tt))
    (try_except (close Client) (fun _ => ret tt)).

End Handler.

End HybridProxyHandler.

(** ** Properties stated about the program *)

(** the request methods whose leading byte marks a connection as HTTP *)
Definition http_methods : list string := ["GET"; "HEAD"; "POST"; "CONNECT"; "OPTIONS"].

Definition leading_bytes : list Z := omap (fun m => Py.byte_at m 0) http_methods.

(** [k] calls of [switch_to_next_instance] in a row, with what each returned *)
Fixpoint rotations (k : nat) : M (list (option nat)) :=
  match k with
  | O => ret []
  | S k' =>
      r <- TorPoolManager.switch_to_next_instance ;;
      rs <- rotations k' ;;
      ret (r :: rs)
  end.

(** the objects behind a list of returned references *)
Definition visited (l : list TorInstance) (rs : list (option nat)) : list (option TorInstance) :=
  map (fun r => r ≫= (l !!.)) rs.

(** a lookup that yields an identity: status 200 and a JSON object whose
    [ip] field is a non-empty string *)
Definition answers_ip (r : outcome response) : bool :=
  match r with
  | Returned resp =>
      (status_code resp =? 200) &&
      match json resp with
      | Returned (JDict d) =>
          match dict_get "ip" d with
          | Some (JStr s) => negb (String.eqb s "")
          | _ => false
          end
      | _ => false
      end
  | Raised _ => false
  end.

Definition is_lookup (ev : event) : bool :=
  match ev with
  | EvHttpGet _ _ => true
  | _ => false
  end.

(** the identity lookups in a trace *)
Definition lookups (tr : list event) : nat := length (List.filter is_lookup tr).

(** a computation whose final state is always related to its initial one *)
Definition preserves (R : state -> state -> Prop) {A} (c : M A) : Prop :=
  forall (e : env) (st : state), R st (snd (c e st)).

(** the pool is the same and the clock has not gone back *)
Definition moved_on (st st' : state) : Prop :=
  pool st' = pool st /\ (now st <= now st')%Q.

(** nothing more was written to the client *)
Definition client_writes (tr : list event) : list string :=
  omap (fun ev => match ev with EvSendAll Client d => Some d | _ => None end) tr.

Definition no_write (st st' : state) : Prop :=
  pool st' = pool st /\ client_writes (trace st') = client_writes (trace st).

(** a computation that leaves the pool alone and does not set the clock back *)
Definition outside {A} (c : M A) : Prop := preserves moved_on c.

(** a computation that leaves the pool alone and writes nothing to the client *)
Definition quiet {A} (c : M A) : Prop := preserves no_write c.

(** every port a list of instances listens on *)
Definition all_ports (l : list TorInstance) : list Z :=
  concat (map (fun inst => [socks_port inst; control_port inst]) l).

(** the future of a [start] that returned success *)
Definition succeeded (fut : outcome bool) : bool :=
  match fut with
  | Returned true => true
  | _ => false
  end.

(** the launched instances whose [start] returned success, in order *)
Definition started (launched : list (TorInstance * outcome bool)) : list TorInstance :=
  map fst (List.filter (fun p => succeeded (snd p)) launched).

(** the first statement of [start_pool], which cleans up stray processes *)
Definition prelude : M unit :=
  try_except (os_system TorPoolManager.taskkill ;;; time_sleep (1 # 2)) (fun _ => ret tt).

Definition raised {A} (r : outcome A) : Prop := exists x, r = Raised x.

(** the operations that change the pool, and a caller that performs them
    one after the other and goes on when one raises *)
Inductive op :=
| Start (fuel : nat)
| Rotate
| Stop.

Definition perform (o : op) : M unit :=
  match o with
  | Start fuel => TorPoolManager.start_pool fuel ;;; ret tt
  | Rotate => TorPoolManager.switch_to_next_instance ;;; ret tt
  | Stop => TorPoolManager.stop_pool
  end.

Fixpoint perform_all (ops : list op) : M unit :=
  match ops with
  | [] => ret tt
  | o :: ops' => capture (perform o) ;;; perform_all ops'
  end.

(** 0 <= activeIndex < len(instances) whenever the pool is non-empty *)
Definition pool_invariant (pm : TorPoolManager) : Prop :=
  instances pm <> [] ->
  0 <= current_index pm < Z.of_nat (length (instances pm)).

Definition is_start (o : op) : bool :=
  match o with
  | Start _ => true
  | _ => false
  end.

(** no pool start after a pool stop: the manager is used for one run *)
Fixpoint single_use (ops : list op) : bool :=
  match ops with
  | [] => true
  | Stop :: ops' => forallb (fun o => negb (is_start o)) ops'
  | _ :: ops' => single_use ops'
  end.

(** what holds between construction and the first stop *)
Definition index_fits (pm : TorPoolManager) : Prop :=
  0 <= current_index pm /\
  (current_index pm = 0 \/ current_index pm < Z.of_nat (length (instances pm))).

(** a token of a request line: no space inside *)
Fixpoint no_space (s : string) : bool :=
  match s with
  | EmptyString => true
  | String c s' => negb (Ascii.eqb c " ") && no_space s'
  end.

(** the request line [CONNECT target version] *)
Definition connect_line (target version : string) : string :=
  ("CONNECT " ++ target ++ String " " version)%string.

(** ** Sample inputs *)

Definition ok200 (ip : string) : response :=
  {| status_code := 200; json := Returned (JDict [("ip", JStr ip)]) |}.

(** an environment in which everything works: the first [K] path checks
    find tor.exe, lookups answer 1.2.3.4, sockets hand over [reply] *)
Definition sample_env (K : nat) (reply : string) : env :=
  {| env_elapsed := fun _ => 0%N;
     env_exists := fun k => Returned (Nat.ltb k K);
     env_popen := fun _ => Returned tt;
     env_http := fun _ => Returned (ok200 "1.2.3.4");
     env_control := fun _ => Returned "status/circuit-established=1";
     env_recv := fun _ => Returned reply;
     env_io := fun _ => Returned tt |}.

Definition sample_instance (i : Z) : TorInstance :=
  TorInstance.set_process (TorInstance.__init__ (9050 + i * 2) (9051 + i * 2) true) (Some tt).

Definition sample_state (size : Z) (index : Z) : state :=
  {| pool := TorPoolManager.set_current_index
               (TorPoolManager.set_instances (TorPoolManager.__init__ size 9050 9051)
                  (map sample_instance (seqZ 0 size)))
               index;
     trace := [];
     now := 0 |}.


(** an instance whose cache was filled at time 0 *)
Definition cached_instance : TorInstance :=
  TorInstance.set_cache (sample_instance 0) (Some "1.2.3.4") 0.

(** an environment in which no lookup gets through *)
Definition offline_env : env :=
  {| env_elapsed := fun _ => 0%N;
     env_exists := fun _ => Returned true;
     env_popen := fun _ => Returned tt;
     env_http := fun _ => Raised (OSError "timed out");
     env_control := fun _ => Raised (OSError "timed out");
     env_recv := fun _ => Raised (OSError "timed out");
     env_io := fun _ => Raised (OSError "timed out") |}.

Definition at_time (st : state) (t : Q) : state :=
  {| pool := pool st; trace := trace st; now := t |}.

(** a manager as [main.py] builds it, before [start_pool] *)
Definition fresh_state (size : Z) : state :=
  {| pool := TorPoolManager.__init__ size 9050 9051; trace := []; now := 0 |}.

(** library functions for plain ASCII input: decimal [int], decoding as the
    identity, no URL parser *)
Fixpoint digits (s : string) (acc : Z) : option Z :=
  match s with
  | EmptyString => Some acc
  | String c s' =>
      if (48 <=? Py.code c) && (Py.code c <=? 57)
      then digits s' (acc * 10 + (Py.code c - 48)) else None
  end.

Definition ascii_int (s : string) : option Z :=
  match s with
  | EmptyString => None
  | _ => digits s 0
  end.

Definition no_urlparse (url : string) : outcome (option string * outcome (option Z)) :=
  Raised ValueError.


(** the backend answers one byte to the method negotiation *)
Definition short_reply_env : env := sample_env 0 (String "005" "").


(** the address service answers one blank first, then 9.9.9.9 *)
Definition blank_env : env :=
  {| env_elapsed := fun _ => 0%N;
     env_exists := fun _ => Returned true;
     env_popen := fun _ => Returned tt;
     env_http := fun k => if Nat.ltb k 2 then Returned (ok200 " ")
                          else Returned (ok200 "9.9.9.9");
     env_control := fun _ => Returned "status/circuit-established=1";
     env_recv := fun _ => Returned "";
     env_io := fun _ => Returned tt |}.

(** ** Further properties stated about the program *)

(** the pool is the same *)
Definition same_pool (st st' : state) : Prop := pool st' = pool st.

(** the active index and the number of instances are the same *)
Definition same_shape (st st' : state) : Prop :=
  current_index (pool st') = current_index (pool st) /\
  length (instances (pool st')) = length (instances (pool st)).

(** events on the backend socket *)
Definition on_backend (ev : event) : bool :=
  match ev with
  | EvConnect _ | EvSendAll Backend _ | EvRecv Backend _ _ | EvClose Backend | EvRelay => true
  | _ => false
  end.

Definition backend_events (tr : list event) : list event := List.filter on_backend tr.

(** nothing happened on the backend side *)
Definition backend_idle (st st' : state) : Prop :=
  backend_events (trace st') = backend_events (trace st).

(** [c not in s] *)
Fixpoint lacks (c : ascii) (s : string) : bool :=
  match s with
  | EmptyString => true
  | String a s' => negb (Ascii.eqb a c) && lacks c s'
  end.

(** [s.count(c)] *)
Fixpoint occurrences (c : ascii) (s : string) : nat :=
  match s with
  | EmptyString => O
  | String a s' => ((if Ascii.eqb a c then 1 else 0) + occurrences c s')%nat
  end.

(** a header line that is not a Host header *)
Definition not_host (line : string) : bool :=
  negb (String.prefix "host:" (Py.lower line)).

(** the text after the first colon of a header line, stripped *)
Definition header_value (line : string) : string :=
  Py.strip Py.is_space (nth 1 (Py.split_once ":" line) "").

(** the host and port [handle_http] settles on for a method other than
    CONNECT: the absolute URI if it names a host, else the Host header *)
Definition resolve (int : string -> option Z) (decode : string -> option string)
    (urlparse : string -> outcome (option string * outcome (option Z)))
    (data url : string) : M (string * Z) :=
  let '(hostname, port) := HybridProxyHandler.uri_target urlparse url in
  match hostname with
  | Some (String c h) => ret (String c h, port)
  | _ => HybridProxyHandler.host_header int decode (Py.split_crlf data) port
  end.

Definition get_request : string :=
  ("GET / HTTP/1.1" ++ Py.crlf ++ "Host: example.com" ++ Py.crlf ++ Py.crlf)%string.

(** the trace was only extended *)
Definition grows (st st' : state) : Prop :=
  exists mid, trace st' = (trace st ++ mid)%list.

(** the terminations of sub-processes in a trace, by SOCKS port *)
Definition terminated (tr : list event) : list Z :=
  omap (fun ev => match ev with EvTerminate p => Some p | _ => None end) tr.

(** an instance that holds a process *)
Definition running (inst : TorInstance) : bool :=
  match process inst with
  | Some _ => true
  | None => false
  end.

(** the steps of keeping an identity fresh: reading the clock, sleeping,
    talking to a control port, looking the address up *)
Definition is_upkeep (ev : event) : bool :=
  match ev with
  | EvTime | EvSleep _ | EvControl _ _ | EvHttpGet _ _ => true
  | _ => false
  end.

(** the trace was extended by upkeep steps only *)
Definition upkeep_only (st st' : state) : Prop :=
  exists mid, trace st' = (trace st ++ mid)%list /\ forallb is_upkeep mid = true.

(** [k] rounds of the readiness poll of a warm-up thread *)
Definition poll_rounds (k : nat) (inst : TorInstance) : list event :=
  concat (replicate k [EvSleep 1;
                       EvControl (control_port inst) "GETINFO status/circuit-established"]).

(** the slot a warm-up closure captured *)
Definition target (t : task) : nat :=
  match t with
  | renew_single_ip r | prewarm_old_instance r => r
  end.

(** what [start_pool] knows of launched instance [i] and its future: the
    ports, and that a process is held exactly when [start] said so *)
Definition well_launched (self : TorPoolManager) (i : Z)
    (p : TorInstance * outcome bool) : Prop :=
  socks_port (fst p) = base_socks_port self + 2 * i /\
  control_port (fst p) = base_control_port self + 2 * i /\
  if succeeded (snd p)
  then process (fst p) = Some tt /\ _ip_cache (fst p) = None
  else process (fst p) = None.

(** an instance as [start_pool] enrolls it *)
Definition enrolled_by (self : TorPoolManager) (inst : TorInstance) : Prop :=
  running inst = true /\ _ip_cache inst = None /\
  exists i, 0 <= i < count self /\
    socks_port inst = base_socks_port self + 2 * i /\
    control_port inst = base_control_port self + 2 * i.

(** ** class IpCheckWorker (main.py) *)

Module IpCheckWorker.

(** the placeholder texts [_is_valid_ip] refuses outright *)
Definition placeholders : list string :=
  ["Unknown"; "Loading..."; "Ready"; "..."; "-"; "Preparing"].

(** the loop over the parts: [int(part)] ([None]: ValueError, caught) and
    the range check *)
Fixpoint in_range (int : string -> option Z) (parts : list string) : bool :=
  match parts with
  | [] => true
  | part :: parts' =>
      match int part with
      | Some num => if (num <? 0) || (255 <? num) then false else in_range int parts'
      | None => false
      end
  end.

Definition _is_valid_ip (int : string -> option Z) (ip_str : string) : bool :=
  if String.eqb ip_str "" || existsb (String.eqb ip_str) placeholders then false
  else
    let parts := Py.split "." ip_str in
    if negb (Nat.eqb (length parts) 4) then false
    else in_range int parts.

End IpCheckWorker.

(** a part of a dotted address: no dot inside, and a number from 0 to 255 *)
Definition octet (int : string -> option Z) (part : string) : Prop :=
  lacks "." part = true /\ exists num, int part = Some num /\ 0 <= num <= 255.
(** ** detect_protocol *)

(** C8: the first byte 0x04 is classified SOCKS4, 0x05 SOCKS5, a leading
    byte of GET, HEAD, POST, CONNECT or OPTIONS (0x47, 0x48, 0x50, 0x43,
    0x4F) HTTP, and every other byte UNKNOWN; each classification is given
    to those bytes only. *)
Theorem detect_protocol_classifies (b : Z) :
  leading_bytes = [0x47; 0x48; 0x50; 0x43; 0x4F] /\
  (HybridProxyHandler.detect_protocol b = "SOCKS4" <-> b = 0x04) /\
  (HybridProxyHandler.detect_protocol b = "SOCKS5" <-> b = 0x05) /\
  (HybridProxyHandler.detect_protocol b = "HTTP" <-> In b leading_bytes) /\
  (HybridProxyHandler.detect_protocol b = "UNKNOWN" <->
     b <> 0x04 /\ b <> 0x05 /\ ~ In b leading_bytes).
Proof.
  split; [reflexivity|].
  change leading_bytes with [0x47; 0x48; 0x50; 0x43; 0x4F].
  unfold HybridProxyHandler.detect_protocol. simpl existsb.
  destruct (Z.eqb_spec b 4); [subst; simpl; intuition (try discriminate; try lia)|].
  destruct (Z.eqb_spec b 5); [subst; simpl; intuition (try discriminate; try lia)|].
  destruct (Z.eqb_spec b 0x47); [subst; simpl; intuition (try discriminate; try lia)|].
  destruct (Z.eqb_spec b 0x48); [subst; simpl; intuition (try discriminate; try lia)|].
  destruct (Z.eqb_spec b 0x50); [subst; simpl; intuition (try discriminate; try lia)|].
  destruct (Z.eqb_spec b 0x43); [subst; simpl; intuition (try discriminate; try lia)|].
  destruct (Z.eqb_spec b 0x4F); [subst; simpl; intuition (try discriminate; try lia)|].
  simpl. intuition (try discriminate; try lia).
Qed.

(** ** Reasoning about index resolution *)

Lemma position_in_range (n : nat) (i : Z) :
  0 <= i < Z.of_nat n -> Py.position n i = Some (Z.to_nat i).
Proof.
  intros H. unfold Py.position.
  destruct (Z.leb_spec 0 i); [|lia].
  destruct (Z.ltb_spec i (Z.of_nat n)); [reflexivity|lia].
Qed.

Lemma switch_single (e : env) (st : state) (inst : TorInstance) :
  instances (pool st) = [inst] ->
  TorPoolManager.switch_to_next_instance e st =
    (Returned (Some 0%nat), after (EvThreadStart (renew_single_ip 0)) 0 e st).
Proof.
  intros H. unfold TorPoolManager.switch_to_next_instance, bind, get_pool.
  rewrite H. unfold TorPoolManager.getitem. rewrite H. reflexivity.
Qed.

Lemma switch_many (e : env) (st : state) :
  (2 <= length (instances (pool st)))%nat ->
  let n := Z.of_nat (length (instances (pool st))) in
  let i' := (current_index (pool st) + 1) mod n in
  TorPoolManager.switch_to_next_instance e st =
    (Returned (Some (Z.to_nat i')),
     after (EvThreadStart (prewarm_old_instance (Z.to_nat ((i' - 1) mod n)))) 0 e
       {| pool := TorPoolManager.set_current_index (pool st) i';
          trace := trace st; now := now st |}).
Proof.
  intros H n i'.
  assert (Hn : 0 < n) by (unfold n; lia).
  assert (Hi : 0 <= i' < n) by (apply Z.mod_pos_bound; exact Hn).
  assert (Ho : 0 <= (i' - 1) mod n < n) by (apply Z.mod_pos_bound; exact Hn).
  unfold TorPoolManager.switch_to_next_instance, bind, get_pool.
  destruct (instances (pool st)) as [|a [|b l]] eqn:E; simpl in H; try lia.
  fold n. fold i'.
  unfold set_pool, TorPoolManager.getitem. cbn [pool instances current_index TorPoolManager.set_current_index].
  rewrite E. fold n.
  rewrite (position_in_range _ i') by (fold n; exact Hi).
  unfold ret.
  rewrite (position_in_range _ ((i' - 1) mod n)) by (fold n; exact Ho).
  reflexivity.
Qed.

Lemma rotations_single (k : nat) (inst : TorInstance) :
  forall (e : env) (st : state),
  instances (pool st) = [inst] ->
  exists st',
    rotations k e st = (Returned (replicate k (Some 0%nat)), st') /\
    pool st' = pool st /\
    trace st' = (trace st ++ replicate k (EvThreadStart (renew_single_ip 0)))%list.
Proof.
  induction k as [|k IH]; intros e st H.
  - exists st. simpl. rewrite app_nil_r. auto.
  - destruct (IH e (after (EvThreadStart (renew_single_ip 0)) 0 e st) H)
      as (st' & Hrun & Hpool & Htrace).
    exists st'. cbn [rotations]. unfold bind at 1.
    rewrite (switch_single e st inst H).
    unfold bind at 1. rewrite Hrun. unfold ret.
    split; [reflexivity|]. split; [exact Hpool|].
    rewrite Htrace. cbn [after trace replicate]. rewrite <- app_assoc. reflexivity.
Qed.

Lemma mod_shift (i n j : Z) :
  ((i + 1) mod n + 1 + j) mod n = (i + 1 + (j + 1)) mod n.
Proof.
  replace ((i + 1) mod n + 1 + j) with ((i + 1) mod n + (1 + j)) by lia.
  rewrite Zplus_mod_idemp_l. f_equal. lia.
Qed.

Lemma rotations_many (k : nat) :
  forall (e : env) (st : state),
  (2 <= length (instances (pool st)))%nat ->
  let n := Z.of_nat (length (instances (pool st))) in
  let i := current_index (pool st) in
  exists st',
    rotations k e st =
      (Returned (map (fun j => Some (Z.to_nat ((i + 1 + Z.of_nat j) mod n))) (seq 0 k)), st') /\
    instances (pool st') = instances (pool st).
Proof.
  induction k as [|k IH]; intros e st H n i.
  - exists st. split; reflexivity.
  - pose proof (switch_many e st H) as Hstep. cbv zeta in Hstep. fold n i in Hstep.
    set (st1 := after _ 0 e _) in Hstep.
    assert (H1 : instances (pool st1) = instances (pool st)) by reflexivity.
    assert (Hlen : (2 <= length (instances (pool st1)))%nat) by (rewrite H1; exact H).
    destruct (IH e st1 Hlen) as (st' & Hrun & Hinst).
    exists st'. split; [|rewrite Hinst; exact H1].
    cbn [rotations]. unfold bind at 1. rewrite Hstep.
    unfold bind at 1. rewrite Hrun. unfold ret. f_equal. f_equal.
    cbn [seq map]. f_equal.
    + do 2 f_equal. f_equal. lia.
    + rewrite <- seq_shift, map_map. apply map_ext. intros j.
      rewrite H1. fold n. change (current_index (pool st1)) with ((i + 1) mod n).
      rewrite mod_shift. do 3 f_equal. lia.
Qed.

Lemma visited_rotate (l : list TorInstance) (s : Z) :
  l <> [] ->
  let n := Z.of_nat (length l) in
  visited l (map (fun j => Some (Z.to_nat ((s + Z.of_nat j) mod n))) (seq 0 (length l)))
  = map Some (rotate (Z.to_nat (s mod n)) l).
Proof.
  intros Hne n.
  assert (Hn : 0 < n) by (unfold n; destruct l; [congruence|simpl; lia]).
  unfold visited. rewrite map_map. cbn [mbind option_bind].
  apply list_eq. intros j.
  rewrite !list_lookup_fmap.
  destruct (decide (j < length l)%nat) as [Hj|Hj].
  - rewrite lookup_seq_lt by exact Hj. cbn.
    rewrite lookup_rotate_r by exact Hj.
    destruct (l !! rotate_nat_add _ _ _) eqn:E.
    + cbn. rewrite <- E. f_equal. unfold rotate_nat_add. fold n.
      rewrite Z2Nat.id by (apply Z.mod_pos_bound; exact Hn).
      rewrite Zplus_mod_idemp_l. reflexivity.
    + apply lookup_ge_None in E. pose proof (rotate_nat_add_lt (Z.to_nat (s mod n)) j (length l)).
      lia.
  - rewrite lookup_seq_ge by lia. cbn.
    rewrite (proj2 (lookup_ge_None _ _)); [reflexivity|].
    rewrite length_rotate. lia.
Qed.

Lemma rotate_perm {A} (s : nat) (l : list A) : Permutation (rotate s l) l.
Proof.
  unfold rotate. rewrite Permutation_app_comm, take_drop. reflexivity.
Qed.

Lemma refs_nodup (s : Z) (N : nat) :
  NoDup (map (fun j => Some (Z.to_nat ((s + Z.of_nat j) mod Z.of_nat N))) (seq 0 N)).
Proof.
  apply NoDup_fmap_2_strong; [|apply NoDup_seq].
  intros a b Ha Hb Heq.
  apply elem_of_seq in Ha, Hb.
  assert (Hn : 0 < Z.of_nat N) by lia.
  injection Heq as Heq.
  apply Z2Nat.inj in Heq; try (apply Z.mod_pos_bound; exact Hn).
  pose proof (Z.div_mod (s + Z.of_nat a) (Z.of_nat N) ltac:(lia)) as Da.
  pose proof (Z.div_mod (s + Z.of_nat b) (Z.of_nat N) ltac:(lia)) as Db.
  rewrite Heq in Da.
  set (q := (s + Z.of_nat a) / Z.of_nat N - (s + Z.of_nat b) / Z.of_nat N).
  assert (Hq : Z.of_nat a - Z.of_nat b = Z.of_nat N * q) by (unfold q; lia).
  destruct (Z.eq_dec q 0) as [Hz|Hz]; [rewrite Hz in Hq; lia|].
  assert (Hc : q <= -1 \/ 1 <= q) by lia.
  destruct Hc; nia.
Qed.

(** C1: with at least two enrolled instances, one rotation sets the active
    index to (index + 1) mod size, returns the instance in that slot and,
    for the rest, only hands the warm-up of the slot that was active to a
    thread; size rotations in a row return the slots index+1, index+2, ...
    (mod size), that is the pool list rotated to start after the active
    index, each slot exactly once. *)
Theorem rotation_round_robin (e : env) (st : state) :
  let l := instances (pool st) in
  let n := Z.of_nat (length l) in
  let i := current_index (pool st) in
  (2 <= length l)%nat ->
  (exists st1 inst,
     TorPoolManager.switch_to_next_instance e st =
       (Returned (Some (Z.to_nat ((i + 1) mod n))), st1) /\
     current_index (pool st1) = (i + 1) mod n /\
     instances (pool st1) = l /\
     l !! Z.to_nat ((i + 1) mod n) = Some inst /\
     trace st1 =
       (trace st ++ [EvThreadStart (prewarm_old_instance (Z.to_nat (i mod n)))])%list) /\
  (exists stN rs,
     rotations (length l) e st = (Returned rs, stN) /\
     rs = map (fun j => Some (Z.to_nat ((i + 1 + Z.of_nat j) mod n))) (seq 0 (length l)) /\
     NoDup rs /\
     visited l rs = map Some (rotate (Z.to_nat ((i + 1) mod n)) l) /\
     Permutation (rotate (Z.to_nat ((i + 1) mod n)) l) l).
Proof.
  intros l n i H.
  assert (Hn : 0 < n) by (unfold n; lia).
  split.
  - pose proof (switch_many e st H) as Hstep. cbv zeta in Hstep. fold l n i in Hstep.
    destruct (lookup_lt_is_Some_2 l (Z.to_nat ((i + 1) mod n))) as [inst Hinst].
    { pose proof (Z.mod_pos_bound (i + 1) n Hn). unfold n in *. lia. }
    eexists. exists inst. split; [exact Hstep|].
    repeat split; [exact Hinst|].
    cbn [after trace]. rewrite Zminus_mod_idemp_l, Z.add_simpl_r. reflexivity.
  - destruct (rotations_many (length l) e st H) as (stN & Hrun & _).
    fold l n i in Hrun.
    eexists. eexists. split; [exact Hrun|]. split; [reflexivity|].
    split; [|split].
    + unfold n. apply (refs_nodup (i + 1)).
    + apply (visited_rotate l (i + 1)). intros E. rewrite E in H. simpl in H. lia.
    + apply rotate_perm.
Qed.

Lemma rotation_round_robin_witness :
  exists stN,
    rotations 3 (sample_env 0 "") (sample_state 3 1) =
      (Returned [Some 2%nat; Some 0%nat; Some 1%nat], stN).
Proof.
  destruct (rotation_round_robin (sample_env 0 "") (sample_state 3 1)) as [_ H].
  - vm_compute. lia.
  - destruct H as (stN & rs & Hrun & Hrs & _). exists stN.
    rewrite Hrs in Hrun. exact Hrun.
Defined.

(** C9: in a pool of exactly one instance every rotation returns that
    instance (slot 0) at once and leaves the pool, the active index
    included, as it was; all it does itself is start the thread that will
    renew the identity. *)
Theorem single_instance_rotation (k : nat) (e : env) (st : state) (inst : TorInstance) :
  instances (pool st) = [inst] ->
  exists st',
    rotations k e st = (Returned (replicate k (Some 0%nat)), st') /\
    visited (instances (pool st)) (replicate k (Some 0%nat)) = replicate k (Some inst) /\
    pool st' = pool st /\
    trace st' = (trace st ++ replicate k (EvThreadStart (renew_single_ip 0)))%list.
Proof.
  intros H. destruct (rotations_single k inst e st H) as (st' & Hrun & Hpool & Htrace).
  exists st'. repeat split; try assumption.
  rewrite H. unfold visited. clear. induction k as [|k IH]; [reflexivity|].
  cbn [replicate map]. rewrite IH. reflexivity.
Qed.

Lemma single_instance_rotation_witness :
  exists st',
    rotations 4 (sample_env 0 "") (sample_state 1 0) =
      (Returned [Some 0%nat; Some 0%nat; Some 0%nat; Some 0%nat], st') /\
    current_index (pool st') = 0.
Proof.
  destruct (single_instance_rotation 4 (sample_env 0 "") (sample_state 1 0) (sample_instance 0))
    as (st' & Hrun & _ & Hpool & _).
  - reflexivity.
  - exists st'. split; [exact Hrun|]. rewrite Hpool. reflexivity.
Defined.

(** ** get_ip *)

Lemma Qltb_lt (a b : Q) : Py.Qltb a b = true <-> (a < b)%Q.
Proof.
  unfold Py.Qltb. rewrite negb_true_iff.
  split.
  - intros H. apply Qnot_le_lt. intros Hle.
    apply Qle_bool_iff in Hle. congruence.
  - intros H. destruct (Qle_bool b a) eqn:E; [|reflexivity].
    apply Qle_bool_iff in E. exfalso. exact (Qlt_not_le _ _ H E).
Qed.

Lemma guarded_returns {A} (c : M A) (a : A) (e : env) (st : state) :
  exists r st', try_except c (fun _ => ret a) e st = (Returned r, st').
Proof.
  unfold try_except, ret. destruct (c e st) as [[r|x] st']; eauto.
Qed.

Lemma attempts_return (self : TorInstance) (max_retries : Z) (retry_delay : Q)
    (todo : list Z) :
  forall (e : env) (st : state),
  exists r st',
    TorInstance.attempts self todo max_retries retry_delay e st = (Returned r, st').
Proof.
  induction todo as [|attempt todo IH]; intros e st.
  - eexists. eexists. reflexivity.
  - cbn [TorInstance.attempts]. unfold bind at 1.
    destruct (guarded_returns (TorInstance.lookup self) None e st) as (r & st1 & ->).
    destruct r as [found|].
    + eexists. eexists. reflexivity.
    + unfold bind.
      destruct (Py.Qltb 0 retry_delay && (attempt <? max_retries - 1)).
      * apply IH.
      * apply IH.
Qed.

Lemma lookup_fails (self : TorInstance) (e : env) (st : state) :
  answers_ip (env_http e (length (trace st))) = false ->
  try_except (TorInstance.lookup self) (fun _ => ret None) e st =
    (Returned None, after (EvHttpGet (socks_port self) (session self)) 0 e st).
Proof.
  intros H. unfold try_except, TorInstance.lookup, bind, call_exn, answers_ip in *.
  destruct (env_http e (length (trace st))) as [resp|x]; [|reflexivity].
  destruct (status_code resp =? 200); [|reflexivity].
  cbn [andb] in H. unfold lift.
  destruct (json resp) as [[d|]|x]; try reflexivity.
  destruct (dict_get "ip" d) as [[| | |s|]|]; try reflexivity.
  cbn [default]. destruct s; [reflexivity|discriminate H].
Qed.

Lemma lookups_snoc (tr : list event) (ev : event) :
  lookups (tr ++ [ev]) = (lookups tr + (if is_lookup ev then 1 else 0))%nat.
Proof.
  unfold lookups. rewrite List.filter_app, length_app. cbn.
  destruct (is_lookup ev); reflexivity.
Qed.

Lemma attempts_exhausted (self : TorInstance) (max_retries : Z) (retry_delay : Q)
    (e : env) (todo : list Z) :
  (forall k, answers_ip (env_http e k) = false) ->
  forall st : state,
  exists st',
    TorInstance.attempts self todo max_retries retry_delay e st =
      (Returned ("...", self), st') /\
    lookups (trace st') = (lookups (trace st) + length todo)%nat.
Proof.
  intros Hfail. induction todo as [|attempt todo IH]; intros st.
  - exists st. split; [reflexivity|]. simpl. lia.
  - cbn [TorInstance.attempts]. unfold bind at 1.
    rewrite (lookup_fails self e st (Hfail _)).
    set (st1 := after _ 0 e st).
    assert (H1 : lookups (trace st1) = S (lookups (trace st))).
    { unfold st1. cbn [after trace]. rewrite lookups_snoc. simpl. lia. }
    unfold bind.
    destruct (Py.Qltb 0 retry_delay && (attempt <? max_retries - 1)).
    + unfold time_sleep. set (st2 := after _ retry_delay e st1).
      destruct (IH st2) as (st' & Hrun & Hcount).
      exists st'. split; [exact Hrun|]. rewrite Hcount.
      unfold st2. cbn [after trace]. rewrite lookups_snoc, H1. simpl. lia.
    + unfold ret. destruct (IH st1) as (st' & Hrun & Hcount).
      exists st'. split; [exact Hrun|]. rewrite Hcount, H1. simpl. lia.
Qed.

Lemma get_ip_hit (self : TorInstance) (max_retries : Z) (retry_delay : Q)
    (e : env) (st : state) (ip : string) :
  _ip_cache self = Some ip -> ip <> "" ->
  (now st - _ip_cache_time self < _cache_ttl self)%Q ->
  TorInstance.get_ip self max_retries retry_delay e st =
    (Returned (ip, self),
     {| pool := pool st; trace := trace st ++ [EvTime]; now := now st |}).
Proof.
  intros Hc Hne Hage. unfold TorInstance.get_ip, bind, time_time.
  unfold TorInstance.cached. rewrite Hc.
  destruct ip as [|c ip]; [congruence|].
  apply Qltb_lt in Hage. rewrite Hage. reflexivity.
Qed.

(** C7 as stated fails: when the address service answers a blank, [get_ip]
    returns the empty text and stores it with the time; the next call, well
    within the TTL and with no renewal in between, does not return what is
    cached but makes a lookup and returns another address. *)
Lemma blank_answer_not_reused :
  exists self1 st1 self2 st2,
    TorInstance.get_ip (sample_instance 0) 1 0 blank_env (at_time (sample_state 1 0) 5)
      = (Returned ("", self1), st1) /\
    _ip_cache self1 = Some "" /\
    (now st1 - _ip_cache_time self1 < _cache_ttl self1)%Q /\
    TorInstance.get_ip self1 1 0 blank_env st1 = (Returned ("9.9.9.9", self2), st2) /\
    lookups (trace st2) = S (lookups (trace st1)).
Proof.
  eexists. eexists. eexists. eexists.
  split; [vm_compute; reflexivity|].
  split; [reflexivity|].
  split; [vm_compute; reflexivity|].
  split; [vm_compute; reflexivity|reflexivity].
Qed.

(** C7, amended: [get_ip] never raises; while the cache holds a non-empty
    address younger than the TTL (60 s unless changed) it returns that
    address, leaves the instance as it was and performs no lookup, so any
    two calls within the TTL return the same string; when the cache cannot
    be used and every lookup fails it makes [max_retries] attempts and
    returns the sentinel "...". *)
Theorem get_ip_cached_or_pending (self : TorInstance) (max_retries : Z)
    (retry_delay : Q) (e : env) (st : state) :
  (forall s c h, _cache_ttl (TorInstance.__init__ s c h) = 60%Q) /\
  (exists r st', TorInstance.get_ip self max_retries retry_delay e st = (Returned r, st')) /\
  (forall ip, _ip_cache self = Some ip -> ip <> "" ->
     (now st - _ip_cache_time self < _cache_ttl self)%Q ->
     TorInstance.get_ip self max_retries retry_delay e st =
       (Returned (ip, self),
        {| pool := pool st; trace := (trace st ++ [EvTime])%list; now := now st |}) /\
     forall (st2 : state) (max_retries2 : Z) (retry_delay2 : Q),
       (now st2 - _ip_cache_time self < _cache_ttl self)%Q ->
       exists st2',
         TorInstance.get_ip self max_retries2 retry_delay2 e st2 = (Returned (ip, self), st2') /\
         lookups (trace st2') = lookups (trace st2)) /\
  ((TorInstance.cached self = None \/
    ~ (now st - _ip_cache_time self < _cache_ttl self)%Q) ->
   (forall k, answers_ip (env_http e k) = false) ->
   exists st',
     TorInstance.get_ip self max_retries retry_delay e st = (Returned ("...", self), st') /\
     lookups (trace st') = (lookups (trace st) + Z.to_nat max_retries)%nat).
Proof.
  split; [reflexivity|]. split; [|split].
  - unfold TorInstance.get_ip, bind, time_time.
    destruct (TorInstance.cached self) as [ip|].
    + destruct (Py.Qltb _ _).
      * eexists. eexists. reflexivity.
      * apply attempts_return.
    + apply attempts_return.
  - intros ip Hc Hne Hage. split.
    + apply get_ip_hit; assumption.
    + intros st2 mr2 rd2 Hage2. eexists. split.
      * apply get_ip_hit; eassumption.
      * cbn [trace]. rewrite lookups_snoc. simpl. lia.
  - intros Hmiss Hfail.
    set (st1 := {| pool := pool st; trace := (trace st ++ [EvTime])%list; now := now st |}).
    destruct (attempts_exhausted self max_retries retry_delay e (seqZ 0 max_retries) Hfail st1)
      as (st' & Hrun & Hcount).
    exists st'. split.
    + unfold TorInstance.get_ip, bind, time_time. fold st1.
      destruct Hmiss as [Hnone|Hold].
      * rewrite Hnone. exact Hrun.
      * destruct (TorInstance.cached self) as [ip|]; [|exact Hrun].
        destruct (Py.Qltb _ _) eqn:E; [|exact Hrun].
        apply Qltb_lt in E. contradiction.
    + rewrite Hcount, length_seqZ. unfold st1. cbn [trace].
      rewrite lookups_snoc. simpl. lia.
Qed.

Lemma get_ip_cached_or_pending_witness :
  (exists st', TorInstance.get_ip cached_instance 1 0 offline_env (at_time (sample_state 1 0) 59)
               = (Returned ("1.2.3.4", cached_instance), st')) /\
  (exists st', TorInstance.get_ip cached_instance 2 0 offline_env (at_time (sample_state 1 0) 60)
               = (Returned ("...", cached_instance), st') /\ lookups (trace st') = 2%nat).
Proof.
  split.
  - destruct (get_ip_cached_or_pending cached_instance 1 0 offline_env
                (at_time (sample_state 1 0) 59)) as (_ & _ & Hhit & _).
    destruct (Hhit "1.2.3.4") as [Hrun _].
    + reflexivity.
    + discriminate.
    + reflexivity.
    + eexists. exact Hrun.
  - destruct (get_ip_cached_or_pending cached_instance 2 0 offline_env
                (at_time (sample_state 1 0) 60)) as (_ & _ & _ & Hmiss).
    destruct Hmiss as (st' & Hrun & Hcount).
    + right. vm_compute. intros H. discriminate H.
    + intros k. reflexivity.
    + exists st'. split; [exact Hrun|exact Hcount].
Defined.

(** ** Computations that only talk to the outside *)

Lemma ns_nonneg (n : N) : (0 <= ns n)%Q.
Proof. unfold ns, Qle. simpl. lia. Qed.

Lemma after_later (ev : event) (d : Q) (e : env) (st : state) :
  (0 <= d)%Q -> (now st <= now (after ev d e st))%Q.
Proof.
  intros Hd. cbn [after now]. rewrite Qred_correct.
  pose proof (ns_nonneg (env_elapsed e (length (trace st)))). lra.
Qed.

Section Preserves.

Variable R : state -> state -> Prop.
Hypothesis R_refl : forall st, R st st.
Hypothesis R_trans : forall st1 st2 st3, R st1 st2 -> R st2 st3 -> R st1 st3.

Lemma preserves_ret {A} (a : A) : preserves R (ret a).
Proof. intros e st. apply R_refl. Qed.

Lemma preserves_raise {A} (x : exn) : preserves R (@raise A x).
Proof. intros e st. apply R_refl. Qed.

Lemma preserves_lift {A} (o : outcome A) : preserves R (lift o).
Proof. intros e st. apply R_refl. Qed.

Lemma preserves_get_pool : preserves R get_pool.
Proof. intros e st. apply R_refl. Qed.

Lemma preserves_bind {A B} (c : M A) (k : A -> M B) :
  preserves R c -> (forall a, preserves R (k a)) -> preserves R (bind c k).
Proof.
  intros Hc Hk e st. unfold bind. specialize (Hc e st).
  destruct (c e st) as [[a|x] st1]; cbn [snd] in *.
  - eapply R_trans; [exact Hc|apply Hk].
  - exact Hc.
Qed.

Lemma preserves_try_except {A} (c : M A) (h : exn -> M A) :
  preserves R c -> (forall x, preserves R (h x)) -> preserves R (try_except c h).
Proof.
  intros Hc Hh e st. unfold try_except. specialize (Hc e st).
  destruct (c e st) as [[a|x] st1]; cbn [snd] in *.
  - exact Hc.
  - eapply R_trans; [exact Hc|apply Hh].
Qed.

Lemma preserves_capture {A} (c : M A) : preserves R c -> preserves R (capture c).
Proof.
  intros Hc e st. unfold capture. specialize (Hc e st).
  destruct (c e st) as [r st1]. exact Hc.
Qed.

End Preserves.

Lemma moved_on_refl (st : state) : moved_on st st.
Proof. split; [reflexivity|apply Qle_refl]. Qed.

Lemma moved_on_trans (st1 st2 st3 : state) :
  moved_on st1 st2 -> moved_on st2 st3 -> moved_on st1 st3.
Proof.
  intros [Hp Ht] [Hp' Ht']. split; [congruence|eapply Qle_trans; eassumption].
Qed.

Lemma no_write_refl (st : state) : no_write st st.
Proof. split; reflexivity. Qed.

Lemma no_write_trans (st1 st2 st3 : state) :
  no_write st1 st2 -> no_write st2 st3 -> no_write st1 st3.
Proof. intros [Hp Ht] [Hp' Ht']. split; congruence. Qed.

Lemma outside_ret {A} (a : A) : outside (ret a).
Proof. apply preserves_ret, moved_on_refl. Qed.

Lemma outside_raise {A} (x : exn) : outside (@raise A x).
Proof. apply preserves_raise, moved_on_refl. Qed.

Lemma outside_lift {A} (o : outcome A) : outside (lift o).
Proof. apply preserves_lift, moved_on_refl. Qed.

Lemma outside_bind {A B} (c : M A) (k : A -> M B) :
  outside c -> (forall a, outside (k a)) -> outside (bind c k).
Proof. apply preserves_bind, moved_on_trans. Qed.

Lemma outside_try_except {A} (c : M A) (h : exn -> M A) :
  outside c -> (forall x, outside (h x)) -> outside (try_except c h).
Proof. apply preserves_try_except, moved_on_trans. Qed.

Lemma outside_capture {A} (c : M A) : outside c -> outside (capture c).
Proof. apply preserves_capture. Qed.

Lemma outside_call_exn {A} (ev : event) (answer : env -> nat -> outcome A) :
  outside (call_exn ev answer).
Proof.
  intros e st. unfold call_exn. cbn [snd]. split; [reflexivity|].
  apply after_later. apply Qle_refl.
Qed.

Lemma outside_time : outside time_time.
Proof. intros e st. split; [reflexivity|apply Qle_refl]. Qed.

Lemma outside_sleep (d : Q) : (0 <= d)%Q -> outside (time_sleep d).
Proof.
  intros Hd e st. unfold time_sleep. cbn [snd]. split; [reflexivity|].
  apply after_later. exact Hd.
Qed.

Create HintDb outside.
#[local] Hint Resolve outside_ret outside_raise outside_lift outside_capture
  outside_call_exn outside_time : outside.

Ltac outside_step :=
  first
    [ apply outside_bind; [|intros ?]
    | apply outside_try_except; [|intros ?]
    | apply outside_sleep; unfold Qle; simpl; lia
    | match goal with
      | |- outside (if ?b then _ else _) => destruct b
      | |- outside (match ?x with _ => _ end) => destruct x
      end
    | solve [auto with outside] ].

Ltac outside_auto := repeat outside_step.

Lemma outside_stop (self : TorInstance) : outside (TorInstance.stop self).
Proof. unfold TorInstance.stop. outside_auto. Qed.

Lemma outside_probe (self : TorInstance) (t : Q) :
  outside (TorInstance.is_circuit_ready_socks self t).
Proof. unfold TorInstance.is_circuit_ready_socks. outside_auto. Qed.

Lemma outside_wait_probe (n : nat) (self : TorInstance) :
  outside (TorInstance.wait_probe n self).
Proof.
  induction n as [|n IH]; cbn [TorInstance.wait_probe].
  - outside_auto.
  - apply outside_bind; [outside_auto|intros _].
    apply outside_bind; [|intros [|]; [outside_auto|exact IH]].
    apply outside_try_except; [apply outside_probe|intros; outside_auto].
Qed.

#[local] Hint Resolve outside_stop outside_probe outside_wait_probe : outside.

Lemma outside_start (self : TorInstance) : outside (TorInstance.start self).
Proof. unfold TorInstance.start. outside_auto. Qed.

Lemma outside_ready (self : TorInstance) : outside (TorInstance.is_circuit_ready self).
Proof. unfold TorInstance.is_circuit_ready. outside_auto. Qed.

#[local] Hint Resolve outside_start outside_ready : outside.

Lemma outside_all_ready (l : list TorInstance) : outside (TorPoolManager.all_ready l).
Proof.
  induction l as [|inst l IH]; cbn [TorPoolManager.all_ready]; outside_auto.
Qed.

Lemma outside_stop_all (l : list TorInstance) : outside (TorPoolManager.stop_all l).
Proof.
  induction l as [|inst l IH]; cbn [TorPoolManager.stop_all]; outside_auto.
Qed.

Lemma outside_launch (self : TorPoolManager) (todo : list Z) :
  outside (TorPoolManager.launch self todo).
Proof.
  induction todo as [|i todo IH]; cbn [TorPoolManager.launch]; outside_auto.
Qed.

(** ** The instances built by start_pool *)

Lemma stop_result (self : TorInstance) (e : env) (st : state) :
  exists self' st',
    TorInstance.stop self e st = (Returned self', st') /\
    socks_port self' = socks_port self /\ control_port self' = control_port self.
Proof.
  unfold TorInstance.stop. destruct (process self).
  - unfold bind, try_except, call_exn, ret.
    destruct (env_io e (length (trace st))); eexists; eexists; split; try reflexivity; split; reflexivity.
  - eexists; eexists; split; [reflexivity|split; reflexivity].
Qed.

Lemma start_ports (self : TorInstance) (e : env) (st : state)
    (ok : bool) (self' : TorInstance) (st' : state) :
  TorInstance.start self e st = (Returned (ok, self'), st') ->
  socks_port self' = socks_port self /\ control_port self' = control_port self.
Proof.
  unfold TorInstance.start. destruct (process self) eqn:Hp.
  - unfold ret. intros H. injection H as _ <- _. split; reflexivity.
  - unfold bind at 1. unfold call_exn at 1.
    destruct (env_exists e (length (trace st))) as [[|]|x]; cbn [negb]; try discriminate.
    + unfold try_except, bind at 1. unfold call_exn at 1.
      set (st1 := after _ 0 e st).
      destruct (env_popen e (length (trace st1))) as [[]|x].
      * set (st2 := after _ 0 e st1). unfold bind at 1.
        destruct (TorInstance.wait_probe 180 _ e st2) as [[[|]|x] st3]; cbn [negb].
        -- unfold ret. intros H. injection H as _ <- _. split; reflexivity.
        -- unfold bind.
           destruct (stop_result (TorInstance.set_process self (Some tt)) e st3)
             as (s2 & st4 & -> & Hs & Hc).
           unfold ret. intros H. injection H as _ <- _. split; assumption.
        -- unfold bind.
           destruct (stop_result self e st3) as (s2 & st4 & -> & Hs & Hc).
           unfold ret. intros H. injection H as _ <- _. split; assumption.
      * unfold bind.
        destruct (stop_result self e (after (EvPopen (socks_port self)) 0 e st1))
          as (s2 & st4 & -> & Hs & Hc).
        unfold ret. intros H. injection H as _ <- _. split; assumption.
    + unfold ret. intros H. injection H as _ <- _. split; reflexivity.
Qed.

Lemma launch_ports (self : TorPoolManager) (todo : list Z) :
  forall (e : env) (st : state),
  exists launched st',
    TorPoolManager.launch self todo e st = (Returned launched, st') /\
    map (fun p => (socks_port (fst p), control_port (fst p))) launched =
    map (fun i => (base_socks_port self + 2 * i, base_control_port self + 2 * i)) todo.
Proof.
  induction todo as [|i todo IH]; intros e st.
  - eexists. eexists. split; reflexivity.
  - cbn [TorPoolManager.launch]. unfold bind at 1, capture.
    set (inst := TorInstance.__init__ _ _ true).
    destruct (TorInstance.start inst e st) as [r st1] eqn:Hstart.
    destruct (IH e st1) as (launched & st' & Hrun & Hports).
    unfold bind. rewrite Hrun. unfold ret.
    eexists. eexists. split; [reflexivity|].
    cbn [map]. rewrite Hports. f_equal.
    destruct r as [[ok inst']|x]; cbn [fst].
    + destruct (start_ports _ _ _ _ _ _ Hstart) as [-> ->].
      unfold inst. cbn. f_equal; lia.
    + unfold inst. cbn. f_equal; lia.
Qed.

Lemma all_ports_split (l : list TorInstance) :
  Permutation (all_ports l) (map socks_port l ++ map control_port l).
Proof.
  induction l as [|inst l IH]; [reflexivity|].
  unfold all_ports in *. cbn [map concat app]. rewrite IH.
  constructor. apply Permutation_middle.
Qed.

Lemma stride_nodup (b N : Z) : NoDup (map (fun i => b + 2 * i) (seqZ 0 N)).
Proof.
  apply NoDup_fmap_2; [|apply NoDup_seqZ].
  intros i j H. lia.
Qed.

Lemma strides_disjoint (Bs Bc N : Z) :
  (forall x, x ∈ map (fun i => Bs + 2 * i) (seqZ 0 N) ->
             x ∉ map (fun i => Bc + 2 * i) (seqZ 0 N))
  <-> Z.odd (Bc - Bs) = true \/ 2 * N <= Z.abs (Bc - Bs).
Proof.
  split.
  - intros H. destruct (Z.odd (Bc - Bs)) eqn:Hodd; [left; reflexivity|right].
    destruct (Z.le_gt_cases (2 * N) (Z.abs (Bc - Bs))) as [Hle|Hgt]; [exact Hle|exfalso].
    assert (Heven : Z.even (Bc - Bs) = true) by (rewrite <- Z.negb_odd, Hodd; reflexivity).
    apply Z.even_spec in Heven. destruct Heven as [k Hk].
    destruct (Z.le_gt_cases 0 k) as [Hpos|Hneg].
    + apply (H (Bs + 2 * k)).
      * apply list_elem_of_fmap. exists k. split; [reflexivity|].
        apply elem_of_seqZ. lia.
      * apply list_elem_of_fmap. exists 0. split; [lia|].
        apply elem_of_seqZ. lia.
    + apply (H (Bs + 2 * 0)).
      * apply list_elem_of_fmap. exists 0. split; [reflexivity|].
        apply elem_of_seqZ. lia.
      * apply list_elem_of_fmap. exists (- k). split; [lia|].
        apply elem_of_seqZ. lia.
  - intros H x Hs Hc.
    apply list_elem_of_fmap in Hs. destruct Hs as (i & -> & Hi).
    apply list_elem_of_fmap in Hc. destruct Hc as (j & Heq & Hj).
    apply elem_of_seqZ in Hi, Hj.
    destruct H as [Hodd|Hfar]; [|lia].
    apply Z.odd_spec in Hodd. destruct Hodd as [k Hk]. lia.
Qed.

(** C6 as stated fails: with base ports 9050 and 9052 the control port of
    instance 0 is the SOCKS port of instance 1. *)
Lemma ports_collide :
  exists launched st',
    TorPoolManager.launch (TorPoolManager.__init__ 2 9050 9052) (seqZ 0 2)
      (sample_env 100 "") (sample_state 0 0) = (Returned launched, st') /\
    ~ NoDup (all_ports (map fst launched)).
Proof.
  eexists. eexists. split; [vm_compute; reflexivity|].
  cbn. intros H. inversion H as [|? ? _ H1]; subst.
  inversion H1 as [|? ? H2 _]; subst. apply H2. left.
Qed.

(** C6, amended: instance i of start_pool is built with SOCKS port
    Bs + 2i and control port Bc + 2i; the SOCKS ports are pairwise distinct
    and so are the control ports; all ports of the pool together are
    pairwise distinct exactly when Bc - Bs is odd (as for the defaults 9050
    and 9051) or at least 2N in absolute value. *)
Theorem start_pool_ports (self : TorPoolManager) (e : env) (st : state) :
  let N := count self in
  let Bs := base_socks_port self in
  let Bc := base_control_port self in
  exists launched st',
    TorPoolManager.launch self (seqZ 0 N) e st = (Returned launched, st') /\
    map (fun p => (socks_port (fst p), control_port (fst p))) launched =
      map (fun i => (Bs + 2 * i, Bc + 2 * i)) (seqZ 0 N) /\
    NoDup (map socks_port (map fst launched)) /\
    NoDup (map control_port (map fst launched)) /\
    (NoDup (all_ports (map fst launched)) <->
     Z.odd (Bc - Bs) = true \/ 2 * N <= Z.abs (Bc - Bs)).
Proof.
  intros N Bs Bc.
  destruct (launch_ports self (seqZ 0 N) e st) as (launched & st' & Hrun & Hports).
  fold Bs Bc in Hports.
  assert (Hs : map socks_port (map fst launched) = map (fun i => Bs + 2 * i) (seqZ 0 N)).
  { rewrite map_map.
    change (map (fun x => socks_port (fst x)) launched)
      with (map (fun x => fst ((fun p => (socks_port (fst p), control_port (fst p))) x)) launched).
    rewrite <- (map_map _ fst), Hports, map_map. reflexivity. }
  assert (Hc : map control_port (map fst launched) = map (fun i => Bc + 2 * i) (seqZ 0 N)).
  { rewrite map_map.
    change (map (fun x => control_port (fst x)) launched)
      with (map (fun x => snd ((fun p => (socks_port (fst p), control_port (fst p))) x)) launched).
    rewrite <- (map_map _ snd), Hports, map_map. reflexivity. }
  exists launched, st'. split; [exact Hrun|]. split; [exact Hports|].
  split; [rewrite Hs; apply stride_nodup|].
  split; [rewrite Hc; apply stride_nodup|].
  pose proof (all_ports_split (map fst launched)) as Hperm. rewrite Hs, Hc in Hperm.
  pose proof (stride_nodup Bs N) as Ns. pose proof (stride_nodup Bc N) as Nc.
  rewrite <- strides_disjoint. split; intros H.
  - apply (NoDup_Permutation_proper _ _ Hperm) in H. apply NoDup_app in H. tauto.
  - apply (NoDup_Permutation_proper _ _ Hperm). apply NoDup_app. tauto.
Qed.

(** ** start_pool *)

Lemma set_instances_same (pm : TorPoolManager) :
  TorPoolManager.set_instances pm (instances pm) = pm.
Proof. destruct pm. reflexivity. Qed.

Lemma enroll_spec (launched : list (TorInstance * outcome bool)) :
  forall (e : env) (st : state),
  exists st',
    TorPoolManager.enroll launched e st = (Returned tt, st') /\
    pool st' = TorPoolManager.set_instances (pool st)
                 (instances (pool st) ++ started launched) /\
    trace st' = trace st /\ now st' = now st.
Proof.
  induction launched as [|[inst fut] launched IH]; intros e st.
  - exists st. split; [reflexivity|].
    unfold started. cbn. rewrite app_nil_r, set_instances_same. auto.
  - cbn [TorPoolManager.enroll]. unfold bind at 1.
    destruct fut as [[|]|x].
    + unfold bind at 1, get_pool, set_pool.
      set (st1 := {| pool := _; trace := trace st; now := now st |}).
      destruct (IH e st1) as (st' & Hrun & Hpool & Htrace & Hnow).
      exists st'. split; [exact Hrun|]. split; [|split; assumption].
      rewrite Hpool. unfold st1, started. cbn. rewrite <- app_assoc. reflexivity.
    + unfold ret. destruct (IH e st) as (st' & Hrun & Hpool & Htrace & Hnow).
      exists st'. split; [exact Hrun|]. split; [|split; assumption].
      rewrite Hpool. reflexivity.
    + unfold ret. destruct (IH e st) as (st' & Hrun & Hpool & Htrace & Hnow).
      exists st'. split; [exact Hrun|]. split; [|split; assumption].
      rewrite Hpool. reflexivity.
Qed.

Lemma outside_get_pool : outside get_pool.
Proof. intros e st. split; [reflexivity|apply Qle_refl]. Qed.

#[local] Hint Resolve outside_get_pool outside_all_ready : outside.

Lemma outside_wait_ready (fuel : nat) (t : Q) : outside (TorPoolManager.wait_ready fuel t).
Proof.
  induction fuel as [|fuel IH]; cbn [TorPoolManager.wait_ready]; outside_auto.
Qed.

Lemma wait_ready_returns (fuel : nat) (t : Q) :
  forall (e : env) (st : state),
  exists b st', TorPoolManager.wait_ready fuel t e st = (Returned b, st').
Proof.
  induction fuel as [|fuel IH]; intros e st; cbn [TorPoolManager.wait_ready].
  - eexists. eexists. reflexivity.
  - unfold bind at 1, time_time.
    destruct (Py.Qltb _ _); [|eexists; eexists; reflexivity].
    unfold bind at 1, get_pool. unfold bind at 1. cbn [pool].
    destruct (guarded_returns (TorPoolManager.all_ready (instances (pool st))) false e
                {| pool := pool st; trace := trace st ++ [EvTime]; now := now st |})
      as (b & st1 & ->).
    destruct b; [eexists; eexists; reflexivity|].
    unfold bind, time_sleep. apply IH.
Qed.

Lemma wait_ready_ends (fuel : nat) (t : Q) :
  forall (e : env) (st : state),
  (30 - (now st - t) <= inject_Z (Z.of_nat fuel) * (1 # 2))%Q ->
  exists st', TorPoolManager.wait_ready (S fuel) t e st = (Returned true, st').
Proof.
  induction fuel as [|fuel IH]; intros e st Hleft.
  - cbn [TorPoolManager.wait_ready]. unfold bind at 1, time_time.
    destruct (Py.Qltb _ _) eqn:E; [|eexists; reflexivity].
    apply Qltb_lt in E. unfold TorPoolManager.max_wait in E.
    change (inject_Z (Z.of_nat 0)) with 0%Q in Hleft. exfalso. lra.
  - remember (S fuel) as fuel1 eqn:Hf.
    cbn [TorPoolManager.wait_ready]. unfold bind at 1, time_time.
    destruct (Py.Qltb _ _) eqn:E; [|eexists; reflexivity].
    unfold bind at 1, get_pool. unfold bind at 1. cbn [pool].
    set (st0 := {| pool := pool st; trace := trace st ++ [EvTime]; now := now st |}).
    pose proof (outside_try_except (TorPoolManager.all_ready (instances (pool st)))
                  (fun _ => ret false) (outside_all_ready _)
                  (fun _ => outside_ret false) e st0) as [_ Hlater].
    destruct (guarded_returns (TorPoolManager.all_ready (instances (pool st))) false e st0)
      as (b & st1 & Hrun).
    rewrite Hrun in Hlater |- *. cbn [snd] in Hlater.
    destruct b; [eexists; reflexivity|].
    unfold bind, time_sleep. subst fuel1. apply IH.
    cbn [after now]. rewrite Qred_correct.
    pose proof (ns_nonneg (env_elapsed e (length (trace st1)))) as Hns.
    change (now st0) with (now st) in Hlater.
    rewrite Nat2Z.inj_succ in Hleft. unfold Z.succ in Hleft.
    rewrite inject_Z_plus in Hleft. change (inject_Z 1) with 1%Q in Hleft.
    lra.
Qed.

Lemma prelude_spec (e : env) (st : state) :
  exists st1, prelude e st = (Returned tt, st1) /\ pool st1 = pool st.
Proof.
  assert (Hout : outside prelude) by (unfold prelude, os_system; outside_auto).
  destruct (Hout e st) as [Hpool _].
  destruct (guarded_returns (os_system TorPoolManager.taskkill ;;; time_sleep (1 # 2)) tt e st)
    as ([] & st1 & Hrun).
  fold prelude in Hrun. rewrite Hrun in Hpool. exists st1. split; [exact Hrun|exact Hpool].
Qed.

Lemma start_pool_run (fuel : nat) (e : env) (st : state) :
  exists launched st2 r st',
    TorPoolManager.launch (pool st) (seqZ 0 (count (pool st))) e (snd (prelude e st))
      = (Returned launched, st2) /\
    TorPoolManager.start_pool fuel e st = (r, st') /\
    ((count (pool st) <= 0 /\ r = Raised ValueError /\ pool st' = pool st) \/
     (0 < count (pool st) /\
      pool st' = TorPoolManager.set_instances (pool st)
                   (instances (pool st) ++ started launched) /\
      (r = Returned false \/
       (r = Returned true /\ instances (pool st') <> []) \/
       (r = Raised (RuntimeError TorPoolManager.no_instances) /\ instances (pool st') = [])) /\
      ((61 <= fuel)%nat -> r <> Returned false))).
Proof.
  destruct (prelude_spec e st) as (st1 & Hpre & Hpool1).
  rewrite Hpre. cbn [snd].
  destruct (launch_ports (pool st) (seqZ 0 (count (pool st))) e st1)
    as (launched & st2 & Hlaunch & _).
  destruct (outside_launch (pool st) (seqZ 0 (count (pool st))) e st1) as [Hpool2 _].
  rewrite Hlaunch in Hpool2. cbn [snd] in Hpool2.
  destruct (enroll_spec launched e st2) as (st3 & Henroll & Hpool3 & Htrace3 & Hnow3).
  set (st3t := {| pool := pool st3; trace := trace st3 ++ [EvTime]; now := now st3 |}).
  destruct (wait_ready_returns fuel (now st3) e st3t) as (b & st4 & Hwait).
  destruct (outside_wait_ready fuel (now st3) e st3t) as [Hpool4 _].
  rewrite Hwait in Hpool4. cbn [snd] in Hpool4. change (pool st3t) with (pool st3) in Hpool4.
  exists launched, st2.
  unfold TorPoolManager.start_pool. unfold bind at 1. fold prelude. rewrite Hpre.
  unfold bind at 1, get_pool. rewrite Hpool1.
  destruct (Z.leb_spec (Z.min (count (pool st)) 15) 0) as [Hc|Hc].
  - exists (Raised ValueError), st1. split; [exact Hlaunch|]. split; [reflexivity|].
    left. split; [lia|]. split; [reflexivity|exact Hpool1].
  - unfold bind at 1. rewrite Hlaunch.
    unfold bind at 1. rewrite Henroll.
    unfold bind at 1, time_time. fold st3t.
    unfold bind at 1. rewrite Hwait.
    assert (Hfinal : pool st4 = TorPoolManager.set_instances (pool st)
                                  (instances (pool st) ++ started launched)).
    { rewrite Hpool4, Hpool3, Hpool2, Hpool1. reflexivity. }
    assert (Hfuel : (61 <= fuel)%nat -> b = true).
    { intros Hf. destruct fuel as [|fuel']; [lia|].
      destruct (wait_ready_ends fuel' (now st3) e st3t) as (st5 & Hends).
      - change (now st3t) with (now st3).
        assert (60 <= Z.of_nat fuel') by lia.
        assert (Hq : (inject_Z 60 <= inject_Z (Z.of_nat fuel'))%Q)
          by (rewrite <- Zle_Qle; assumption).
        change (inject_Z 60) with 60%Q in Hq. lra.
      - rewrite Hends in Hwait. congruence. }
    destruct b; cbn [negb].
    + unfold bind, get_pool.
      destruct (instances (pool st4)) as [|i0 l0] eqn:E.
      * eexists. eexists. split; [reflexivity|]. split; [reflexivity|].
        right. split; [lia|]. split; [exact Hfinal|].
        split; [right; right; split; [reflexivity|exact E]|]. discriminate.
      * eexists. eexists. split; [reflexivity|]. split; [reflexivity|].
        right. split; [lia|]. split; [exact Hfinal|].
        split; [right; left; split; [reflexivity|rewrite E; discriminate]|]. discriminate.
    + eexists. eexists. split; [reflexivity|]. split; [reflexivity|].
      right. split; [lia|]. split; [exact Hfinal|].
      split; [left; reflexivity|]. intros Hf. specialize (Hfuel Hf). discriminate.
Qed.




(** ** The pool invariant *)

Lemma perform_all_cons (o : op) (ops : list op) (e : env) (st : state) :
  perform_all (o :: ops) e st = perform_all ops e (snd (perform o e st)).
Proof.
  cbn [perform_all]. unfold bind, capture.
  destruct (perform o e st) as [r st1]. reflexivity.
Qed.

Lemma stop_always_returns (self : TorInstance) (e : env) (st : state) :
  exists self' st', TorInstance.stop self e st = (Returned self', st').
Proof.
  destruct (stop_result self e st) as (self' & st' & H & _). eauto.
Qed.

Lemma stop_all_returns (l : list TorInstance) :
  forall (e : env) (st : state),
  exists st', TorPoolManager.stop_all l e st = (Returned tt, st') /\ pool st' = pool st.
Proof.
  induction l as [|inst l IH]; intros e st.
  - exists st. split; reflexivity.
  - cbn [TorPoolManager.stop_all]. unfold bind.
    destruct (stop_always_returns inst e st) as (self' & st1 & Hstop).
    destruct (outside_stop inst e st) as [Hpool _].
    rewrite Hstop in Hpool |- *. cbn [snd] in Hpool.
    destruct (IH e st1) as (st' & Hrun & Hpool').
    exists st'. split; [exact Hrun|congruence].
Qed.

Lemma stop_pool_spec (e : env) (st : state) :
  exists st',
    TorPoolManager.stop_pool e st = (Returned tt, st') /\
    pool st' = TorPoolManager.set_instances (pool st) [].
Proof.
  unfold TorPoolManager.stop_pool. unfold bind at 1, get_pool.
  destruct (stop_all_returns (instances (pool st)) e st) as (st1 & Hrun & Hpool).
  unfold bind at 1. rewrite Hrun.
  unfold bind, set_pool, try_except, os_system, call_exn, ret.
  destruct (env_io e _) as [[]|x]; eexists; (split; [reflexivity|]); reflexivity.
Qed.

Lemma switch_empty (e : env) (st : state) :
  instances (pool st) = [] ->
  TorPoolManager.switch_to_next_instance e st = (Returned None, st).
Proof.
  intros H. unfold TorPoolManager.switch_to_next_instance, bind, get_pool.
  rewrite H. reflexivity.
Qed.

Lemma size_cases {A} (l : list A) :
  l = [] \/ (exists x, l = [x]) \/ (2 <= length l)%nat.
Proof.
  destruct l as [|a [|b l]]; [left; reflexivity|right; left; eauto|right; right; simpl; lia].
Qed.

Lemma rotate_keeps_fit (e : env) (st : state) :
  index_fits (pool st) -> index_fits (pool (snd (perform Rotate e st))).
Proof.
  intros H. cbn [perform]. unfold bind.
  destruct (size_cases (instances (pool st))) as [E|[[x E]|E]].
  - rewrite (switch_empty e st E). exact H.
  - rewrite (switch_single e st x E). exact H.
  - rewrite (switch_many e st E). cbn.
    pose proof (Z.mod_pos_bound (current_index (pool st) + 1)
                  (Z.of_nat (length (instances (pool st)))) ltac:(lia)).
    unfold index_fits. cbn. lia.
Qed.

Lemma start_keeps_fit (fuel : nat) (e : env) (st : state) :
  index_fits (pool st) -> index_fits (pool (snd (perform (Start fuel) e st))).
Proof.
  intros H. cbn [perform].
  destruct (start_pool_run fuel e st) as (launched & st2 & r & st' & _ & Hrun & Hcases).
  assert (Hsnd : pool (snd ((TorPoolManager.start_pool fuel ;;; ret tt) e st)) = pool st').
  { unfold bind. rewrite Hrun. destruct r; reflexivity. }
  rewrite Hsnd.
  destruct Hcases as [(_ & _ & ->)|(_ & -> & _)]; [exact H|].
  unfold index_fits in *. cbn. rewrite length_app. lia.
Qed.

Lemma stays_empty (ops : list op) (e : env) :
  forall st : state,
  instances (pool st) = [] ->
  forallb (fun o => negb (is_start o)) ops = true ->
  instances (pool (snd (perform_all ops e st))) = [].
Proof.
  induction ops as [|o ops IH]; intros st Hnil Hops.
  - exact Hnil.
  - rewrite perform_all_cons. cbn [forallb] in Hops.
    apply andb_true_iff in Hops as [Ho Hops].
    apply IH; [|exact Hops].
    destruct o as [fuel| |]; [discriminate Ho| |].
    + cbn [perform]. unfold bind. rewrite (switch_empty e st Hnil). exact Hnil.
    + cbn [perform]. destruct (stop_pool_spec e st) as (st' & Hrun & Hpool).
      rewrite Hrun. cbn [snd]. rewrite Hpool. reflexivity.
Qed.

Lemma fit_single_use (ops : list op) (e : env) :
  forall st : state,
  index_fits (pool st) -> single_use ops = true ->
  pool_invariant (pool (snd (perform_all ops e st))).
Proof.
  induction ops as [|o ops IH]; intros st Hfit Hops.
  - cbn. intros Hne. destruct Hfit as [H0 [Hz|Hlt]]; [|lia].
    destruct (instances (pool st)); [congruence|]. simpl. lia.
  - rewrite perform_all_cons. destruct o as [fuel| |]; cbn [single_use] in Hops.
    + apply IH; [apply start_keeps_fit; exact Hfit|exact Hops].
    + apply IH; [apply rotate_keeps_fit; exact Hfit|exact Hops].
    + intros Hne. exfalso. apply Hne. apply stays_empty; [|exact Hops].
      cbn [perform]. destruct (stop_pool_spec e st) as (st' & Hrun & Hpool).
      rewrite Hrun. cbn [snd]. rewrite Hpool. reflexivity.
Qed.

(** C2 as stated fails: three instances, two rotations, a stop, and a
    second start in which only one instance comes up leave the active index
    at 2 in a pool of one. *)
Lemma stale_index_after_restart :
  ~ pool_invariant
      (pool (snd (perform_all [Start 61; Rotate; Rotate; Stop; Start 61]
                    (sample_env 28 "") (fresh_state 3)))).
Proof.
  remember (pool (snd _)) as pm eqn:E. vm_compute in E. subst pm.
  intros H. unfold pool_invariant in H. cbn in H.
  assert (Hlt : 0 <= 2 < 1) by (apply H; discriminate). lia.
Qed.

(** C2, amended: from a newly constructed manager, every sequence of pool
    starts, rotations and pool stops in which no start follows a stop leaves
    0 <= activeIndex < len(instances) whenever the pool is non-empty. *)
Theorem pool_invariant_single_use (ops : list op) (e : env)
    (size socks control : Z) (tr : list event) (t : Q) :
  single_use ops = true ->
  pool_invariant
    (pool (snd (perform_all ops e
                  {| pool := TorPoolManager.__init__ size socks control;
                     trace := tr; now := t |}))).
Proof.
  intros Hops. apply fit_single_use; [|exact Hops].
  unfold index_fits. cbn. lia.
Qed.

Lemma pool_invariant_single_use_witness :
  pool_invariant
    (pool (snd (perform_all [Start 61; Rotate; Rotate; Start 61; Rotate; Stop; Rotate]
                  (sample_env 100 "") (fresh_state 3)))).
Proof.
  apply (pool_invariant_single_use _ (sample_env 100 "") 3 9050 9051 [] 0).
  reflexivity.
Defined.

(** ** handle *)

(** C10: whatever the environment answers (an empty peek, any protocol, an
    exception while peeking or in the HTTP handling), [handle] returns
    normally and the last thing it does is close the client socket. *)
Theorem handle_closes_client (int : string -> option Z)
    (decode_ignore : string -> string) (decode : string -> option string)
    (urlparse : string -> outcome (option string * outcome (option Z)))
    (e : env) (st : state) :
  exists st' tr,
    HybridProxyHandler.handle int decode_ignore decode urlparse e st = (Returned tt, st') /\
    trace st' = (tr ++ [EvClose Client])%list.
Proof.
  unfold HybridProxyHandler.handle, try_finally.
  match goal with
  | |- context [try_except ?c (fun _ => ret tt) e st] =>
      destruct (guarded_returns c tt e st) as ([] & st1 & ->)
  end.
  unfold try_except, HybridProxyHandler.close, call_exn.
  destruct (env_io e (length (trace st1))) as [[]|x];
    eexists; exists (trace st1); split; reflexivity.
Qed.

(** ** connect_to_tor *)

(** C4 (code defect): when the method-negotiation reply is one byte long,
    [connect_to_tor] returns None but the socket it connected is never
    closed: reading [resp[1]] raises IndexError, which the outer [except]
    swallows without calling [close]. *)
Theorem connect_to_tor_short_reply_not_closed :
  exists st',
    HybridProxyHandler.connect_to_tor "example.com" 443 short_reply_env (sample_state 1 0)
      = (Returned None, st') /\
    trace st' = [EvConnect 9050;
                 EvSendAll Backend HybridProxyHandler.method_request;
                 EvRecv Backend 2 false] /\
    ~ In (EvClose Backend) (trace st').
Proof.
  eexists. split; [vm_compute; reflexivity|]. split; [reflexivity|].
  cbn. intros [H|[H|[H|[]]]]; discriminate H.
Qed.

(** ** handle_http, the CONNECT branch *)

Lemma client_writes_snoc (tr : list event) (ev : event) :
  client_writes (tr ++ [ev]) =
  (client_writes tr ++
   match ev with EvSendAll Client d => [d] | _ => [] end)%list.
Proof.
  unfold client_writes. rewrite omap_app. f_equal.
  destruct ev as [| | | | | | | | |[|] ?| | | |]; reflexivity.
Qed.

Lemma quiet_call_exn {A} (ev : event) (answer : env -> nat -> outcome A) :
  match ev with EvSendAll Client _ => False | _ => True end ->
  quiet (call_exn ev answer).
Proof.
  intros Hev e st. unfold call_exn. cbn [snd]. split; [reflexivity|].
  cbn [after trace]. rewrite client_writes_snoc.
  destruct ev as [| | | | | | | | |[|] ?| | | |]; try contradiction; apply app_nil_r.
Qed.

Lemma quiet_get_proxy_port : quiet TorPoolManager.get_proxy_port.
Proof.
  unfold TorPoolManager.get_proxy_port, TorPoolManager.getitem, TorPoolManager.deref.
  apply preserves_bind; [exact no_write_trans|apply preserves_get_pool, no_write_refl|].
  intros self. destruct (instances self); [apply preserves_ret, no_write_refl|].
  apply preserves_bind; [exact no_write_trans| |intros r].
  - destruct (Py.position _ _);
      [apply preserves_ret, no_write_refl|apply preserves_raise, no_write_refl].
  - apply preserves_bind; [exact no_write_trans| |intros inst; apply preserves_ret, no_write_refl].
    apply preserves_bind; [exact no_write_trans|apply preserves_get_pool, no_write_refl|].
    intros self'. destruct (instances self' !! r);
      [apply preserves_ret, no_write_refl|apply preserves_raise, no_write_refl].
Qed.

Ltac quiet_step :=
  first
    [ apply preserves_ret; exact no_write_refl
    | apply preserves_raise; exact no_write_refl
    | apply quiet_call_exn; exact I
    | apply preserves_bind; [exact no_write_trans| |intros ?]
    | apply preserves_try_except; [exact no_write_trans| |intros ?]
    | match goal with
      | |- preserves no_write (if ?b then _ else _) => destruct b
      | |- preserves no_write (match ?x with _ => _ end) => destruct x
      end ].

Lemma quiet_connect_to_tor (target_host : string) (target_port : Z) :
  quiet (HybridProxyHandler.connect_to_tor target_host target_port).
Proof.
  unfold HybridProxyHandler.connect_to_tor.
  apply preserves_bind; [exact no_write_trans|exact quiet_get_proxy_port|intros tor_port].
  unfold quiet, HybridProxyHandler.connect, HybridProxyHandler.sendall,
    HybridProxyHandler.recv, HybridProxyHandler.close, HybridProxyHandler.accepted,
    HybridProxyHandler.connect_request.
  repeat quiet_step.
Qed.







(** ** Request lines of the form CONNECT target version *)

Lemma split_token (u r : string) :
  no_space u = true ->
  Py.split " " (u ++ String " " r) = u :: Py.split " " r.
Proof.
  induction u as [|c u IH]; intros H.
  - reflexivity.
  - cbn [no_space] in H. apply andb_true_iff in H as [Hc Hu].
    apply negb_true_iff in Hc.
    cbn [String.append Py.split]. rewrite Hc, (IH Hu). reflexivity.
Qed.

Lemma split_one (u : string) : no_space u = true -> Py.split " " u = [u].
Proof.
  induction u as [|c u IH]; intros H.
  - reflexivity.
  - cbn [no_space] in H. apply andb_true_iff in H as [Hc Hu].
    apply negb_true_iff in Hc.
    cbn [Py.split]. rewrite Hc, (IH Hu). reflexivity.
Qed.

Lemma prefix_app (p s : string) :
  String.prefix p s = true -> exists r, s = (p ++ r)%string.
Proof.
  revert s. induction p as [|a p IH]; intros s H.
  - exists s. reflexivity.
  - destruct s as [|b s]; [discriminate H|].
    cbn [String.prefix] in H. destruct (ascii_dec a b) as [->|]; [|discriminate H].
    destruct (IH s H) as [r ->]. exists r. reflexivity.
Qed.

Lemma no_space_app (u v : string) :
  no_space (u ++ v) = no_space u && no_space v.
Proof.
  induction u as [|c u IH]; [reflexivity|].
  cbn [String.append no_space]. rewrite IH, andb_assoc. reflexivity.
Qed.

Lemma token_not_rotate (s : string) :
  no_space s = true -> Py.contains "GET /rotate" s = false.
Proof.
  induction s as [|c s IH]; intros H; [reflexivity|].
  cbn [Py.contains]. apply orb_false_iff. split.
  - destruct (String.prefix "GET /rotate" (String c s)) eqn:E; [|reflexivity].
    apply prefix_app in E as [r E]. rewrite E in H. discriminate H.
  - apply IH. cbn [no_space] in H. apply andb_true_iff in H as [_ H]. exact H.
Qed.

Lemma tail_not_rotate (version u : string) :
  no_space u = true -> no_space version = true ->
  String.prefix "/" version = false ->
  Py.contains "GET /rotate" (u ++ String " " version) = false.
Proof.
  intros Hu Hv Hslash. induction u as [|c u IH].
  - cbn [String.append Py.contains]. apply orb_false_iff.
    split; [reflexivity|apply token_not_rotate; exact Hv].
  - cbn [no_space] in Hu. apply andb_true_iff in Hu as [_ Hu].
    cbn [String.append Py.contains]. apply orb_false_iff. split; [|apply IH; exact Hu].
    destruct (String.prefix "GET /rotate" _) eqn:E; [|reflexivity].
    apply prefix_app in E as [r E]. exfalso.
    injection E as _ E.
    destruct u as [|c2 [|c3 [|c4 u]]]; cbn [String.append] in E.
    + discriminate E.
    + injection E as _ E. discriminate E.
    + injection E as _ _ E. rewrite E in Hslash. discriminate Hslash.
    + injection E as E2 E3 E4 _. subst c2 c3 c4. discriminate Hu.
Qed.

(** a request line [CONNECT target version] whose two tokens hold no space
    and whose version does not begin with a slash is never taken for the
    control path, and splits into exactly these three parts *)
Lemma connect_line_shape (target version : string) :
  no_space target = true -> no_space version = true ->
  String.prefix "/" version = false ->
  Py.contains "GET /rotate" (connect_line target version) = false /\
  Py.split " " (connect_line target version) = ["CONNECT"; target; version].
Proof.
  intros Ht Hv Hslash. split.
  - unfold connect_line.
    change ("CONNECT " ++ target ++ String " " version)%string
      with (String "C" (String "O" (String "N" (String "N" (String "E" (String "C"
             (String "T" (String " " (target ++ String " " version)%string)))))))).
    cbn [Py.contains String.prefix]. cbn.
    apply tail_not_rotate; assumption.
  - unfold connect_line.
    change ("CONNECT " ++ target ++ String " " version)%string
      with ("CONNECT" ++ String " " (target ++ String " " version))%string.
    rewrite split_token by reflexivity.
    rewrite split_token by exact Ht.
    rewrite split_one by exact Hv. reflexivity.
Qed.

(** ** The pool getters *)

Lemma position_none (n : nat) (i : Z) :
  Py.position n i = None <-> i < - Z.of_nat n \/ Z.of_nat n <= i.
Proof.
  unfold Py.position.
  destruct (Z.leb_spec 0 i), (Z.ltb_spec i (Z.of_nat n)), (Z.ltb_spec i 0),
    (Z.leb_spec (- Z.of_nat n) i); cbn; split; intros Hx; try discriminate; try lia; auto.
Qed.

Lemma position_bound (n : nat) (i : Z) (r : nat) :
  Py.position n i = Some r -> (r < n)%nat.
Proof.
  unfold Py.position.
  destruct (Z.leb_spec 0 i), (Z.ltb_spec i (Z.of_nat n)), (Z.ltb_spec i 0),
    (Z.leb_spec (- Z.of_nat n) i); cbn; intros Hx; inversion Hx; lia.
Qed.

Lemma get_proxy_port_pure (e : env) (st : state) :
  snd (TorPoolManager.get_proxy_port e st) = st.
Proof.
  unfold TorPoolManager.get_proxy_port, TorPoolManager.getitem, TorPoolManager.deref,
    bind, get_pool, ret, raise.
  destruct (instances (pool st)) as [|inst l]; [reflexivity|].
  destruct (Py.position _ _) as [r|]; [|reflexivity].
  destruct (_ !! r); reflexivity.
Qed.

Lemma get_proxy_port_raises (e : env) (st : state) :
  raised (fst (TorPoolManager.get_proxy_port e st)) <->
  instances (pool st) <> [] /\
  (current_index (pool st) < - Z.of_nat (length (instances (pool st))) \/
   Z.of_nat (length (instances (pool st))) <= current_index (pool st)).
Proof.
  rewrite <- position_none.
  unfold TorPoolManager.get_proxy_port, TorPoolManager.getitem, TorPoolManager.deref,
    bind, get_pool, ret, raise.
  destruct (instances (pool st)) as [|inst l] eqn:E.
  - cbn. split; [intros [x Hx]; discriminate Hx|intros [Hne _]; congruence].
  - rewrite <- E. destruct (Py.position _ _) as [r|] eqn:Hpos.
    + destruct (lookup_lt_is_Some_2 (instances (pool st)) r (position_bound _ _ _ Hpos))
        as [found ->].
      cbn. split; [intros [x Hx]; discriminate Hx|intros [_ Hx]; discriminate Hx].
    + cbn. split; [intros _; split; [rewrite E; discriminate|reflexivity]|].
      intros _. eexists. reflexivity.
Qed.

(** X1: [get_proxy_port] reads the pool only.  It returns 0 for an empty
    pool and the SOCKS port of [instances[current_index]] otherwise, a
    negative index counting from the end as in Python; it raises
    (IndexError) exactly when the pool is non-empty and the index lies
    outside [-len, len). *)
Theorem get_proxy_port_behaviour (e : env) (st : state) :
  let l := instances (pool st) in
  let i := current_index (pool st) in
  let n := Z.of_nat (length l) in
  snd (TorPoolManager.get_proxy_port e st) = st /\
  (l = [] -> fst (TorPoolManager.get_proxy_port e st) = Returned 0) /\
  (forall inst, 0 <= i < n -> l !! Z.to_nat i = Some inst ->
     fst (TorPoolManager.get_proxy_port e st) = Returned (socks_port inst)) /\
  (forall inst, - n <= i < 0 -> l !! Z.to_nat (n + i) = Some inst ->
     fst (TorPoolManager.get_proxy_port e st) = Returned (socks_port inst)) /\
  (raised (fst (TorPoolManager.get_proxy_port e st)) <->
     l <> [] /\ (i < - n \/ n <= i)).
Proof.
  intros l i n. subst l i n. split; [apply get_proxy_port_pure|].
  split; [|split; [|split; [|apply (get_proxy_port_raises e st)]]].
  - intros E. unfold TorPoolManager.get_proxy_port, bind, get_pool. rewrite E.
    reflexivity.
  - intros inst Hi Hget.
    unfold TorPoolManager.get_proxy_port, TorPoolManager.getitem, TorPoolManager.deref,
      bind, get_pool, ret.
    cbv beta.
    destruct (instances (pool st)) as [|a l'] eqn:E;
      [rewrite lookup_nil in Hget; discriminate|].
    rewrite (position_in_range _ _ Hi). cbv beta iota. rewrite E, Hget. reflexivity.
  - intros inst Hi Hget.
    unfold TorPoolManager.get_proxy_port, TorPoolManager.getitem, TorPoolManager.deref,
      bind, get_pool, ret.
    assert (Hpos : Py.position (length (instances (pool st))) (current_index (pool st))
                   = Some (Z.to_nat (Z.of_nat (length (instances (pool st)))
                                     + current_index (pool st)))).
    { unfold Py.position.
      destruct (Z.leb_spec 0 (current_index (pool st))); [lia|]. cbn [andb].
      destruct (Z.ltb_spec (current_index (pool st)) 0); [|lia].
      destruct (Z.leb_spec (- Z.of_nat (length (instances (pool st))))
                  (current_index (pool st))); [reflexivity|lia]. }
    cbv beta.
    destruct (instances (pool st)) as [|a l'] eqn:E;
      [rewrite lookup_nil in Hget; discriminate|].
    rewrite Hpos. cbv beta iota. rewrite E, Hget. reflexivity.
Qed.

Lemma get_proxy_port_behaviour_witness :
  fst (TorPoolManager.get_proxy_port (sample_env 0 "") (sample_state 3 1)) = Returned 9052 /\
  raised (fst (TorPoolManager.get_proxy_port (sample_env 0 "") (sample_state 3 3))).
Proof.
  destruct (get_proxy_port_behaviour (sample_env 0 "") (sample_state 3 1))
    as (_ & _ & Hin & _ & _).
  destruct (get_proxy_port_behaviour (sample_env 0 "") (sample_state 3 3))
    as (_ & _ & _ & _ & Hraise).
  split.
  - apply (Hin (sample_instance 1)); [vm_compute; split; [discriminate|reflexivity]|reflexivity].
  - apply Hraise. split; [discriminate|right; vm_compute; discriminate].
Defined.

(** ** connect_to_tor *)

(** X2: [connect_to_tor] raises exactly when [get_proxy_port] does, that
    is when the pool is non-empty and the active index is out of range;
    every failure of the socket work is turned into the result None.  With
    an empty pool it returns None without any socket call. *)
Theorem connect_to_tor_raises_only_on_index (target_host : string) (target_port : Z)
    (e : env) (st : state) :
  let l := instances (pool st) in
  let i := current_index (pool st) in
  let n := Z.of_nat (length l) in
  (raised (fst (HybridProxyHandler.connect_to_tor target_host target_port e st)) <->
     l <> [] /\ (i < - n \/ n <= i)) /\
  (l = [] ->
     HybridProxyHandler.connect_to_tor target_host target_port e st = (Returned None, st)).
Proof.
  intros l i n. subst l i n. split.
  - rewrite <- (get_proxy_port_raises e st).
    unfold HybridProxyHandler.connect_to_tor. unfold bind at 1.
    destruct (TorPoolManager.get_proxy_port e st) as [[port|x] st0]; cbn [fst].
    + split; [|intros [y Hy]; discriminate Hy].
      destruct (port =? 0); [intros [y Hy]; cbn in Hy; discriminate Hy|].
      match goal with
      | |- raised (fst (try_except ?c _ _ _)) -> _ =>
          destruct (guarded_returns c None e st0) as (r & st1 & ->)
      end.
      intros [y Hy]; discriminate Hy.
    + split; intros _; eexists; reflexivity.
  - intros E. unfold HybridProxyHandler.connect_to_tor. unfold bind at 1.
    unfold TorPoolManager.get_proxy_port, bind, get_pool. rewrite E. reflexivity.
Qed.

Lemma connect_to_tor_raises_only_on_index_witness :
  raised (fst (HybridProxyHandler.connect_to_tor "example.com" 443
                 (sample_env 0 "") (sample_state 3 3))) /\
  HybridProxyHandler.connect_to_tor "example.com" 443 (sample_env 0 "") (sample_state 0 0)
    = (Returned None, sample_state 0 0).
Proof.
  destruct (connect_to_tor_raises_only_on_index "example.com" 443
              (sample_env 0 "") (sample_state 3 3)) as [Hraise _].
  destruct (connect_to_tor_raises_only_on_index "example.com" 443
              (sample_env 0 "") (sample_state 0 0)) as [_ Hempty].
  split.
  - apply Hraise. split; [discriminate|right; vm_compute; discriminate].
  - apply Hempty. reflexivity.
Defined.

Lemma accepted_true (resp : string) (e : env) (st : state) (ok : bool) (st' : state) :
  HybridProxyHandler.accepted resp e st = (Returned ok, st') ->
  st' = st /\ (ok = true <-> Py.byte_at resp 1 = Some 0).
Proof.
  unfold HybridProxyHandler.accepted, ret, raise.
  destruct resp as [|c resp]; [intros H; injection H as <- <-; split; [reflexivity|]|].
  - cbn. split; intros Hx; discriminate Hx.
  - destruct (Py.byte_at (String c resp) 1) as [b|]; [|discriminate].
    intros H. injection H as <- <-. split; [reflexivity|].
    destruct (Z.eqb_spec b 0); split; intros Hx; try reflexivity; try discriminate; congruence.
Qed.

Lemma dial_success (target_host : string) (target_port : Z)
    (e : env) (st st1 : state) (s : sock) :
  HybridProxyHandler.connect_to_tor target_host target_port e st = (Returned (Some s), st1) ->
  exists tor_port req reply1 reply2,
    s = Backend /\
    fst (TorPoolManager.get_proxy_port e st) = Returned tor_port /\ tor_port <> 0 /\
    fst (HybridProxyHandler.connect_request target_host target_port e st) = Returned req /\
    env_recv e (length (trace st) + 2) = Returned reply1 /\
    Py.byte_at (String.substring 0 2 reply1) 1 = Some 0 /\
    env_recv e (length (trace st) + 4) = Returned reply2 /\
    Py.byte_at (String.substring 0 10 reply2) 1 = Some 0 /\
    pool st1 = pool st /\
    trace st1 =
      (trace st ++ [EvConnect tor_port;
                    EvSendAll Backend HybridProxyHandler.method_request;
                    EvRecv Backend 2 false;
                    EvSendAll Backend req;
                    EvRecv Backend 10 false])%list.
Proof.
  intros H. unfold HybridProxyHandler.connect_to_tor in H. unfold bind at 1 in H.
  pose proof (get_proxy_port_pure e st) as Hpure.
  destruct (TorPoolManager.get_proxy_port e st) as [[port|x] st0]; [|discriminate H].
  cbn [snd] in Hpure. subst st0.
  destruct (Z.eqb_spec port 0) as [|Hport]; [discriminate H|].
  exists port.
  unfold try_except in H.
  unfold bind at 1, HybridProxyHandler.connect, call_exn at 1 in H.
  destruct (env_io e (length (trace st))) as [[]|x]; [|discriminate H].
  set (s1 := after (EvConnect port) 0 e st) in H.
  unfold bind at 1, HybridProxyHandler.sendall at 1, call_exn at 1 in H.
  destruct (env_io e (length (trace s1))) as [[]|x]; [|discriminate H].
  set (s2 := after _ 0 e s1) in H.
  unfold bind at 1, HybridProxyHandler.recv at 1, bind at 1, call_exn at 1 in H.
  destruct (env_recv e (length (trace s2))) as [raw1|x] eqn:Hraw1; [|discriminate H].
  set (s3 := after _ 0 e s2) in H. unfold ret at 1 in H.
  unfold bind at 1 in H.
  destruct (HybridProxyHandler.accepted _ e s3) as [[ok1|x] s3'] eqn:Hok1; [|discriminate H].
  destruct (accepted_true _ _ _ _ _ Hok1) as [-> Hbyte1].
  destruct ok1; cbn [negb] in H.
  2:{ unfold bind, HybridProxyHandler.close, call_exn, ret in H.
      destruct (env_io e (length (trace s3))); discriminate H. }
  unfold bind at 1 in H.
  destruct (HybridProxyHandler.connect_request target_host target_port e s3)
    as [[req|x] s3'] eqn:Hreq; [|discriminate H].
  assert (Hreq' : forall st', HybridProxyHandler.connect_request target_host target_port e st'
                              = (Returned req, st')).
  { intros st'. revert Hreq. unfold HybridProxyHandler.connect_request, ret, raise.
    destruct (Py.pack_B _); [|discriminate]. destruct (Py.pack_H _); [|discriminate].
    intros Hx. injection Hx as <- _. reflexivity. }
  rewrite Hreq' in Hreq. injection Hreq as <-.
  exists req, raw1.
  unfold bind at 1, HybridProxyHandler.sendall at 1, call_exn at 1 in H.
  destruct (env_io e (length (trace s3))) as [[]|x]; [|discriminate H].
  set (s4 := after _ 0 e s3) in H.
  unfold bind at 1, HybridProxyHandler.recv at 1, bind at 1, call_exn at 1 in H.
  destruct (env_recv e (length (trace s4))) as [raw2|x] eqn:Hraw2; [|discriminate H].
  set (s5 := after _ 0 e s4) in H. unfold ret at 1 in H.
  unfold bind at 1 in H.
  destruct (HybridProxyHandler.accepted _ e s5) as [[ok2|x] s5'] eqn:Hok2; [|discriminate H].
  destruct (accepted_true _ _ _ _ _ Hok2) as [-> Hbyte2].
  destruct ok2; cbn [negb] in H.
  2:{ unfold bind, HybridProxyHandler.close, call_exn, ret in H.
      destruct (env_io e (length (trace s5))); discriminate H. }
  unfold ret in H. injection H as <- <-.
  exists raw2. split; [reflexivity|]. split; [reflexivity|]. split; [exact Hport|].
  split; [rewrite Hreq'; reflexivity|].
  assert (L2 : length (trace s2) = (length (trace st) + 2)%nat).
  { unfold s2, s1. cbn [after trace]. rewrite !length_app. simpl. lia. }
  assert (L4 : length (trace s4) = (length (trace st) + 4)%nat).
  { unfold s4, s3. cbn [after trace]. rewrite !length_app, L2. simpl. lia. }
  rewrite L2 in Hraw1. rewrite L4 in Hraw2.
  split; [exact Hraw1|]. split; [apply Hbyte1; reflexivity|].
  split; [exact Hraw2|]. split; [apply Hbyte2; reflexivity|].
  split; [reflexivity|].
  unfold s5, s4, s3, s2, s1. cbn [after trace]. rewrite <- !app_assoc. reflexivity.
Qed.


(** X3: a socket handed out by [connect_to_tor] went through the whole
    handshake and was never closed: the calls made are exactly connect to
    the active SOCKS port, send 05 01 00, read 2, send the CONNECT request,
    read 10, and the second byte of both replies is 0. *)
Theorem connect_to_tor_success (target_host : string) (target_port : Z)
    (e : env) (st st1 : state) (s : sock) :
  HybridProxyHandler.connect_to_tor target_host target_port e st = (Returned (Some s), st1) ->
  exists tor_port req reply1 reply2,
    fst (TorPoolManager.get_proxy_port e st) = Returned tor_port /\ tor_port <> 0 /\
    fst (HybridProxyHandler.connect_request target_host target_port e st) = Returned req /\
    env_recv e (length (trace st) + 2) = Returned reply1 /\
    Py.byte_at (String.substring 0 2 reply1) 1 = Some 0 /\
    env_recv e (length (trace st) + 4) = Returned reply2 /\
    Py.byte_at (String.substring 0 10 reply2) 1 = Some 0 /\
    pool st1 = pool st /\
    trace st1 =
      (trace st ++ [EvConnect tor_port;
                    EvSendAll Backend HybridProxyHandler.method_request;
                    EvRecv Backend 2 false;
                    EvSendAll Backend req;
                    EvRecv Backend 10 false])%list.
Proof.
  intros H.
  destruct (dial_success target_host target_port e st st1 s H)
    as (tor_port & req & reply1 & reply2 & _ & Hrest).
  exists tor_port, req, reply1, reply2. exact Hrest.
Qed.

Lemma connect_to_tor_success_witness :
  exists req st1,
    trace st1 = [EvConnect 9050;
                 EvSendAll Backend HybridProxyHandler.method_request;
                 EvRecv Backend 2 false;
                 EvSendAll Backend req;
                 EvRecv Backend 10 false] /\
    String.length req = 18%nat.
Proof.
  destruct (HybridProxyHandler.connect_to_tor "example.com" 443
              (sample_env 0 (String "005" (String "000" ""))) (sample_state 1 0))
    as [r st1] eqn:E.
  assert (Hr : r = Returned (Some Backend)) by (vm_compute in E; congruence).
  subst r.
  destruct (connect_to_tor_success _ _ _ _ _ _ E)
    as (port & req & r1 & r2 & Hport & _ & Hreq & _ & _ & _ & _ & _ & Htrace).
  exists req, st1. vm_compute in Hport. injection Hport as <-.
  split; [exact Htrace|]. vm_compute in Hreq. injection Hreq as <-. reflexivity.
Defined.

(** ** The CONNECT request on the wire *)

Lemma code_of_byte (n : Z) : 0 <= n <= 255 -> Py.code (ascii_of_N (Z.to_N n)) = n.
Proof.
  intros H. unfold Py.code. rewrite N_ascii_embedding by lia. lia.
Qed.

Lemma length_append (s t : string) :
  String.length (s ++ t) = (String.length s + String.length t)%nat.
Proof. induction s as [|c s IH]; [reflexivity|]. cbn. rewrite IH. reflexivity. Qed.

Lemma get_append (s t : string) (i : nat) :
  String.get (String.length s + i) (s ++ t) = String.get i t.
Proof. induction s as [|c s IH]; [reflexivity|]. cbn. exact IH. Qed.

Lemma substring_append (s t : string) :
  String.substring 0 (String.length s) (s ++ t) = s.
Proof. induction s as [|c s IH]; [destruct t; reflexivity|]. cbn. rewrite IH. reflexivity. Qed.

(** X4: the request built for [connect_to_tor] exists exactly when the host
    name has at most 255 bytes and the port fits 16 bits (otherwise
    struct.error); it is 05 01 00 03, the length byte, the host name, and
    the port in big-endian order, 7 + len(host) bytes in all. *)
Theorem connect_request_format (target_host : string) (target_port : Z)
    (e : env) (st : state) :
  let n := String.length target_host in
  ((n <= 255)%nat /\ 0 <= target_port <= 65535 ->
   exists req hi lo,
     HybridProxyHandler.connect_request target_host target_port e st = (Returned req, st) /\
     String.length req = (7 + n)%nat /\
     map (Py.byte_at req) [0; 1; 2; 3]%nat = [Some 5; Some 1; Some 0; Some 3] /\
     Py.byte_at req 4 = Some (Z.of_nat n) /\
     String.substring 5 n req = target_host /\
     Py.byte_at req (5 + n) = Some hi /\
     Py.byte_at req (6 + n) = Some lo /\
     0 <= lo < 256 /\ 256 * hi + lo = target_port) /\
  (~ ((n <= 255)%nat /\ 0 <= target_port <= 65535) ->
   HybridProxyHandler.connect_request target_host target_port e st = (Raised StructError, st)).
Proof.
  intros n. unfold HybridProxyHandler.connect_request, Py.pack_B, Py.pack_H, ret, raise.
  fold n. split.
  - intros [Hn Hp].
    destruct (Z.leb_spec 0 (Z.of_nat n)); [|lia].
    destruct (Z.leb_spec (Z.of_nat n) 255); [|lia].
    destruct (Z.leb_spec 0 target_port); [|lia].
    destruct (Z.leb_spec target_port 65535); [|lia].
    cbn [andb].
    eexists. exists (target_port / 256), (target_port mod 256).
    split; [reflexivity|].
    cbn [String.append].
    assert (Hhi : 0 <= target_port / 256 <= 255).
    { split; [apply Z.div_pos; lia|].
      assert (target_port / 256 < 256) by (apply Z.div_lt_upper_bound; lia). lia. }
    assert (Hlo : 0 <= target_port mod 256 < 256) by (apply Z.mod_pos_bound; lia).
    split; [|split; [|split; [|split; [|split; [|split; [|split]]]]]].
    + cbn [String.length]. rewrite length_append. cbn [String.length]. fold n. lia.
    + reflexivity.
    + unfold Py.byte_at. cbn [String.get option_map]. rewrite code_of_byte by lia. reflexivity.
    + cbn [String.substring]. apply substring_append.
    + unfold Py.byte_at. cbn [Nat.add String.get]. fold n.
      replace n with (n + 0)%nat at 1 by lia. unfold n at 1. rewrite get_append.
      cbn [String.get option_map]. rewrite code_of_byte by lia. reflexivity.
    + unfold Py.byte_at. cbn [Nat.add String.get]. fold n.
      replace (S n) with (n + 1)%nat by lia. unfold n at 1. rewrite get_append.
      cbn [String.get option_map]. rewrite code_of_byte by lia. reflexivity.
    + exact Hlo.
    + pose proof (Z.div_mod target_port 256 ltac:(lia)). lia.
  - intros Hnot.
    destruct (Z.leb_spec 0 (Z.of_nat n)); [|lia].
    destruct (Z.leb_spec (Z.of_nat n) 255); cbn [andb]; [|reflexivity].
    destruct (Z.leb_spec 0 target_port); cbn [andb]; [|reflexivity].
    destruct (Z.leb_spec target_port 65535); cbn [andb]; [|reflexivity].
    exfalso. apply Hnot. lia.
Qed.

Lemma connect_request_format_witness :
  (exists req, fst (HybridProxyHandler.connect_request "example.com" 443
                      (sample_env 0 "") (sample_state 1 0)) = Returned req /\
               String.length req = 18%nat) /\
  fst (HybridProxyHandler.connect_request "example.com" 70000
         (sample_env 0 "") (sample_state 1 0)) = Raised StructError.
Proof.
  destruct (connect_request_format "example.com" 443 (sample_env 0 "") (sample_state 1 0))
    as [Hok _].
  destruct (connect_request_format "example.com" 70000 (sample_env 0 "") (sample_state 1 0))
    as [_ Hbad].
  split.
  - destruct Hok as (req & hi & lo & Hrun & Hlen & _); [simpl; lia|].
    exists req. rewrite Hrun. split; [reflexivity|exact Hlen].
  - rewrite Hbad; [reflexivity|]. simpl. lia.
Defined.

(** X5: when the backend refuses the method negotiation, that is the reply
    is empty or has a second byte other than 0, [connect_to_tor] closes the
    socket and returns None; the CONNECT request is not sent. *)
Theorem connect_to_tor_refused (target_host : string) (target_port : Z)
    (e : env) (st : state) (tor_port : Z) (reply : string) :
  let k := length (trace st) in
  fst (TorPoolManager.get_proxy_port e st) = Returned tor_port ->
  tor_port <> 0 ->
  env_io e k = Returned tt ->
  env_io e (k + 1)%nat = Returned tt ->
  env_recv e (k + 2)%nat = Returned reply ->
  String.substring 0 2 reply = "" \/
  (exists b, Py.byte_at (String.substring 0 2 reply) 1 = Some b /\ b <> 0) ->
  exists st1,
    HybridProxyHandler.connect_to_tor target_host target_port e st = (Returned None, st1) /\
    trace st1 =
      (trace st ++ [EvConnect tor_port;
                    EvSendAll Backend HybridProxyHandler.method_request;
                    EvRecv Backend 2 false;
                    EvClose Backend])%list.
Proof.
  intros k Hport Hnz Hconn Hsend Hrecv Hreply.
  unfold HybridProxyHandler.connect_to_tor. unfold bind at 1.
  pose proof (get_proxy_port_pure e st) as Hpure.
  destruct (TorPoolManager.get_proxy_port e st) as [r st0].
  cbn [fst snd] in *. subst r st0.
  destruct (Z.eqb_spec tor_port 0) as [|_]; [contradiction|].
  unfold try_except.
  unfold bind at 1, HybridProxyHandler.connect, call_exn at 1. fold k. rewrite Hconn.
  set (s1 := after (EvConnect tor_port) 0 e st).
  assert (L1 : length (trace s1) = (k + 1)%nat)
    by (unfold s1; cbn [after trace]; rewrite length_app; reflexivity).
  unfold bind at 1, HybridProxyHandler.sendall at 1, call_exn at 1. rewrite L1, Hsend.
  set (s2 := after _ 0 e s1).
  assert (L2 : length (trace s2) = (k + 2)%nat)
    by (unfold s2; cbn [after trace]; rewrite length_app, L1; simpl; lia).
  unfold bind at 1, HybridProxyHandler.recv at 1, bind at 1, call_exn at 1.
  rewrite L2, Hrecv. unfold ret at 1.
  set (s3 := after _ 0 e s2).
  change (Z.to_nat 2) with 2%nat.
  assert (Hacc : HybridProxyHandler.accepted (String.substring 0 2 reply) e s3
                 = (Returned false, s3)).
  { unfold HybridProxyHandler.accepted. destruct Hreply as [->|(b & Hb & Hbz)]; [reflexivity|].
    destruct (String.substring 0 2 reply) as [|c rest]; [reflexivity|].
    rewrite Hb. unfold ret. destruct (Z.eqb_spec b 0); [contradiction|reflexivity]. }
  unfold bind at 1. rewrite Hacc. cbn [negb].
  unfold bind, HybridProxyHandler.close, call_exn, ret.
  destruct (env_io e (length (trace s3))) as [[]|x]; eexists; (split; [reflexivity|]);
    unfold s3, s2, s1; cbn [after trace]; rewrite <- !app_assoc; reflexivity.
Qed.

Lemma connect_to_tor_refused_witness :
  exists st1,
    HybridProxyHandler.connect_to_tor "example.com" 443
      (sample_env 0 (String "005" (String "255" ""))) (sample_state 1 0) = (Returned None, st1) /\
    trace st1 = [EvConnect 9050;
                 EvSendAll Backend HybridProxyHandler.method_request;
                 EvRecv Backend 2 false;
                 EvClose Backend].
Proof.
  apply (connect_to_tor_refused "example.com" 443
           (sample_env 0 (String "005" (String "255" ""))) (sample_state 1 0)
           9050 (String "005" (String "255" ""))).
  - reflexivity.
  - discriminate.
  - reflexivity.
  - reflexivity.
  - reflexivity.
  - right. exists 255. split; [reflexivity|discriminate].
Defined.

(** ** handle on connections that are not HTTP *)

(** X6: when the peek fails, returns nothing, or starts with a byte that is
    not classified HTTP (SOCKS4, SOCKS5, unknown), [handle] does nothing but
    close the client socket: no data is consumed, nothing is written, no
    backend is dialled and the pool is not touched. *)
Theorem handle_non_http (int : string -> option Z)
    (decode_ignore : string -> string) (decode : string -> option string)
    (urlparse : string -> outcome (option string * outcome (option Z)))
    (e : env) (st : state) :
  match env_recv e (length (trace st)) with
  | Raised _ => True
  | Returned raw =>
      match Py.byte_at (String.substring 0 4096 raw) 0 with
      | None => True
      | Some first => HybridProxyHandler.detect_protocol first <> "HTTP"
      end
  end ->
  exists st',
    HybridProxyHandler.handle int decode_ignore decode urlparse e st = (Returned tt, st') /\
    trace st' = (trace st ++ [EvRecv Client 4096 true; EvClose Client])%list /\
    pool st' = pool st.
Proof.
  intros H. unfold HybridProxyHandler.handle, try_finally, try_except at 1.
  unfold bind at 1, HybridProxyHandler.recv at 1, bind at 1, call_exn at 1.
  change (Z.to_nat 4096) with 4096%nat.
  set (s1 := after (EvRecv Client 4096 true) 0 e st).
  assert (Hclose : forall r : outcome unit,
            exists st',
              (let (_, st'0) := try_except (HybridProxyHandler.close Client)
                                  (fun _ => ret tt) e s1 in
               (r, st'0)) = (r, st') /\
              trace st' = (trace st ++ [EvRecv Client 4096 true; EvClose Client])%list /\
              pool st' = pool st).
  { intros r. unfold try_except, HybridProxyHandler.close, call_exn, ret.
    destruct (env_io e (length (trace s1))) as [[]|x]; eexists; (split; [reflexivity|]);
      (split; [unfold s1; cbn [after trace]; rewrite <- app_assoc; reflexivity|reflexivity]). }
  destruct (env_recv e (length (trace st))) as [raw|x].
  - unfold ret at 1.
    destruct (Py.byte_at (String.substring 0 4096 raw) 0) as [first|].
    + apply String.eqb_neq in H. rewrite H.
      unfold ret at 1. destruct (Hclose (Returned tt)) as (st' & Hrun & Hrest).
      exists st'. split; [|exact Hrest].
      unfold try_except, HybridProxyHandler.close, call_exn, ret in *.
      destruct (env_io e (length (trace s1))) as [[]|y]; congruence.
    + unfold ret at 1. destruct (Hclose (Returned tt)) as (st' & Hrun & Hrest).
      exists st'. split; [|exact Hrest].
      unfold try_except, HybridProxyHandler.close, call_exn, ret in *.
      destruct (env_io e (length (trace s1))) as [[]|y]; congruence.
  - unfold ret at 1. destruct (Hclose (Returned tt)) as (st' & Hrun & Hrest).
    exists st'. split; [|exact Hrest].
    unfold try_except, HybridProxyHandler.close, call_exn, ret in *.
    destruct (env_io e (length (trace s1))) as [[]|y]; congruence.
Qed.

Lemma handle_non_http_witness :
  exists st',
    HybridProxyHandler.handle ascii_int (fun b => b) Some no_urlparse
      (sample_env 0 (String "005" (String "001" (String "000" "")))) (sample_state 1 0)
    = (Returned tt, st') /\
    trace st' = [EvRecv Client 4096 true; EvClose Client].
Proof.
  destruct (handle_non_http ascii_int (fun b => b) Some no_urlparse
              (sample_env 0 (String "005" (String "001" (String "000" "")))) (sample_state 1 0))
    as (st' & Hrun & Htrace & _).
  - cbn. discriminate.
  - exists st'. split; [exact Hrun|exact Htrace].
Defined.

(** ** The control path *)

Lemma same_pool_refl (st : state) : same_pool st st.
Proof. reflexivity. Qed.

Lemma same_pool_trans (st1 st2 st3 : state) :
  same_pool st1 st2 -> same_pool st2 st3 -> same_pool st1 st3.
Proof. unfold same_pool. congruence. Qed.

Lemma same_shape_refl (st : state) : same_shape st st.
Proof. split; reflexivity. Qed.

Lemma same_shape_trans (st1 st2 st3 : state) :
  same_shape st1 st2 -> same_shape st2 st3 -> same_shape st1 st3.
Proof. intros [Hi Hl] [Hi' Hl']. split; congruence. Qed.

Lemma backend_idle_refl (st : state) : backend_idle st st.
Proof. reflexivity. Qed.

Lemma backend_idle_trans (st1 st2 st3 : state) :
  backend_idle st1 st2 -> backend_idle st2 st3 -> backend_idle st1 st3.
Proof. unfold backend_idle. congruence. Qed.

Lemma backend_events_snoc (tr : list event) (ev : event) :
  on_backend ev = false -> backend_events (tr ++ [ev]) = backend_events tr.
Proof.
  intros H. unfold backend_events. rewrite List.filter_app. cbn. rewrite H. apply app_nil_r.
Qed.

Lemma idle_call_exn {A} (ev : event) (answer : env -> nat -> outcome A) :
  on_backend ev = false -> preserves backend_idle (call_exn ev answer).
Proof. intros H e st. apply backend_events_snoc. exact H. Qed.

Lemma idle_time : preserves backend_idle time_time.
Proof. intros e st. apply backend_events_snoc. reflexivity. Qed.

Lemma idle_sleep (d : Q) : preserves backend_idle (time_sleep d).
Proof. intros e st. apply backend_events_snoc. reflexivity. Qed.

Lemma idle_thread_start (t : task) : preserves backend_idle (TorPoolManager.thread_start t).
Proof. intros e st. apply backend_events_snoc. reflexivity. Qed.

Lemma idle_set_pool (pm : TorPoolManager) : preserves backend_idle (set_pool pm).
Proof. intros e st. reflexivity. Qed.

Lemma pool_call_exn {A} (ev : event) (answer : env -> nat -> outcome A) :
  preserves same_pool (call_exn ev answer).
Proof. intros e st. reflexivity. Qed.

Lemma pool_time : preserves same_pool time_time.
Proof. intros e st. reflexivity. Qed.

Lemma pool_sleep (d : Q) : preserves same_pool (time_sleep d).
Proof. intros e st. reflexivity. Qed.

Ltac preserves_step Rrefl Rtrans prim :=
  first
    [ prim
    | apply (preserves_ret _ Rrefl)
    | apply (preserves_raise _ Rrefl)
    | apply (preserves_lift _ Rrefl)
    | apply (preserves_get_pool _ Rrefl)
    | apply (preserves_bind _ Rtrans); [|intros ?]
    | apply (preserves_try_except _ Rtrans); [|intros ?]
    | match goal with
      | |- preserves _ (if ?b then _ else _) => destruct b
      | |- preserves _ (match ?x with _ => _ end) => destruct x
      end ].

Ltac idle_prim :=
  first
    [ apply idle_call_exn; reflexivity
    | apply idle_time
    | apply idle_sleep
    | apply idle_thread_start
    | apply idle_set_pool ].

Ltac idle_auto := repeat preserves_step backend_idle_refl backend_idle_trans idle_prim.

Ltac pool_prim :=
  first [ apply pool_call_exn | apply pool_time | apply pool_sleep ].

Ltac pool_auto := repeat preserves_step same_pool_refl same_pool_trans pool_prim.

Lemma idle_attempts (self : TorInstance) (todo : list Z) (max_retries : Z) (retry_delay : Q) :
  preserves backend_idle (TorInstance.attempts self todo max_retries retry_delay).
Proof.
  induction todo as [|a todo IH]; cbn [TorInstance.attempts]; unfold TorInstance.lookup.
  - idle_auto.
  - idle_auto; exact IH.
Qed.

Lemma idle_instance_get_ip (self : TorInstance) (max_retries : Z) (retry_delay : Q) :
  preserves backend_idle (TorInstance.get_ip self max_retries retry_delay).
Proof.
  unfold TorInstance.get_ip. idle_auto; apply idle_attempts.
Qed.

Lemma pool_attempts (self : TorInstance) (todo : list Z) (max_retries : Z) (retry_delay : Q) :
  preserves same_pool (TorInstance.attempts self todo max_retries retry_delay).
Proof.
  induction todo as [|a todo IH]; cbn [TorInstance.attempts]; unfold TorInstance.lookup.
  - pool_auto.
  - pool_auto; exact IH.
Qed.

Lemma pool_instance_get_ip (self : TorInstance) (max_retries : Z) (retry_delay : Q) :
  preserves same_pool (TorInstance.get_ip self max_retries retry_delay).
Proof.
  unfold TorInstance.get_ip. pool_auto; apply pool_attempts.
Qed.

Lemma idle_get_ip (r : nat) (max_retries : Z) (retry_delay : Q) :
  preserves backend_idle (HybridProxyHandler.get_ip r max_retries retry_delay).
Proof.
  unfold HybridProxyHandler.get_ip, TorPoolManager.deref, TorPoolManager.update.
  repeat preserves_step backend_idle_refl backend_idle_trans
    ltac:(first [apply idle_instance_get_ip | idle_prim]).
Qed.

Lemma idle_switch : preserves backend_idle TorPoolManager.switch_to_next_instance.
Proof.
  unfold TorPoolManager.switch_to_next_instance, TorPoolManager.getitem. idle_auto.
Qed.

Lemma idle_rotate : preserves backend_idle HybridProxyHandler.rotate.
Proof.
  unfold HybridProxyHandler.rotate, TorPoolManager.get_current_instance,
    TorPoolManager.getitem, TorPoolManager.deref, HybridProxyHandler.sendall.
  repeat preserves_step backend_idle_refl backend_idle_trans
    ltac:(first [apply idle_get_ip | apply idle_switch | idle_prim]).
Qed.

Lemma instance_get_ip_returns (self : TorInstance) (max_retries : Z) (retry_delay : Q)
    (e : env) (st : state) :
  exists r st',
    TorInstance.get_ip self max_retries retry_delay e st = (Returned r, st') /\
    pool st' = pool st.
Proof.
  pose proof (pool_instance_get_ip self max_retries retry_delay e st) as Hpool.
  unfold same_pool in Hpool.
  assert (H : exists r st', TorInstance.get_ip self max_retries retry_delay e st
                            = (Returned r, st')).
  { unfold TorInstance.get_ip, bind, time_time.
    destruct (TorInstance.cached self) as [ip|].
    - destruct (Py.Qltb _ _); [eexists; eexists; reflexivity|apply attempts_return].
    - apply attempts_return. }
  destruct H as (r & st' & H). rewrite H in Hpool. eauto.
Qed.

Lemma shape_update (r : nat) (inst : TorInstance) :
  preserves same_shape (TorPoolManager.update r inst).
Proof.
  intros e st. unfold TorPoolManager.update, bind, get_pool, set_pool. cbn.
  split; [reflexivity|apply length_insert].
Qed.

Lemma shape_of_pool {A} (c : M A) : preserves same_pool c -> preserves same_shape c.
Proof. intros H e st. specialize (H e st). unfold same_pool in H. split; rewrite H; reflexivity. Qed.

Lemma shape_get_ip (r : nat) (max_retries : Z) (retry_delay : Q) :
  preserves same_shape (HybridProxyHandler.get_ip r max_retries retry_delay).
Proof.
  unfold HybridProxyHandler.get_ip, TorPoolManager.deref.
  repeat preserves_step same_shape_refl same_shape_trans
    ltac:(first [apply shape_update
                | apply shape_of_pool, pool_instance_get_ip
                | apply shape_of_pool, pool_call_exn]).
Qed.

Lemma handler_get_ip_returns (r : nat) (max_retries : Z) (retry_delay : Q)
    (e : env) (st : state) :
  (r < length (instances (pool st)))%nat ->
  exists ip st',
    HybridProxyHandler.get_ip r max_retries retry_delay e st = (Returned ip, st') /\
    same_shape st st'.
Proof.
  intros Hr. pose proof (shape_get_ip r max_retries retry_delay e st) as Hshape.
  destruct (lookup_lt_is_Some_2 _ _ Hr) as [inst Hinst].
  destruct (instance_get_ip_returns inst max_retries retry_delay e st) as (res & st1 & Hrun & _).
  assert (Heq : exists st',
            HybridProxyHandler.get_ip r max_retries retry_delay e st = (Returned (fst res), st')).
  { unfold HybridProxyHandler.get_ip, TorPoolManager.deref, TorPoolManager.update,
      bind, get_pool, set_pool, ret.
    rewrite Hinst, Hrun. eexists. reflexivity. }
  destruct Heq as (st' & Heq). rewrite Heq in Hshape.
  exists (fst res), st'. split; [exact Heq|exact Hshape].
Qed.

Lemma get_current_instance_active (e : env) (st : state) :
  instances (pool st) <> [] ->
  0 <= current_index (pool st) < Z.of_nat (length (instances (pool st))) ->
  TorPoolManager.get_current_instance e st
  = (Returned (Some (Z.to_nat (current_index (pool st)))), st).
Proof.
  intros Hne Hi. unfold TorPoolManager.get_current_instance, bind, get_pool,
    TorPoolManager.getitem.
  rewrite (position_in_range _ _ Hi).
  destruct (instances (pool st)); [congruence|reflexivity].
Qed.

Lemma shape_sendall (s : sock) (data : string) :
  preserves same_shape (HybridProxyHandler.sendall s data).
Proof. apply shape_of_pool, pool_call_exn. Qed.

Lemma shape_deref (r : nat) {A} (k : TorInstance -> M A) :
  (forall inst, preserves same_shape (k inst)) ->
  preserves same_shape (inst <- TorPoolManager.deref r ;; k inst).
Proof.
  intros Hk. unfold TorPoolManager.deref.
  repeat preserves_step same_shape_refl same_shape_trans ltac:(apply Hk).
Qed.

Lemma rotate_shape (e : env) (st : state) (res : outcome unit) (st' : state) :
  0 <= current_index (pool st) < Z.of_nat (length (instances (pool st))) ->
  HybridProxyHandler.rotate e st = (res, st') ->
  length (instances (pool st')) = length (instances (pool st)) /\
  current_index (pool st') =
    (if Nat.eqb (length (instances (pool st))) 1 then current_index (pool st)
     else (current_index (pool st) + 1) mod Z.of_nat (length (instances (pool st)))).
Proof.
  intros Hi Hrun.
  assert (Hne : instances (pool st) <> []).
  { intros E. rewrite E in Hi. simpl in Hi. lia. }
  unfold HybridProxyHandler.rotate, try_except in Hrun.
  unfold bind at 1 in Hrun. rewrite (get_current_instance_active e st Hne Hi) in Hrun.
  unfold bind at 1 in Hrun.
  destruct (handler_get_ip_returns (Z.to_nat (current_index (pool st))) 1 0 e st)
    as (ip & st2 & Hg & Hi2 & Hl2); [lia|].
  rewrite Hg in Hrun. cbv zeta in Hrun.
  unfold bind at 1, get_pool at 1 in Hrun. unfold bind at 1 in Hrun.
  assert (Hstep : exists r' st3,
            TorPoolManager.switch_to_next_instance e st2 = (Returned (Some r'), st3) /\
            length (instances (pool st3)) = length (instances (pool st)) /\
            current_index (pool st3) =
              (if Nat.eqb (length (instances (pool st))) 1 then current_index (pool st)
               else (current_index (pool st) + 1) mod Z.of_nat (length (instances (pool st))))).
  { destruct (size_cases (instances (pool st2))) as [E|[[x E]|E]].
    - rewrite E in Hl2. simpl in Hl2. rewrite <- Hl2 in Hi. simpl in Hi. lia.
    - rewrite (switch_single e st2 x E). eexists. eexists. split; [reflexivity|].
      cbn [after pool]. rewrite <- Hl2, E. cbn. split; [reflexivity|exact Hi2].
    - rewrite (switch_many e st2 E). eexists. eexists. split; [reflexivity|].
      cbn [after pool TorPoolManager.set_current_index instances current_index].
      rewrite Hl2, Hi2. split; [reflexivity|].
      destruct (Nat.eqb_spec (length (instances (pool st))) 1); [lia|reflexivity]. }
  destruct Hstep as (r' & st3 & Hsw & Hl3 & Hi3). rewrite Hsw in Hrun.
  match type of Hrun with
  | context [let (o, st'0) := ?c e st3 in _] =>
      assert (Hc : preserves same_shape c);
        [|specialize (Hc e st3); destruct (c e st3) as [[[]|x] st4]]
  end.
  - apply (preserves_bind _ same_shape_trans); [apply shape_get_ip|intros new_ip].
    apply shape_deref. intros inst. apply shape_sendall.
  - cbn [snd] in *. destruct Hc as [Hi4 Hl4]. injection Hrun as _ <-.
    rewrite Hl4, Hi4. split; assumption.
  - cbn [snd] in *. destruct Hc as [Hi4 Hl4].
    destruct (shape_sendall Client
                (HybridProxyHandler.server_error ("Error: " ++ HybridProxyHandler.exn_str x))
                e st4) as [Hi5 Hl5].
    rewrite Hrun in Hi5, Hl5. cbn [snd] in *.
    rewrite Hl5, Hi5, Hl4, Hi4. split; assumption.
Qed.

(** X7: a request whose first line contains GET /rotate is answered by the
    proxy itself: nothing happens on a backend socket.  When the active
    index is within the pool, afterwards the pool has the same size and the
    active index has advanced by one (mod size), or stayed if there is only
    one instance, whatever the lookups and the client socket do. *)
Theorem handle_http_rotate (int : string -> option Z)
    (decode_ignore : string -> string) (decode : string -> option string)
    (urlparse : string -> outcome (option string * outcome (option Z)))
    (data : string) (e : env) (st : state) :
  let l := instances (pool st) in
  let n := Z.of_nat (length l) in
  let i := current_index (pool st) in
  Py.contains "GET /rotate" (decode_ignore (hd "" (Py.split_crlf data))) = true ->
  let st' := snd (HybridProxyHandler.handle_http int decode_ignore decode urlparse data e st) in
  backend_events (trace st') = backend_events (trace st) /\
  (0 <= i < n ->
   length (instances (pool st')) = length l /\
   current_index (pool st') = (if Nat.eqb (length l) 1 then i else (i + 1) mod n)).
Proof.
  intros l n i Hrot st'. subst st'.
  unfold HybridProxyHandler.handle_http. cbv zeta. rewrite Hrot.
  split; [apply idle_rotate|]. intros Hi.
  destruct (HybridProxyHandler.rotate e st) as [res st'] eqn:Hrun.
  apply (rotate_shape e st res st' Hi Hrun).
Qed.

Lemma handle_http_rotate_witness :
  current_index
    (pool (snd (HybridProxyHandler.handle_http ascii_int (fun b => b) Some no_urlparse
                  ("GET /rotate HTTP/1.1" ++ Py.crlf ++ Py.crlf)%string
                  offline_env (sample_state 3 2))))
  = 0.
Proof.
  destruct (handle_http_rotate ascii_int (fun b => b) Some no_urlparse
              ("GET /rotate HTTP/1.1" ++ Py.crlf ++ Py.crlf)%string
              offline_env (sample_state 3 2)) as [_ H].
  - reflexivity.
  - destruct H as [_ H]; [vm_compute; split; [discriminate|reflexivity]|].
    rewrite H. reflexivity.
Defined.

(** X8: on an empty pool the control path answers with the 500 response
    "No active instance" and leaves the pool alone; if that write fails, the
    error response is written next. *)
Theorem handle_http_rotate_empty (int : string -> option Z)
    (decode_ignore : string -> string) (decode : string -> option string)
    (urlparse : string -> outcome (option string * outcome (option Z)))
    (data : string) (e : env) (st : state) :
  Py.contains "GET /rotate" (decode_ignore (hd "" (Py.split_crlf data))) = true ->
  instances (pool st) = [] ->
  exists res st',
    HybridProxyHandler.handle_http int decode_ignore decode urlparse data e st = (res, st') /\
    pool st' = pool st /\
    trace st' =
      (trace st ++
       EvSendAll Client (HybridProxyHandler.server_error "No active instance") ::
       match env_io e (length (trace st)) with
       | Returned _ => []
       | Raised x =>
           [EvSendAll Client
              (HybridProxyHandler.server_error ("Error: " ++ HybridProxyHandler.exn_str x))]
       end)%list.
Proof.
  intros Hrot Hempty.
  unfold HybridProxyHandler.handle_http. cbv zeta. rewrite Hrot.
  unfold HybridProxyHandler.rotate, try_except. unfold bind at 1.
  unfold TorPoolManager.get_current_instance, bind, get_pool. rewrite Hempty.
  unfold ret, HybridProxyHandler.sendall, call_exn.
  destruct (env_io e (length (trace st))) as [[]|x].
  - eexists. eexists. split; [reflexivity|]. split; reflexivity.
  - eexists. eexists. split; [reflexivity|]. split; [reflexivity|].
    cbn [after trace]. rewrite <- app_assoc. reflexivity.
Qed.

Lemma handle_http_rotate_empty_witness :
  client_writes
    (trace (snd (HybridProxyHandler.handle_http ascii_int (fun b => b) Some no_urlparse
                   ("GET /rotate HTTP/1.1" ++ Py.crlf ++ Py.crlf)%string
                   (sample_env 0 "") (sample_state 0 0))))
  = [HybridProxyHandler.server_error "No active instance"].
Proof.
  destruct (handle_http_rotate_empty ascii_int (fun b => b) Some no_urlparse
              ("GET /rotate HTTP/1.1" ++ Py.crlf ++ Py.crlf)%string
              (sample_env 0 "") (sample_state 0 0)) as (res & st' & Hrun & _ & Htrace).
  - reflexivity.
  - reflexivity.
  - rewrite Hrun. cbn [snd]. rewrite Htrace. reflexivity.
Defined.

(** ** Splitting *)

Lemma split_nonempty (c : ascii) (s : string) : Py.split c s <> [].
Proof.
  destruct s as [|a s]; cbn [Py.split]; [discriminate|].
  destruct (Ascii.eqb a c); [discriminate|].
  unfold Py.cons_head. destruct (Py.split c s); discriminate.
Qed.

Lemma split_lacks (c : ascii) (u : string) : lacks c u = true -> Py.split c u = [u].
Proof.
  induction u as [|a u IH]; intros H; [reflexivity|].
  cbn [lacks] in H. apply andb_true_iff in H as [Ha Hu]. apply negb_true_iff in Ha.
  cbn [Py.split]. rewrite Ha, (IH Hu). reflexivity.
Qed.

Lemma split_app_lacks (c : ascii) (u r : string) :
  lacks c u = true -> Py.split c (u ++ String c r) = u :: Py.split c r.
Proof.
  induction u as [|a u IH]; intros H.
  - cbn [String.append Py.split]. rewrite Ascii.eqb_refl. reflexivity.
  - cbn [lacks] in H. apply andb_true_iff in H as [Ha Hu]. apply negb_true_iff in Ha.
    cbn [String.append Py.split]. rewrite Ha, (IH Hu). reflexivity.
Qed.

Lemma split_one_inv (c : ascii) (s b : string) :
  Py.split c s = [b] -> s = b /\ lacks c s = true.
Proof.
  revert b. induction s as [|a s IH]; intros b H.
  - cbn in H. injection H as <-. split; reflexivity.
  - cbn [Py.split] in H. destruct (Ascii.eqb a c) eqn:Ha.
    + injection H as _ H. exfalso. exact (split_nonempty c s H).
    + unfold Py.cons_head in H.
      destruct (Py.split c s) as [|p ps] eqn:E; [exfalso; exact (split_nonempty c s E)|].
      injection H as <- ->. destruct (IH p eq_refl) as [-> Hl].
      split; [reflexivity|]. cbn [lacks]. rewrite Ha, Hl. reflexivity.
Qed.

Lemma split_two (c : ascii) (s a b : string) :
  Py.split c s = [a; b] <->
  s = (a ++ String c b)%string /\ lacks c a = true /\ lacks c b = true.
Proof.
  split.
  - revert a. induction s as [|x s IH]; intros a H.
    + discriminate H.
    + cbn [Py.split] in H. destruct (Ascii.eqb x c) eqn:Hx.
      * injection H as <- H. apply split_one_inv in H as [-> Hl].
        apply Ascii.eqb_eq in Hx. subst x. repeat split; try reflexivity. exact Hl.
      * unfold Py.cons_head in H.
        destruct (Py.split c s) as [|p ps] eqn:E; [discriminate H|].
        injection H as <- ->. destruct (IH p eq_refl) as (-> & Hp & Hb).
        repeat split; try reflexivity; [|exact Hb].
        cbn [lacks]. rewrite Hx, Hp. reflexivity.
  - intros (-> & Ha & Hb). rewrite (split_app_lacks c a b Ha), (split_lacks c b Hb).
    reflexivity.
Qed.

Lemma split_length (c : ascii) (s : string) :
  length (Py.split c s) = S (occurrences c s).
Proof.
  induction s as [|a s IH]; [reflexivity|].
  cbn [Py.split occurrences]. destruct (Ascii.eqb a c).
  - cbn [length]. rewrite IH. reflexivity.
  - unfold Py.cons_head.
    destruct (Py.split c s) as [|p ps] eqn:E; [exfalso; exact (split_nonempty c s E)|].
    cbn [length] in *. rewrite IH. reflexivity.
Qed.

(** ** The CONNECT target *)

(** X9: a CONNECT target is accepted exactly when it is host, one colon,
    and a port text that [int] accepts, the colon being the only one; a
    target with no colon or with several (an IPv6 literal) is dropped. *)
Theorem connect_target_shape (int : string -> option Z) (url host : string) (port : Z) :
  (HybridProxyHandler.connect_target int url = Some (host, port) <->
   exists port_str,
     url = (host ++ String ":" port_str)%string /\
     lacks ":" host = true /\ lacks ":" port_str = true /\
     int port_str = Some port) /\
  (occurrences ":" url <> 1%nat -> HybridProxyHandler.connect_target int url = None).
Proof.
  unfold HybridProxyHandler.connect_target. split; [split|].
  - intros H.
    destruct (Py.split ":" url) as [|h [|p [|q rest]]] eqn:E; try discriminate H.
    destruct (int p) as [n|] eqn:Hint; [|discriminate H].
    injection H as -> ->. apply split_two in E as (-> & Hh & Hp).
    exists p. repeat split; assumption.
  - intros (port_str & -> & Hh & Hp & Hint).
    rewrite (proj2 (split_two ":" _ host port_str)) by (repeat split; assumption).
    rewrite Hint. reflexivity.
  - intros Hocc. pose proof (split_length ":" url) as Hlen.
    destruct (Py.split ":" url) as [|h [|p [|q rest]]]; try reflexivity.
    cbn [length] in Hlen. exfalso. apply Hocc. lia.
Qed.

Lemma connect_target_shape_witness :
  HybridProxyHandler.connect_target ascii_int "example.com:443" = Some ("example.com", 443) /\
  HybridProxyHandler.connect_target ascii_int "[::1]:443" = None.
Proof.
  split.
  - apply (connect_target_shape ascii_int "example.com:443" "example.com" 443).
    exists "443". repeat split; reflexivity.
  - apply (connect_target_shape ascii_int "[::1]:443" "" 0). vm_compute. discriminate.
Defined.

(** ** The Host header *)

Lemma contains_char (c : ascii) (s : string) :
  Py.contains (String c "") s = negb (lacks c s).
Proof.
  induction s as [|a s IH]; [reflexivity|].
  cbn [Py.contains lacks String.prefix]. rewrite IH.
  destruct (ascii_dec c a) as [->|Hne].
  - rewrite Ascii.eqb_refl. destruct s; reflexivity.
  - assert (Ha : Ascii.eqb a c = false) by (apply Ascii.eqb_neq; congruence).
    rewrite Ha. reflexivity.
Qed.

Lemma lacks_occurrences (c : ascii) (s : string) :
  lacks c s = true <-> occurrences c s = O.
Proof.
  induction s as [|a s IH]; [split; reflexivity|].
  cbn [lacks occurrences]. destruct (Ascii.eqb a c); cbn.
  - split; intros H; discriminate H.
  - exact IH.
Qed.

Lemma host_header_skips (int : string -> option Z) (decode : string -> option string)
    (pre rest : list string) (port : Z) (e : env) (st : state) :
  forallb not_host pre = true ->
  HybridProxyHandler.host_header int decode (pre ++ rest) port e st =
  HybridProxyHandler.host_header int decode rest port e st.
Proof.
  induction pre as [|l pre IH]; intros H; [reflexivity|].
  cbn [forallb] in H. apply andb_true_iff in H as [Hl Hpre].
  unfold not_host in Hl. apply negb_true_iff in Hl.
  cbn [app HybridProxyHandler.host_header]. rewrite Hl. exact (IH Hpre).
Qed.

(** X10: the Host header loop returns an empty host (and the port it was
    given) when no line starts with "host:" in any letter case; otherwise
    the first such line alone decides, whatever follows it: a value without
    a colon is the host, a value with one colon is host and [int] of the
    port text, and a value with two or more colons (an IPv6 literal) raises
    ValueError.  The loop makes no external call. *)
Theorem host_header_first_decides (int : string -> option Z)
    (decode : string -> option string) (pre post : list string) (line : string)
    (port : Z) (e : env) (st : state) :
  forallb not_host pre = true ->
  HybridProxyHandler.host_header int decode pre port e st = (Returned ("", port), st) /\
  (not_host line = false ->
   HybridProxyHandler.host_header int decode (pre ++ line :: post) port e st =
   HybridProxyHandler.host_header int decode [line] port e st /\
   forall host, decode (header_value line) = Some host ->
     (occurrences ":" host = 0%nat ->
      HybridProxyHandler.host_header int decode [line] port e st = (Returned (host, port), st)) /\
     (forall h p n, host = (h ++ String ":" p)%string ->
        lacks ":" h = true -> lacks ":" p = true -> int p = Some n ->
        HybridProxyHandler.host_header int decode [line] port e st = (Returned (h, n), st)) /\
     ((2 <= occurrences ":" host)%nat ->
      HybridProxyHandler.host_header int decode [line] port e st = (Raised ValueError, st))).
Proof.
  intros Hpre. split.
  - rewrite <- (app_nil_r pre). rewrite (host_header_skips int decode pre [] port e st Hpre).
    reflexivity.
  - intros Hline. unfold not_host in Hline. apply negb_false_iff in Hline.
    split.
    { rewrite (host_header_skips int decode pre (line :: post) port e st Hpre).
      cbn [HybridProxyHandler.host_header]. rewrite Hline. reflexivity. }
    intros host Hdec. cbn [HybridProxyHandler.host_header]. rewrite Hline.
    fold (header_value line). rewrite Hdec.
    change ":"%string with (String ":" "") at 1 2 3.
    rewrite contains_char. split; [|split].
    + intros Hocc. rewrite (proj2 (lacks_occurrences ":" host) Hocc). reflexivity.
    + intros h p n -> Hh Hp Hint.
      assert (Hl : lacks ":" (h ++ String ":" p) = false).
      { destruct (lacks ":" (h ++ String ":" p)) eqn:E; [|reflexivity].
        apply lacks_occurrences in E. pose proof (split_length ":" (h ++ String ":" p)) as L.
        rewrite (proj2 (split_two ":" _ h p)) in L by (repeat split; assumption).
        rewrite E in L. discriminate L. }
      rewrite Hl. cbn [negb].
      rewrite (proj2 (split_two ":" _ h p)) by (repeat split; assumption).
      rewrite Hint. reflexivity.
    + intros Hocc.
      assert (Hl : lacks ":" host = false).
      { destruct (lacks ":" host) eqn:E; [|reflexivity].
        apply lacks_occurrences in E. lia. }
      rewrite Hl. cbn [negb].
      pose proof (split_length ":" host) as L.
      destruct (Py.split ":" host) as [|a [|b [|c rest]]]; cbn [length] in L;
        try reflexivity; lia.
Qed.

Lemma host_header_first_decides_witness :
  fst (HybridProxyHandler.host_header ascii_int Some
         ["GET / HTTP/1.1"; "Accept: */*"; "HOST: example.com:8080"; "Host: other"] 80
         (sample_env 0 "") (sample_state 0 0))
  = Returned ("example.com", 8080) /\
  fst (HybridProxyHandler.host_header ascii_int Some
         ["GET / HTTP/1.1"; "Host: [::1]:8080"] 80 (sample_env 0 "") (sample_state 0 0))
  = Raised ValueError.
Proof.
  split.
  - destruct (host_header_first_decides ascii_int Some
                ["GET / HTTP/1.1"; "Accept: */*"] ["Host: other"] "HOST: example.com:8080" 80
                (sample_env 0 "") (sample_state 0 0)) as [_ H]; [reflexivity|].
    destruct H as [Hfirst Hval]; [reflexivity|].
    change (["GET / HTTP/1.1"; "Accept: */*"; "HOST: example.com:8080"; "Host: other"])
      with (["GET / HTTP/1.1"; "Accept: */*"] ++ "HOST: example.com:8080" :: ["Host: other"])%list.
    rewrite Hfirst.
    destruct (Hval "example.com:8080") as (_ & Hone & _); [reflexivity|].
    rewrite (Hone "example.com" "8080" 8080); reflexivity.
  - destruct (host_header_first_decides ascii_int Some
                ["GET / HTTP/1.1"] [] "Host: [::1]:8080" 80
                (sample_env 0 "") (sample_state 0 0)) as [_ H]; [reflexivity|].
    destruct H as [Hfirst Hval]; [reflexivity|].
    change (["GET / HTTP/1.1"; "Host: [::1]:8080"])
      with (["GET / HTTP/1.1"] ++ "Host: [::1]:8080" :: [])%list.
    rewrite Hfirst.
    destruct (Hval "[::1]:8080") as (_ & _ & Hmany); [reflexivity|].
    rewrite Hmany; [reflexivity|]. vm_compute. lia.
Defined.

(** ** handle_http, the other methods *)

Lemma host_header_pure (int : string -> option Z) (decode : string -> option string)
    (lines : list string) (port : Z) (e : env) (st : state) :
  snd (HybridProxyHandler.host_header int decode lines port e st) = st.
Proof.
  induction lines as [|line lines IH]; [reflexivity|].
  cbn [HybridProxyHandler.host_header].
  destruct (String.prefix "host:" (Py.lower line)); [|exact IH].
  destruct (decode _) as [host|]; [|reflexivity].
  destruct (Py.contains ":" host); [|reflexivity].
  destruct (Py.split ":" host) as [|a [|b [|c rest]]]; try reflexivity.
  destruct (int b); reflexivity.
Qed.

Lemma resolve_pure (int : string -> option Z) (decode : string -> option string)
    (urlparse : string -> outcome (option string * outcome (option Z)))
    (data url : string) (e : env) (st : state) :
  snd (resolve int decode urlparse data url e st) = st.
Proof.
  unfold resolve. destruct (HybridProxyHandler.uri_target urlparse url) as [[[|c h]|] port];
    try apply host_header_pure. reflexivity.
Qed.

(** X11: for a request that is not the control path and whose method is
    not CONNECT, finding the target makes no external call; if that raises
    (a malformed Host header) or yields no host, nothing is written; else
    the backend is dialled, and on success the original request bytes are
    sent to it unchanged and the relay starts, nothing being written to the
    client, while on failure the client gets exactly the 502 line. *)
Theorem handle_http_forward (int : string -> option Z)
    (decode_ignore : string -> string) (decode : string -> option string)
    (urlparse : string -> outcome (option string * outcome (option Z)))
    (data method url : string) (rest : list string) (e : env) (st : state) :
  Py.contains "GET /rotate" (decode_ignore (hd "" (Py.split_crlf data))) = false ->
  Py.split " " (decode_ignore (hd "" (Py.split_crlf data))) = method :: url :: rest ->
  method <> "CONNECT" ->
  snd (resolve int decode urlparse data url e st) = st /\
  exists res st',
    HybridProxyHandler.handle_http int decode_ignore decode urlparse data e st = (res, st') /\
    match fst (resolve int decode urlparse data url e st) with
    | Raised x => res = Raised x /\ st' = st
    | Returned (EmptyString, _) => res = Returned tt /\ st' = st
    | Returned (host, port) =>
        let dial := HybridProxyHandler.connect_to_tor host port e st in
        client_writes (trace (snd dial)) = client_writes (trace st) /\
        match fst dial with
        | Returned (Some _) =>
            trace st' =
              (trace (snd dial) ++
               EvSendAll Backend data ::
               match env_io e (length (trace (snd dial))) with
               | Returned _ => [EvRelay]
               | Raised _ => []
               end)%list
        | Returned None =>
            trace st' =
              (trace (snd dial) ++ [EvSendAll Client HybridProxyHandler.bad_gateway])%list
        | Raised x => res = Raised x /\ st' = snd dial
        end
    end.
Proof.
  intros Hrot Hsplit Hmethod. split; [apply resolve_pure|].
  pose proof (resolve_pure int decode urlparse data url e st) as Hpure.
  unfold HybridProxyHandler.handle_http. cbv zeta. rewrite Hrot, Hsplit.
  apply String.eqb_neq in Hmethod. rewrite Hmethod.
  unfold resolve in *.
  destruct (HybridProxyHandler.uri_target urlparse url) as [hostname port].
  unfold bind at 1.
  match goal with
  | |- context [let (o, st'0) := ?c e st in _] =>
      change (match hostname with
              | Some (String c0 h) => ret (String c0 h, port)
              | _ => HybridProxyHandler.host_header int decode (Py.split_crlf data) port
              end) with c in Hpure |- *;
      destruct (c e st) as [[[host port']|x] st0]
  end; cbn [fst snd] in *; subst st0.
  - destruct host as [|c0 h].
    + eexists. eexists. split; [reflexivity|]. split; reflexivity.
    + cbv zeta. unfold bind at 1.
      pose proof (quiet_connect_to_tor (String c0 h) port' e st) as [_ Hquiet].
      destruct (HybridProxyHandler.connect_to_tor (String c0 h) port' e st)
        as [[[s|]|x] st1] eqn:Hdial; cbn [fst snd] in *.
      * destruct (dial_success _ _ _ _ _ _ Hdial) as (? & ? & ? & ? & -> & _).
        unfold bind, HybridProxyHandler.sendall, HybridProxyHandler.relay_data, call_exn.
        destruct (env_io e (length (trace st1))) as [[]|y]; eexists; eexists;
          (split; [reflexivity|]); (split; [exact Hquiet|]);
          cbn [after trace]; rewrite <- ?app_assoc; reflexivity.
      * unfold HybridProxyHandler.sendall, call_exn. eexists. eexists.
        split; [reflexivity|]. split; [exact Hquiet|]. reflexivity.
      * eexists. eexists. split; [reflexivity|]. split; [exact Hquiet|].
        split; reflexivity.
  - eexists. eexists. split; [reflexivity|]. split; reflexivity.
Qed.

Lemma handle_http_forward_witness :
  exists st1,
    trace (snd (HybridProxyHandler.handle_http ascii_int (fun b => b) Some no_urlparse
                  get_request (sample_env 0 (String "005" (String "000" "")))
                  (sample_state 1 0)))
    = (trace st1 ++ [EvSendAll Backend get_request; EvRelay])%list.
Proof.
  destruct (handle_http_forward ascii_int (fun b => b) Some no_urlparse
              get_request "GET" "/" ["HTTP/1.1"]
              (sample_env 0 (String "005" (String "000" ""))) (sample_state 1 0))
    as (_ & res & st' & Hrun & Hcase).
  - reflexivity.
  - reflexivity.
  - discriminate.
  - rewrite Hrun. cbn [snd].
    change (fst (resolve ascii_int Some no_urlparse get_request "/"
                   (sample_env 0 (String "005" (String "000" ""))) (sample_state 1 0)))
      with (Returned ("example.com", 80) : outcome (string * Z)) in Hcase.
    cbv beta iota zeta in Hcase. destruct Hcase as [_ Hcase].
    remember (HybridProxyHandler.connect_to_tor "example.com" 80 _ _) as dial eqn:E.
    vm_compute in E. subst dial. cbn [fst snd] in Hcase.
    eexists. rewrite Hcase. reflexivity.
Defined.

(** ** start and stop of an instance *)

Lemma grows_refl (st : state) : grows st st.
Proof. exists []. rewrite app_nil_r. reflexivity. Qed.

Lemma grows_trans (st1 st2 st3 : state) : grows st1 st2 -> grows st2 st3 -> grows st1 st3.
Proof.
  intros [m1 H1] [m2 H2]. exists (m1 ++ m2)%list. rewrite H2, H1, app_assoc. reflexivity.
Qed.

Lemma grows_call_exn {A} (ev : event) (answer : env -> nat -> outcome A) :
  preserves grows (call_exn ev answer).
Proof. intros e st. exists [ev]. reflexivity. Qed.

Lemma grows_time : preserves grows time_time.
Proof. intros e st. exists [EvTime]. reflexivity. Qed.

Lemma grows_sleep (d : Q) : preserves grows (time_sleep d).
Proof. intros e st. exists [EvSleep d]. reflexivity. Qed.

Ltac grows_prim := first [ apply grows_call_exn | apply grows_time | apply grows_sleep ].

Ltac grows_auto := repeat preserves_step grows_refl grows_trans grows_prim.

Lemma grows_wait_probe (n : nat) (self : TorInstance) :
  preserves grows (TorInstance.wait_probe n self).
Proof.
  induction n as [|n IH]; cbn [TorInstance.wait_probe];
    unfold TorInstance.is_circuit_ready_socks.
  - grows_auto.
  - grows_auto. exact IH.
Qed.

Lemma wait_probe_returns (n : nat) (self : TorInstance) :
  forall (e : env) (st : state),
  exists ready st', TorInstance.wait_probe n self e st = (Returned ready, st').
Proof.
  induction n as [|n IH]; intros e st; cbn [TorInstance.wait_probe].
  - eexists. eexists. reflexivity.
  - unfold bind at 1, time_sleep. unfold bind at 1.
    destruct (guarded_returns (TorInstance.is_circuit_ready_socks self 5) false e
                (after (EvSleep 1) 1 e st)) as (ready & st1 & ->).
    destruct ready; [eexists; eexists; reflexivity|apply IH].
Qed.

Lemma stop_spec (self : TorInstance) (e : env) (st : state) :
  exists st',
    TorInstance.stop self e st = (Returned (TorInstance.set_process self None), st') /\
    TorInstance.set_process (TorInstance.set_process self None) None
      = TorInstance.set_process self None /\
    match process self with
    | Some _ => trace st' = (trace st ++ [EvTerminate (socks_port self)])%list
    | None => st' = st /\ TorInstance.set_process self None = self
    end.
Proof.
  unfold TorInstance.stop. destruct (process self) as [[]|] eqn:Hp.
  - unfold bind, try_except, call_exn, ret.
    destruct (env_io e (length (trace st))); eexists; repeat split; reflexivity.
  - exists st. unfold ret. assert (Hs : TorInstance.set_process self None = self).
    { destruct self; cbn in *. subst. reflexivity. }
    rewrite !Hs. repeat split; reflexivity.
Qed.

(** X12: [stop] never raises and leaves the instance without a process,
    everything else as it was; a running instance is terminated by one
    external step, and stopping an instance that holds no process does
    nothing at all, so a second [stop] is a no-op. *)
Theorem stop_is_idempotent (self : TorInstance) (e e2 : env) (st st2 : state) :
  exists st',
    TorInstance.stop self e st = (Returned (TorInstance.set_process self None), st') /\
    pool st' = pool st /\
    (process self <> None ->
       trace st' = (trace st ++ [EvTerminate (socks_port self)])%list) /\
    (process self = None -> st' = st /\ TorInstance.set_process self None = self) /\
    TorInstance.stop (TorInstance.set_process self None) e2 st2
      = (Returned (TorInstance.set_process self None), st2).
Proof.
  destruct (stop_spec self e st) as (st' & Hrun & Hidem & Hcase).
  exists st'. split; [exact Hrun|].
  split; [pose proof (outside_stop self e st) as [Hp _]; rewrite Hrun in Hp; exact Hp|].
  split; [|split].
  - intros Hp. destruct (process self); [exact Hcase|congruence].
  - intros Hp. rewrite Hp in Hcase. exact Hcase.
  - reflexivity.
Qed.

Lemma start_cases (self : TorInstance) (e : env) (st : state)
    (ok : bool) (self' : TorInstance) (st' : state) :
  process self = None ->
  TorInstance.start self e st = (Returned (ok, self'), st') ->
  let p := socks_port self in
  (ok = true /\ process self' = Some tt /\ _ip_cache self' = None /\
   exists mid, trace st' = (trace st ++ EvPathExists p :: EvPopen p :: mid)%list) \/
  (ok = false /\ self' = self /\
   (trace st' = (trace st ++ [EvPathExists p])%list \/
    trace st' = (trace st ++ [EvPathExists p; EvPopen p])%list)) \/
  (ok = false /\ self' = self /\
   exists mid, trace st' = (trace st ++ EvPathExists p :: EvPopen p :: mid
                                     ++ [EvTerminate p])%list).
Proof.
  intros Hp. unfold TorInstance.start. rewrite Hp.
  unfold bind at 1. unfold call_exn at 1.
  destruct (env_exists e (length (trace st))) as [[|]|x]; cbn [negb]; try discriminate.
  - unfold try_except, bind at 1. unfold call_exn at 1.
    set (st1 := after _ 0 e st).
    destruct (env_popen e (length (trace st1))) as [[]|x].
    + set (st2 := after _ 0 e st1). unfold bind at 1.
      pose proof (grows_wait_probe 180 (TorInstance.set_process self (Some tt)) e st2)
        as [mid Hmid].
      destruct (wait_probe_returns 180 (TorInstance.set_process self (Some tt)) e st2)
        as (ready & st3 & Hwait).
      rewrite Hwait in Hmid |- *. destruct ready; cbn [negb snd] in *.
      * unfold ret. intros H. injection H as <- <- <-. left.
        repeat split. exists mid. rewrite Hmid. unfold st2, st1. cbn [after trace].
        rewrite <- !app_assoc. reflexivity.
      * unfold bind.
        destruct (stop_spec (TorInstance.set_process self (Some tt)) e st3)
          as (st4 & Hstop & _ & Hcase).
        rewrite Hstop. cbn [process TorInstance.set_process] in Hcase.
        unfold ret. intros H. injection H as <- <- <-. right. right.
        split; [reflexivity|]. split.
        { destruct self; cbn in *. subst. reflexivity. }
        exists mid. rewrite Hcase, Hmid. unfold st2, st1. cbn [after trace].
        rewrite <- !app_assoc. reflexivity.
    + unfold bind.
      destruct (stop_spec self e (after (EvPopen (socks_port self)) 0 e st1))
        as (st4 & Hstop & _ & Hcase).
      rewrite Hstop, Hp in *. destruct Hcase as [-> Hsame]. rewrite Hsame.
      unfold ret. intros H. injection H as <- <- <-. right. left.
      split; [reflexivity|]. split; [reflexivity|]. right.
      unfold st1. cbn [after trace]. rewrite <- app_assoc. reflexivity.
  - unfold ret. intros H. injection H as <- <- <-. right. left.
    split; [reflexivity|]. split; [reflexivity|]. left. reflexivity.
Qed.

(** X13: [start] on an instance that already holds a process returns True
    and does nothing.  Otherwise it returns True exactly when the instance
    is left holding a process, then with an empty identity cache; when it
    returns False the instance is as before, and either tor.exe was not
    found, or Popen failed, or the spawned process was terminated after the
    readiness loop gave up.  The pool is never touched. *)
Theorem start_leaves_process_iff_true (self : TorInstance) (e : env) (st : state)
    (ok : bool) (self' : TorInstance) (st' : state) :
  TorInstance.start self e st = (Returned (ok, self'), st') ->
  let p := socks_port self in
  pool st' = pool st /\
  (process self <> None -> ok = true /\ self' = self /\ st' = st) /\
  (process self = None ->
     (ok = true <-> process self' = Some tt) /\
     (ok = true -> _ip_cache self' = None) /\
     (ok = false ->
        self' = self /\
        (trace st' = (trace st ++ [EvPathExists p])%list \/
         trace st' = (trace st ++ [EvPathExists p; EvPopen p])%list \/
         exists mid, trace st' = (trace st ++ EvPathExists p :: EvPopen p :: mid
                                           ++ [EvTerminate p])%list))).
Proof.
  intros H p. split; [|split].
  - pose proof (outside_start self e st) as [Hp _]. rewrite H in Hp. exact Hp.
  - intros Hp. unfold TorInstance.start in H. destruct (process self); [|congruence].
    unfold ret in H. injection H as <- <- <-. repeat split.
  - intros Hp. destruct (start_cases self e st ok self' st' Hp H)
      as [(-> & Hproc & Hcache & _)|[(-> & -> & Htr)|(-> & -> & Htr)]].
    + split; [split; intros _; [exact Hproc|reflexivity]|].
      split; [intros _; exact Hcache|]. intros Hx. discriminate Hx.
    + split; [split; intros Hx; [discriminate Hx|congruence]|].
      split; [intros Hx; discriminate Hx|]. intros _. split; [reflexivity|].
      destruct Htr as [Htr|Htr]; [left|right; left]; exact Htr.
    + split; [split; intros Hx; [discriminate Hx|congruence]|].
      split; [intros Hx; discriminate Hx|]. intros _. split; [reflexivity|].
      right. right. exact Htr.
Qed.

Lemma start_leaves_process_iff_true_witness :
  exists self' st',
    TorInstance.start (TorInstance.__init__ 9050 9051 true) (sample_env 100 "") (fresh_state 1)
      = (Returned (true, self'), st') /\
    process self' = Some tt.
Proof.
  destruct (TorInstance.start (TorInstance.__init__ 9050 9051 true) (sample_env 100 "")
              (fresh_state 1)) as [r st'] eqn:E.
  assert (Hr : exists self', r = Returned (true, self')).
  { vm_compute in E. injection E as <- _. eexists; reflexivity. }
  destruct Hr as [self' ->]. exists self', st'. split; [reflexivity|].
  destruct (start_leaves_process_iff_true _ _ _ _ _ _ E) as (_ & _ & Hnew).
  apply Hnew; reflexivity.
Defined.

(** ** What [get_ip] does to the instance and to the network *)

Lemma lookup_guarded (self : TorInstance) (e : env) (st : state) :
  exists r st1,
    try_except (TorInstance.lookup self) (fun _ => ret None) e st = (Returned r, st1) /\
    pool st1 = pool st /\
    lookups (trace st1) = S (lookups (trace st)) /\
    (now st <= now st1)%Q /\
    (r = None \/
     exists ip, r = Some (ip, TorInstance.set_cache self (Some ip) (now st1))).
Proof.
  set (st1 := after (EvHttpGet (socks_port self) (session self)) 0 e st).
  assert (Hl : lookups (trace st1) = S (lookups (trace st))).
  { unfold st1. cbn [after trace]. rewrite lookups_snoc. simpl. lia. }
  assert (Hn : (now st <= now st1)%Q) by (apply after_later; apply Qle_refl).
  assert (Hnone : exists r st2,
             (Returned None, st1) = (Returned r, st2) /\ pool st2 = pool st /\
             lookups (trace st2) = S (lookups (trace st)) /\ (now st <= now st2)%Q /\
             (r = None \/
              exists ip, r = Some (ip, TorInstance.set_cache self (Some ip) (now st2)))).
  { exists None, st1. repeat split; [exact Hl|exact Hn|left; reflexivity]. }
  unfold try_except, TorInstance.lookup, bind, call_exn. fold st1.
  destruct (env_http e (length (trace st))) as [resp|x]; [|exact Hnone].
  destruct (status_code resp =? 200); [|exact Hnone].
  unfold lift. destruct (json resp) as [[d|]|x]; try exact Hnone.
  destruct (default (JStr "") (dict_get "ip" d)) as [| | |s|]; try exact Hnone.
  destruct s as [|c s]; [exact Hnone|].
  unfold time_time, ret. eexists. eexists. split; [reflexivity|].
  cbn [pool trace now]. split; [reflexivity|]. split.
  - rewrite lookups_snoc, Hl. simpl. lia.
  - split; [exact Hn|]. right. eexists. reflexivity.
Qed.

Lemma attempts_outcome (self : TorInstance) (max_retries : Z) (retry_delay : Q)
    (e : env) (todo : list Z) :
  forall st : state,
  exists ip self' st',
    TorInstance.attempts self todo max_retries retry_delay e st
      = (Returned (ip, self'), st') /\
    pool st' = pool st /\
    (now st <= now st')%Q /\
    (lookups (trace st') <= lookups (trace st) + length todo)%nat /\
    (lookups (trace st) <= lookups (trace st'))%nat /\
    (todo <> [] -> (lookups (trace st) < lookups (trace st'))%nat) /\
    ((self' = self /\ ip = "...") \/
     (self' = TorInstance.set_cache self (Some ip) (now st') /\
      (lookups (trace st) < lookups (trace st'))%nat)).
Proof.
  induction todo as [|attempt todo IH]; intros st.
  - exists "...", self, st. split; [reflexivity|]. split; [reflexivity|].
    split; [apply Qle_refl|]. split; [simpl; lia|]. split; [lia|]. split; [congruence|].
    left. split; reflexivity.
  - cbn [TorInstance.attempts]. unfold bind at 1.
    destruct (lookup_guarded self e st) as (r & st1 & -> & Hp1 & Hl1 & Hn1 & Hr).
    destruct Hr as [->|(ip & ->)].
    + assert (Hrest : exists st2,
                 ((if Py.Qltb 0 retry_delay && (attempt <? max_retries - 1)
                   then time_sleep retry_delay else ret tt) e st1 = (Returned tt, st2)) /\
                 pool st2 = pool st1 /\ (now st1 <= now st2)%Q /\
                 lookups (trace st2) = lookups (trace st1)).
      { destruct (Py.Qltb 0 retry_delay) eqn:Hd; cbn [andb].
        - destruct (attempt <? max_retries - 1).
          + eexists. split; [reflexivity|]. split; [reflexivity|]. split.
            * apply after_later. apply Qltb_lt in Hd. apply Qlt_le_weak. exact Hd.
            * cbn [after trace]. rewrite lookups_snoc. simpl. lia.
          + exists st1. split; [reflexivity|]. split; [reflexivity|].
            split; [apply Qle_refl|reflexivity].
        - exists st1. split; [reflexivity|]. split; [reflexivity|].
          split; [apply Qle_refl|reflexivity]. }
      destruct Hrest as (st2 & Hrun2 & Hp2 & Hn2 & Hl2).
      unfold bind at 1. rewrite Hrun2.
      destruct (IH st2) as (ip & self' & st' & Hrun & Hp & Hn & Hl & Hge & _ & Hcase).
      exists ip, self', st'. split; [exact Hrun|].
      split; [congruence|]. split; [lra|].
      split; [cbn [length]; lia|]. split; [lia|]. split; [intros _; lia|].
      destruct Hcase as [Hsame|[Hset Hlt]]; [left; exact Hsame|].
      right. split; [exact Hset|lia].
    + exists ip. eexists. exists st1. split; [reflexivity|].
      split; [exact Hp1|]. split; [exact Hn1|].
      split; [cbn [length]; lia|]. split; [lia|]. split; [intros _; lia|].
      right. split; [reflexivity|lia].
Qed.

Lemma get_ip_cases (self : TorInstance) (max_retries : Z) (retry_delay : Q)
    (e : env) (st : state) :
  exists ip self' st',
    TorInstance.get_ip self max_retries retry_delay e st = (Returned (ip, self'), st') /\
    pool st' = pool st /\
    (lookups (trace st') <= lookups (trace st) + Z.to_nat max_retries)%nat /\
    ((self' = self /\ (TorInstance.cached self = Some ip \/ ip = "...")) \/
     (self' = TorInstance.set_cache self (Some ip) (now st') /\
      (now st <= now st')%Q /\
      (lookups (trace st) < lookups (trace st'))%nat)).
Proof.
  set (st1 := {| pool := pool st; trace := (trace st ++ [EvTime])%list; now := now st |}).
  assert (Hl1 : lookups (trace st1) = lookups (trace st)).
  { unfold st1. cbn [trace]. rewrite lookups_snoc. simpl. lia. }
  assert (Hmiss : exists ip self' st',
             TorInstance.attempts self (seqZ 0 max_retries) max_retries retry_delay e st1
               = (Returned (ip, self'), st') /\
             pool st' = pool st /\
             (lookups (trace st') <= lookups (trace st) + Z.to_nat max_retries)%nat /\
             ((self' = self /\ (TorInstance.cached self = Some ip \/ ip = "...")) \/
              (self' = TorInstance.set_cache self (Some ip) (now st') /\
               (now st <= now st')%Q /\
               (lookups (trace st) < lookups (trace st'))%nat))).
  { destruct (attempts_outcome self max_retries retry_delay e (seqZ 0 max_retries) st1)
      as (ip & self' & st' & Hrun & Hp & Hn & Hl & _ & _ & Hcase).
    exists ip, self', st'. split; [exact Hrun|]. split; [exact Hp|].
    rewrite length_seqZ, Hl1 in Hl. split; [exact Hl|].
    destruct Hcase as [[-> ->]|[Hset Hlt]].
    - left. split; [reflexivity|right; reflexivity].
    - right. split; [exact Hset|]. split; [exact Hn|]. rewrite <- Hl1. exact Hlt. }
  unfold TorInstance.get_ip, bind, time_time. fold st1.
  destruct (TorInstance.cached self) as [ip|] eqn:Hc; [|exact Hmiss].
  destruct (Py.Qltb _ _); [|exact Hmiss].
  exists ip, self, st1. split; [reflexivity|]. split; [reflexivity|].
  split; [rewrite Hl1; lia|]. left. split; [reflexivity|left; reflexivity].
Qed.

(** X14: [get_ip] always returns and leaves the pool alone; it makes at most
    [max_retries] lookups; and either it hands back the instance untouched,
    with the cached address or the sentinel "...", or at least one lookup
    was made and the only change to the instance is the cache, which now
    holds the returned address stamped with the time of return. *)
Theorem get_ip_outcome (self : TorInstance) (max_retries : Z) (retry_delay : Q)
    (e : env) (st : state) :
  exists ip self' st',
    TorInstance.get_ip self max_retries retry_delay e st = (Returned (ip, self'), st') /\
    pool st' = pool st /\
    (lookups (trace st') <= lookups (trace st) + Z.to_nat max_retries)%nat /\
    ((self' = self /\ (TorInstance.cached self = Some ip \/ ip = "...")) \/
     (self' = TorInstance.set_cache self (Some ip) (now st') /\
      (now st <= now st')%Q /\
      (lookups (trace st) < lookups (trace st'))%nat)).
Proof. apply get_ip_cases. Qed.

(** X15: an address obtained by a lookup is served from the cache
    afterwards: when [get_ip] returned a non-empty address together with a
    changed instance, every later [get_ip] on that instance, while less than
    the TTL has passed since the first call returned, gives the same address
    and the same instance without any lookup, whatever the network does. *)
Theorem get_ip_then_cached (self : TorInstance) (max_retries : Z) (retry_delay : Q)
    (e : env) (st : state) (ip : string) (self' : TorInstance) (st' : state)
    (max_retries2 : Z) (retry_delay2 : Q) (e2 : env) (st2 : state) :
  TorInstance.get_ip self max_retries retry_delay e st = (Returned (ip, self'), st') ->
  self' <> self ->
  ip <> "" ->
  (now st2 - now st' < _cache_ttl self)%Q ->
  exists st2',
    TorInstance.get_ip self' max_retries2 retry_delay2 e2 st2 = (Returned (ip, self'), st2') /\
    lookups (trace st2') = lookups (trace st2).
Proof.
  intros Hrun Hne Hip Hage.
  destruct (get_ip_cases self max_retries retry_delay e st)
    as (ip0 & self0 & st0 & Hrun0 & _ & _ & Hcase).
  rewrite Hrun in Hrun0. injection Hrun0 as <- <- <-.
  destruct Hcase as [[Hsame _]|(Hset & _ & _)]; [contradiction|].
  eexists. split.
  - apply get_ip_hit.
    + rewrite Hset. reflexivity.
    + exact Hip.
    + rewrite Hset. cbn [_ip_cache_time _cache_ttl TorInstance.set_cache]. exact Hage.
  - cbn [trace]. rewrite lookups_snoc. simpl. lia.
Qed.

Lemma get_ip_then_cached_witness :
  exists st2',
    TorInstance.get_ip cached_instance 3 1 offline_env (at_time (sample_state 1 0) 59)
      = (Returned ("1.2.3.4", cached_instance), st2') /\
    lookups (trace st2') = 0%nat.
Proof.
  apply (get_ip_then_cached (sample_instance 0) 1 0 (sample_env 0 "") (sample_state 1 0)
           "1.2.3.4" cached_instance
           (snd (TorInstance.get_ip (sample_instance 0) 1 0 (sample_env 0 "")
                   (sample_state 1 0)))).
  - vm_compute. reflexivity.
  - intros H. discriminate H.
  - discriminate.
  - vm_compute. reflexivity.
Defined.

(** X16: [renew_ip] never raises and makes one control-port call.  If that
    call fails the instance is as before, cache included; if it succeeds
    the cache is emptied, so that the next [get_ip] with at least one try
    goes to the network instead of answering from the cache. *)
Theorem renew_ip_forces_lookup (self : TorInstance) (e : env) (st : state) :
  exists self1 st1,
    TorInstance.renew_ip self e st = (Returned self1, st1) /\
    pool st1 = pool st /\
    trace st1 = (trace st ++ [EvControl (control_port self) "NEWNYM"])%list /\
    (raised (env_control e (length (trace st))) -> self1 = self) /\
    (~ raised (env_control e (length (trace st))) ->
     self1 = TorInstance.set_cache self None (_ip_cache_time self) /\
     forall (max_retries : Z) (retry_delay : Q) (e2 : env) (st2 : state),
       1 <= max_retries ->
       (lookups (trace st2)
        < lookups (trace (snd (TorInstance.get_ip self1 max_retries retry_delay e2 st2))))%nat).
Proof.
  unfold TorInstance.renew_ip, try_except, bind, call_exn.
  destruct (env_control e (length (trace st))) as [reply|x].
  - eexists. eexists. split; [reflexivity|]. split; [reflexivity|].
    split; [reflexivity|]. split.
    + intros [x Hx]. discriminate Hx.
    + intros _. split; [reflexivity|].
      intros max_retries retry_delay e2 st2 Hmr.
      unfold TorInstance.get_ip, bind, time_time. cbn [TorInstance.cached _ip_cache
        TorInstance.set_cache].
      set (st3 := {| pool := pool st2; trace := (trace st2 ++ [EvTime])%list; now := now st2 |}).
      destruct (attempts_outcome (TorInstance.set_cache self None (_ip_cache_time self))
                  max_retries retry_delay e2 (seqZ 0 max_retries) st3)
        as (ip & self' & st' & Hrun & _ & _ & _ & _ & Hlt & _).
      rewrite Hrun. cbn [snd].
      assert (Hl3 : lookups (trace st3) = lookups (trace st2)).
      { unfold st3. cbn [trace]. rewrite lookups_snoc. simpl. lia. }
      rewrite <- Hl3. apply Hlt. intros Hnil.
      apply (f_equal (@length Z)) in Hnil. rewrite length_seqZ in Hnil. simpl in Hnil. lia.
  - eexists. eexists. split; [reflexivity|]. split; [reflexivity|].
    split; [reflexivity|]. split.
    + intros _. reflexivity.
    + intros Hnot. exfalso. apply Hnot. eexists. reflexivity.
Qed.

(** ** Shutting the pool down *)

Lemma terminated_snoc (tr : list event) (ev : event) :
  terminated (tr ++ [ev]) =
    (terminated tr ++ match ev with EvTerminate p => [p] | _ => [] end)%list.
Proof.
  unfold terminated. rewrite omap_app. destruct ev; reflexivity.
Qed.

Lemma stop_all_terminates (l : list TorInstance) :
  forall (e : env) (st : state),
  exists st',
    TorPoolManager.stop_all l e st = (Returned tt, st') /\
    pool st' = pool st /\
    trace st' = (trace st ++ map EvTerminate (map socks_port (List.filter running l)))%list.
Proof.
  induction l as [|inst l IH]; intros e st.
  - exists st. split; [reflexivity|]. split; [reflexivity|].
    cbn. rewrite app_nil_r. reflexivity.
  - cbn [TorPoolManager.stop_all]. unfold bind.
    destruct (stop_spec inst e st) as (st1 & Hstop & _ & Hcase).
    pose proof (outside_stop inst e st) as [Hpool _].
    rewrite Hstop in Hpool |- *. cbn [snd] in Hpool.
    destruct (IH e st1) as (st' & Hrun & Hpool' & Htrace).
    exists st'. split; [exact Hrun|]. split; [congruence|].
    rewrite Htrace. cbn [List.filter]. unfold running at 2.
    destruct (process inst) as [[]|].
    + rewrite Hcase. cbn [map]. rewrite <- app_assoc. reflexivity.
    + destruct Hcase as [-> _]. reflexivity.
Qed.

Lemma terminated_app_terminate (tr : list event) (ps : list Z) :
  terminated (tr ++ map EvTerminate ps) = (terminated tr ++ ps)%list.
Proof.
  unfold terminated. rewrite omap_app. f_equal.
  induction ps as [|p ps IH]; [reflexivity|]. cbn. rewrite IH. reflexivity.
Qed.

(** X17: [stop_pool] never raises, whatever the sub-processes and the
    shell do.  It terminates each instance that holds a process, once and
    in pool order, and nothing else; it leaves the pool empty with the
    active index, the count and the base ports as they were; its last step
    is the taskkill command.  On the pool it leaves, [get_proxy_port] gives
    0, [get_current_instance] and [switch_to_next_instance] give None and
    [connect_to_tor] gives None, none of them making any external call. *)
Theorem stop_pool_shuts_down (e : env) (st : state) :
  exists st',
    TorPoolManager.stop_pool e st = (Returned tt, st') /\
    pool st' = TorPoolManager.set_instances (pool st) [] /\
    trace st' =
      (trace st ++ map EvTerminate (map socks_port (List.filter running (instances (pool st))))
                ++ [EvSystem TorPoolManager.taskkill])%list /\
    terminated (trace st') =
      (terminated (trace st) ++ map socks_port (List.filter running (instances (pool st))))%list /\
    forall (e2 : env) (host : string) (port : Z),
      TorPoolManager.get_proxy_port e2 st' = (Returned 0, st') /\
      TorPoolManager.get_current_instance e2 st' = (Returned None, st') /\
      TorPoolManager.switch_to_next_instance e2 st' = (Returned None, st') /\
      HybridProxyHandler.connect_to_tor host port e2 st' = (Returned None, st').
Proof.
  destruct (stop_all_terminates (instances (pool st)) e st) as (st1 & Hrun & Hpool & Htrace).
  set (st2 := {| pool := TorPoolManager.set_instances (pool st) [];
                 trace := trace st1; now := now st1 |}).
  exists (after (EvSystem TorPoolManager.taskkill) 0 e st2).
  split; [|split; [|split; [|split]]].
  - unfold TorPoolManager.stop_pool. unfold bind at 1, get_pool.
    unfold bind at 1. rewrite Hrun.
    unfold bind, set_pool, try_except, os_system, call_exn, ret. fold st2.
    destruct (env_io e _) as [[]|x]; reflexivity.
  - reflexivity.
  - cbn [after trace st2]. rewrite Htrace, <- app_assoc. reflexivity.
  - cbn [after trace st2]. rewrite terminated_snoc, app_nil_r, Htrace.
    apply terminated_app_terminate.
  - intros e2 host port.
    set (st' := after (EvSystem TorPoolManager.taskkill) 0 e st2).
    assert (Hnil : instances (pool st') = []) by reflexivity.
    assert (Hport : TorPoolManager.get_proxy_port e2 st' = (Returned 0, st')).
    { unfold TorPoolManager.get_proxy_port, bind, get_pool. rewrite Hnil. reflexivity. }
    split; [exact Hport|]. split; [|split].
    + unfold TorPoolManager.get_current_instance, bind, get_pool. rewrite Hnil. reflexivity.
    + apply switch_empty. exact Hnil.
    + unfold HybridProxyHandler.connect_to_tor. unfold bind at 1. rewrite Hport.
      reflexivity.
Qed.

(** ** The warm-up thread *)

Lemma upkeep_refl (st : state) : upkeep_only st st.
Proof. exists []. split; [rewrite app_nil_r; reflexivity|reflexivity]. Qed.

Lemma upkeep_trans (st1 st2 st3 : state) :
  upkeep_only st1 st2 -> upkeep_only st2 st3 -> upkeep_only st1 st3.
Proof.
  intros (m1 & H1 & F1) (m2 & H2 & F2). exists (m1 ++ m2)%list.
  split; [rewrite H2, H1, app_assoc; reflexivity|].
  rewrite forallb_app, F1, F2. reflexivity.
Qed.

Lemma upkeep_snoc (st st' : state) (ev : event) :
  trace st' = (trace st ++ [ev])%list -> is_upkeep ev = true -> upkeep_only st st'.
Proof. intros H F. exists [ev]. split; [exact H|]. cbn. rewrite F. reflexivity. Qed.

Lemma upkeep_call_exn {A} (ev : event) (answer : env -> nat -> outcome A) :
  is_upkeep ev = true -> preserves upkeep_only (call_exn ev answer).
Proof. intros F e st. apply (upkeep_snoc _ _ ev); [reflexivity|exact F]. Qed.

Lemma upkeep_time : preserves upkeep_only time_time.
Proof. intros e st. apply (upkeep_snoc _ _ EvTime); reflexivity. Qed.

Lemma upkeep_sleep (d : Q) : preserves upkeep_only (time_sleep d).
Proof. intros e st. apply (upkeep_snoc _ _ (EvSleep d)); reflexivity. Qed.

Ltac upkeep_prim :=
  first [ apply upkeep_call_exn; reflexivity | apply upkeep_time | apply upkeep_sleep ].

Ltac upkeep_auto := repeat preserves_step upkeep_refl upkeep_trans upkeep_prim.

Lemma upkeep_attempts (self : TorInstance) (todo : list Z) (max_retries : Z) (retry_delay : Q) :
  preserves upkeep_only (TorInstance.attempts self todo max_retries retry_delay).
Proof.
  induction todo as [|a todo IH]; cbn [TorInstance.attempts]; unfold TorInstance.lookup.
  - upkeep_auto.
  - upkeep_auto; exact IH.
Qed.

Lemma upkeep_instance_get_ip (self : TorInstance) (max_retries : Z) (retry_delay : Q) :
  preserves upkeep_only (TorInstance.get_ip self max_retries retry_delay).
Proof.
  unfold TorInstance.get_ip. upkeep_auto; apply upkeep_attempts.
Qed.

Lemma lookups_app (tr mid : list event) :
  lookups (tr ++ mid) = (lookups tr + lookups mid)%nat.
Proof. unfold lookups. rewrite List.filter_app, length_app. reflexivity. Qed.

Lemma poll_rounds_quiet (k : nat) (inst : TorInstance) :
  lookups (poll_rounds k inst) = 0%nat /\ forallb is_upkeep (poll_rounds k inst) = true.
Proof.
  unfold poll_rounds. induction k as [|k [IHl IHf]]; [split; reflexivity|].
  cbn [replicate concat]. split.
  - rewrite lookups_app, IHl. reflexivity.
  - rewrite forallb_app, IHf. reflexivity.
Qed.

Lemma poll_ready_run (n : nat) (r : nat) (inst : TorInstance) (e : env) :
  forall st : state,
  instances (pool st) !! r = Some inst ->
  exists k st',
    (k <= n)%nat /\
    TorPoolManager.poll_ready n r e st = (Returned tt, st') /\
    pool st' = pool st /\
    trace st' = (trace st ++ poll_rounds k inst)%list.
Proof.
  induction n as [|n IH]; intros st Hslot.
  - exists 0%nat, st. split; [lia|]. split; [reflexivity|]. split; [reflexivity|].
    cbn. rewrite app_nil_r. reflexivity.
  - cbn [TorPoolManager.poll_ready]. unfold bind at 1, time_sleep.
    set (st1 := after (EvSleep 1) 1 e st).
    unfold bind at 1, TorPoolManager.deref. unfold bind at 1, get_pool.
    change (pool st1) with (pool st). rewrite Hslot. unfold ret at 1.
    unfold bind at 1, TorInstance.is_circuit_ready, try_except, bind at 1, call_exn.
    set (st2 := after (EvControl (control_port inst) "GETINFO status/circuit-established")
                  0 e st1).
    assert (Htr : trace st2 = (trace st ++ poll_rounds 1 inst)%list).
    { unfold st2, st1. cbn [after trace]. rewrite <- app_assoc. reflexivity. }
    assert (Hdone : exists k st',
               (k <= S n)%nat /\ (Returned tt, st2) = (Returned tt, st') /\
               pool st' = pool st /\ trace st' = (trace st ++ poll_rounds k inst)%list).
    { exists 1%nat, st2. split; [lia|]. split; [reflexivity|]. split; [reflexivity|exact Htr]. }
    assert (Hmore : exists k st',
               (k <= S n)%nat /\ TorPoolManager.poll_ready n r e st2 = (Returned tt, st') /\
               pool st' = pool st /\ trace st' = (trace st ++ poll_rounds k inst)%list).
    { destruct (IH st2 Hslot) as (k & st' & Hk & Hrun & Hp & Ht).
      exists (S k), st'. split; [lia|]. split; [exact Hrun|]. split; [exact Hp|].
      rewrite Ht, Htr, <- app_assoc. reflexivity. }
    destruct (env_control e (length (trace st1))) as [status|x].
    + unfold ret. destruct (Py.contains "1" status); [exact Hdone|exact Hmore].
    + unfold ret. exact Hmore.
Qed.

Lemma set_cache_same (inst : TorInstance) :
  TorInstance.set_cache inst (_ip_cache inst) (_ip_cache_time inst) = inst.
Proof. destruct inst. reflexivity. Qed.

Lemma renew_ip_run (self : TorInstance) (e : env) (st : state) :
  exists c,
    TorInstance.renew_ip self e st =
      (Returned (TorInstance.set_cache self c (_ip_cache_time self)),
       after (EvControl (control_port self) "NEWNYM") 0 e st).
Proof.
  unfold TorInstance.renew_ip, try_except, bind, call_exn, ret.
  destruct (env_control e (length (trace st))) as [reply|x].
  - exists None. reflexivity.
  - exists (_ip_cache self). rewrite set_cache_same. reflexivity.
Qed.

(** X18: the body of a warm-up thread ([renew_single_ip] or
    [prewarm_old_instance]) on a slot that holds an instance never raises.
    It asks the control port for a new identity, polls readiness for at most
    five rounds of one second's sleep and one control query, then calls
    [get_ip], which makes at most two lookups.  All it changes in the pool
    is the address cache of its own instance: the active index, the other
    instances and this instance's ports and process stay as they were.  It
    makes no call on a client or backend socket and starts no thread or
    process. *)
Theorem warm_up_touches_only_cache (t : task) (e : env) (st : state) (inst : TorInstance) :
  instances (pool st) !! target t = Some inst ->
  exists c tm k mid st',
    TorPoolManager.run t e st = (Returned tt, st') /\
    pool st' = TorPoolManager.set_instances (pool st)
                 (<[target t := TorInstance.set_cache inst c tm]> (instances (pool st))) /\
    (k <= 5)%nat /\
    trace st' = (trace st ++ EvControl (control_port inst) "NEWNYM"
                          :: poll_rounds k inst ++ mid)%list /\
    (lookups mid <= 2)%nat /\
    forallb is_upkeep mid = true /\
    upkeep_only st st'.
Proof.
  intros Hslot.
  assert (Hr : (target t < length (instances (pool st)))%nat)
    by (apply lookup_lt_is_Some_1; eauto).
  unfold TorPoolManager.run. fold (target t). set (r := target t) in *.
  destruct (renew_ip_run inst e st) as (c1 & Hrenew).
  set (inst1 := TorInstance.set_cache inst c1 (_ip_cache_time inst)) in *.
  set (st1 := after (EvControl (control_port inst) "NEWNYM") 0 e st) in *.
  set (l1 := <[r := inst1]> (instances (pool st))).
  set (st2 := {| pool := TorPoolManager.set_instances (pool st) l1;
                 trace := trace st1; now := now st1 |}).
  assert (Hslot2 : instances (pool st2) !! r = Some inst1).
  { cbn [st2 pool instances TorPoolManager.set_instances]. unfold l1.
    apply list_lookup_insert_eq. exact Hr. }
  destruct (poll_ready_run 5 r inst1 e st2 Hslot2) as (k & st3 & Hk & Hpoll & Hp3 & Ht3).
  assert (Hslot3 : instances (pool st3) !! r = Some inst1) by (rewrite Hp3; exact Hslot2).
  destruct (get_ip_cases inst1 2 0 e st3)
    as (ip & inst3 & st4 & Hget & Hp4 & Hl4 & Hcase).
  pose proof (upkeep_instance_get_ip inst1 2 0 e st3) as (mid & Ht4 & Hmid).
  rewrite Hget in Ht4. cbn [snd] in Ht4.
  assert (Hinst3 : exists c tm, inst3 = TorInstance.set_cache inst c tm).
  { destruct Hcase as [[-> _]|[-> _]].
    - exists c1, (_ip_cache_time inst). reflexivity.
    - eexists. eexists. reflexivity. }
  destruct Hinst3 as (c & tm & Hinst3).
  set (st5 := {| pool := TorPoolManager.set_instances (pool st4)
                           (<[r := inst3]> (instances (pool st4)));
                 trace := trace st4; now := now st4 |}).
  assert (Hbody :
    (inst <- TorPoolManager.deref r ;;
     inst1 <- TorInstance.renew_ip inst ;;
     TorPoolManager.update r inst1 ;;;
     TorPoolManager.poll_ready 5 r ;;;
     inst2 <- TorPoolManager.deref r ;;
     res <- TorInstance.get_ip inst2 2 0 ;;
     TorPoolManager.update r (snd res)) e st = (Returned tt, st5)).
  { unfold bind at 1, TorPoolManager.deref at 1. unfold bind at 1, get_pool at 1.
    rewrite Hslot. unfold ret at 1.
    unfold bind at 1. rewrite Hrenew.
    unfold bind at 1, TorPoolManager.update at 1. unfold bind at 1, get_pool at 1, set_pool at 1.
    change (pool st1) with (pool st). fold l1. fold st2.
    unfold bind at 1. rewrite Hpoll.
    unfold bind at 1, TorPoolManager.deref at 1. unfold bind at 1, get_pool at 1.
    rewrite Hslot3. unfold ret at 1.
    unfold bind at 1. rewrite Hget.
    unfold TorPoolManager.update, bind, get_pool, set_pool. reflexivity. }
  exists c, tm, k, mid, st5. split; [|split; [|split; [|split; [|split; [|split]]]]].
  - unfold try_except. rewrite Hbody. reflexivity.
  - cbn [st5 pool]. rewrite Hp4, Hp3. cbn [st2 pool instances TorPoolManager.set_instances].
    unfold l1. rewrite list_insert_insert_eq, Hinst3. reflexivity.
  - exact Hk.
  - cbn [st5 trace]. rewrite Ht4, Ht3. cbn [st2 trace]. unfold st1. cbn [after trace].
    rewrite <- !app_assoc. reflexivity.
  - assert (Hl : lookups (trace st4) = (lookups (trace st3) + lookups mid)%nat)
      by (rewrite Ht4; apply lookups_app).
    change (Z.to_nat 2) with 2%nat in Hl4. lia.
  - exact Hmid.
  - exists (EvControl (control_port inst) "NEWNYM" :: poll_rounds k inst ++ mid)%list.
    split.
    + cbn [st5 trace]. rewrite Ht4, Ht3. cbn [st2 trace]. unfold st1. cbn [after trace].
      rewrite <- !app_assoc. reflexivity.
    + cbn [forallb is_upkeep andb]. rewrite forallb_app, Hmid.
      destruct (poll_rounds_quiet k inst) as [_ ->]. reflexivity.
Qed.

Lemma warm_up_touches_only_cache_witness :
  exists st',
    TorPoolManager.run (prewarm_old_instance 1) (sample_env 0 "") (sample_state 3 2)
      = (Returned tt, st') /\
    current_index (pool st') = 2 /\
    length (instances (pool st')) = 3%nat.
Proof.
  destruct (warm_up_touches_only_cache (prewarm_old_instance 1) (sample_env 0 "")
              (sample_state 3 2) (sample_instance 1))
    as (c & tm & k & mid & st' & Hrun & Hpool & _).
  - reflexivity.
  - exists st'. split; [exact Hrun|]. rewrite Hpool. split; [reflexivity|].
    cbn [instances TorPoolManager.set_instances]. rewrite length_insert. reflexivity.
Defined.

(** ** The pool that start_pool leaves *)

Lemma launch_entries (self : TorPoolManager) (todo : list Z) :
  forall (e : env) (st : state),
  exists launched st',
    TorPoolManager.launch self todo e st = (Returned launched, st') /\
    Forall2 (well_launched self) todo launched.
Proof.
  induction todo as [|i todo IH]; intros e st.
  - eexists. eexists. split; [reflexivity|constructor].
  - cbn [TorPoolManager.launch]. unfold bind at 1, capture.
    set (inst := TorInstance.__init__ _ _ true).
    destruct (TorInstance.start inst e st) as [r st1] eqn:Hstart.
    destruct (IH e st1) as (launched & st' & Hrun & Hall).
    unfold bind. rewrite Hrun. unfold ret.
    eexists. eexists. split; [reflexivity|].
    constructor; [|exact Hall].
    destruct r as [[ok inst']|x].
    + destruct (start_ports _ _ _ _ _ _ Hstart) as [Hs Hc].
      split; [cbn [fst]; rewrite Hs; unfold inst; cbn; lia|].
      split; [cbn [fst]; rewrite Hc; unfold inst; cbn; lia|].
      cbn [fst snd].
      destruct (start_cases inst e st ok inst' st1 eq_refl Hstart)
        as [(-> & Hproc & Hcache & _)|[(-> & -> & _)|(-> & -> & _)]]; cbn [succeeded].
      * split; assumption.
      * reflexivity.
      * reflexivity.
    + split; [unfold inst; cbn; lia|]. split; [unfold inst; cbn; lia|]. reflexivity.
Qed.

Lemma started_cons (p : TorInstance * outcome bool)
    (launched : list (TorInstance * outcome bool)) :
  started (p :: launched) =
    if succeeded (snd p) then fst p :: started launched else started launched.
Proof. unfold started. cbn [List.filter]. destruct (succeeded (snd p)); reflexivity. Qed.

Lemma started_enrolled (self : TorPoolManager) (todo : list Z)
    (launched : list (TorInstance * outcome bool)) :
  Forall2 (well_launched self) todo launched ->
  Forall (fun inst =>
            running inst = true /\ _ip_cache inst = None /\
            exists i, i ∈ todo /\
              socks_port inst = base_socks_port self + 2 * i /\
              control_port inst = base_control_port self + 2 * i)
         (started launched) /\
  started launched `sublist_of` map fst launched /\
  length launched = length todo.
Proof.
  induction 1 as [|i p todo launched (Hs & Hc & Hp) _ (IHall & IHsub & IHlen)].
  - split; [constructor|]. split; [constructor|reflexivity].
  - rewrite started_cons. cbn [map length].
    assert (Hweak : Forall (fun inst =>
              running inst = true /\ _ip_cache inst = None /\
              exists j, j ∈ i :: todo /\
                socks_port inst = base_socks_port self + 2 * j /\
                control_port inst = base_control_port self + 2 * j)
             (started launched)).
    { eapply Forall_impl; [exact IHall|].
      intros inst (Hr & Hcache & j & Hj & Hports).
      split; [exact Hr|]. split; [exact Hcache|]. exists j. split; [|exact Hports].
      apply elem_of_cons. right. exact Hj. }
    destruct (succeeded (snd p)).
    + destruct Hp as [Hproc Hcache]. split; [|split].
      * constructor; [|exact Hweak].
        split; [unfold running; rewrite Hproc; reflexivity|].
        split; [exact Hcache|]. exists i. split; [apply elem_of_cons; left; reflexivity|].
        split; assumption.
      * apply sublist_skip. exact IHsub.
      * rewrite IHlen. reflexivity.
    + split; [exact Hweak|]. split; [apply sublist_cons; exact IHsub|].
      rewrite IHlen. reflexivity.
Qed.

(** X19: when [start_pool] returns on a manager that had no instances, the
    pool is not empty and holds at most [count] instances; each of them
    holds a running process, has an empty address cache and listens on
    SOCKS port base + 2i and control port base + 2i for some i below
    [count]; their SOCKS ports are pairwise distinct; and with the active
    index at 0, as a new manager has it, [get_proxy_port] answers with the
    SOCKS port of one of them without any external call. *)
Theorem start_pool_enrolled_running (fuel : nat) (e : env) (st st' : state) :
  instances (pool st) = [] ->
  TorPoolManager.start_pool fuel e st = (Returned true, st') ->
  instances (pool st') <> [] /\
  (length (instances (pool st')) <= Z.to_nat (count (pool st)))%nat /\
  Forall (enrolled_by (pool st)) (instances (pool st')) /\
  NoDup (map socks_port (instances (pool st'))) /\
  (current_index (pool st) = 0 ->
   exists i, 0 <= i < count (pool st) /\
     forall e2, TorPoolManager.get_proxy_port e2 st'
                = (Returned (base_socks_port (pool st) + 2 * i), st')).
Proof.
  intros Hfresh Hrun.
  destruct (start_pool_run fuel e st)
    as (launched & st2 & r & st0 & Hlaunch & Hrun0 & Hcases).
  rewrite Hrun in Hrun0. injection Hrun0 as <- <-.
  destruct Hcases as [(_ & Hr & _)|(Hcount & Hpool & Hr & _)]; [discriminate Hr|].
  rewrite Hfresh in Hpool. cbn [app] in Hpool.
  assert (Hinst : instances (pool st') = started launched) by (rewrite Hpool; reflexivity).
  assert (Hidx : current_index (pool st') = current_index (pool st))
    by (rewrite Hpool; reflexivity).
  destruct (launch_entries (pool st) (seqZ 0 (count (pool st))) e (snd (prelude e st)))
    as (launched1 & st3 & Hlaunch1 & Hall).
  rewrite Hlaunch in Hlaunch1. injection Hlaunch1 as <- <-.
  destruct (started_enrolled _ _ _ Hall) as (Henr & Hsub & Hlen).
  destruct (launch_ports (pool st) (seqZ 0 (count (pool st))) e (snd (prelude e st)))
    as (launched2 & st4 & Hlaunch2 & Hports).
  rewrite Hlaunch in Hlaunch2. injection Hlaunch2 as <- <-.
  assert (Hne : instances (pool st') <> []).
  { destruct Hr as [Hr|[[_ Hne]|[Hr _]]]; [discriminate Hr|exact Hne|discriminate Hr]. }
  assert (Hforall : Forall (enrolled_by (pool st)) (instances (pool st'))).
  { rewrite Hinst. eapply Forall_impl; [exact Henr|].
    intros inst (Hrn & Hcache & i & Hi & Hp).
    split; [exact Hrn|]. split; [exact Hcache|]. exists i. split; [|exact Hp].
    apply elem_of_seqZ in Hi. lia. }
  split; [exact Hne|]. split; [|split; [exact Hforall|split]].
  - rewrite Hinst. apply sublist_length in Hsub.
    rewrite length_map, Hlen, length_seqZ in Hsub. exact Hsub.
  - rewrite Hinst. eapply sublist_NoDup; [|apply fmap_sublist; exact Hsub].
    assert (Hs : map socks_port (map fst launched)
                 = map (fun i => base_socks_port (pool st) + 2 * i)
                     (seqZ 0 (count (pool st)))).
    { rewrite map_map.
      change (map (fun x => socks_port (fst x)) launched)
        with (map (fun x => fst ((fun p => (socks_port (fst p), control_port (fst p))) x))
                launched).
      rewrite <- (map_map _ fst), Hports, map_map. reflexivity. }
    change (socks_port <$> (map fst launched)) with (map socks_port (map fst launched)).
    rewrite Hs. apply stride_nodup.
  - intros Hzero. rewrite Hzero in Hidx.
    destruct (instances (pool st')) as [|inst rest] eqn:E; [congruence|].
    apply Forall_cons in Hforall. destruct Hforall as [(_ & _ & i & Hi & Hs & _) _].
    exists i. split; [exact Hi|]. intros e2.
    unfold TorPoolManager.get_proxy_port, TorPoolManager.getitem, TorPoolManager.deref,
      bind, get_pool, ret. rewrite E, Hidx.
    rewrite (position_in_range (length (inst :: rest)) 0) by (cbn [length]; lia).
    cbv beta iota. rewrite E.
    change ((inst :: rest) !! Z.to_nat 0) with (Some inst).
    cbv beta iota. rewrite Hs. reflexivity.
Qed.

Lemma start_pool_enrolled_running_witness :
  exists st',
    TorPoolManager.start_pool 61 (sample_env 100 "") (fresh_state 3) = (Returned true, st') /\
    NoDup (map socks_port (instances (pool st'))).
Proof.
  destruct (TorPoolManager.start_pool 61 (sample_env 100 "") (fresh_state 3))
    as [r st'] eqn:E.
  assert (Hr : r = Returned true).
  { vm_compute in E. injection E as <- _. reflexivity. }
  subst r. exists st'. split; [reflexivity|].
  destruct (start_pool_enrolled_running 61 (sample_env 100 "") (fresh_state 3) st')
    as (_ & _ & _ & Hnodup & _).
  - reflexivity.
  - exact E.
  - exact Hnodup.
Defined.

(** ** The control path with an index outside the pool *)

(** X20: when the pool is not empty but the active index lies outside it,
    a GET /rotate request is answered with the 500 response carrying
    "Error: list index out of range" and nothing else happens: no lookup,
    no thread, no backend call, and the pool, index included, stays as it
    is, so that the next such request fails in the same way. *)
Theorem handle_http_rotate_stale_index (int : string -> option Z)
    (decode_ignore : string -> string) (decode : string -> option string)
    (urlparse : string -> outcome (option string * outcome (option Z)))
    (data : string) (e : env) (st : state) :
  let l := instances (pool st) in
  let n := Z.of_nat (length l) in
  let i := current_index (pool st) in
  Py.contains "GET /rotate" (decode_ignore (hd "" (Py.split_crlf data))) = true ->
  l <> [] ->
  i < - n \/ n <= i ->
  exists res st',
    HybridProxyHandler.handle_http int decode_ignore decode urlparse data e st = (res, st') /\
    pool st' = pool st /\
    trace st' =
      (trace st ++
       [EvSendAll Client
          (HybridProxyHandler.server_error "Error: list index out of range")])%list.
Proof.
  intros l n i Hrot Hne Hout. subst l n i.
  apply position_none in Hout.
  unfold HybridProxyHandler.handle_http. cbv zeta. rewrite Hrot.
  unfold HybridProxyHandler.rotate, try_except. unfold bind at 1.
  unfold TorPoolManager.get_current_instance, bind, get_pool, TorPoolManager.getitem.
  destruct (instances (pool st)) as [|inst rest] eqn:E; [congruence|].
  rewrite Hout. unfold raise, HybridProxyHandler.sendall, call_exn.
  eexists. eexists. split; [reflexivity|]. split; reflexivity.
Qed.

Lemma handle_http_rotate_stale_index_witness :
  client_writes
    (trace (snd (HybridProxyHandler.handle_http ascii_int (fun b => b) Some no_urlparse
                   ("GET /rotate HTTP/1.1" ++ Py.crlf ++ Py.crlf)%string
                   (sample_env 0 "") (sample_state 2 2))))
  = [HybridProxyHandler.server_error "Error: list index out of range"].
Proof.
  destruct (handle_http_rotate_stale_index ascii_int (fun b => b) Some no_urlparse
              ("GET /rotate HTTP/1.1" ++ Py.crlf ++ Py.crlf)%string
              (sample_env 0 "") (sample_state 2 2)) as (res & st' & Hrun & _ & Htrace).
  - reflexivity.
  - discriminate.
  - right. vm_compute. discriminate.
  - rewrite Hrun. cbn [snd]. rewrite Htrace. reflexivity.
Defined.

(** ** How long start waits *)

Lemma after_elapsed (ev : event) (d : Q) (e : env) (st : state) :
  (now st + d <= now (after ev d e st))%Q.
Proof.
  cbn [after now]. rewrite Qred_correct.
  pose proof (ns_nonneg (env_elapsed e (length (trace st)))). lra.
Qed.

Lemma probe_run (self : TorInstance) (e : env) (st : state) :
  exists ready,
    try_except (TorInstance.is_circuit_ready_socks self 5) (fun _ => ret false) e st
      = (Returned ready, after (EvHttpGet (socks_port self) false) 0 e st).
Proof.
  unfold TorInstance.is_circuit_ready_socks, try_except, bind, call_exn, ret, lift.
  destruct (env_http e (length (trace st))) as [resp|x]; [|eexists; reflexivity].
  destruct (status_code resp =? 200); [|eexists; reflexivity].
  destruct (json resp) as [d|x]; eexists; reflexivity.
Qed.

Lemma wait_probe_count (n : nat) (self : TorInstance) (e : env) :
  forall st : state,
  exists (k : nat) (ready : bool) (st' : state),
    TorInstance.wait_probe n self e st = (Returned ready, st') /\
    (k <= n)%nat /\
    lookups (trace st') = (lookups (trace st) + k)%nat /\
    terminated (trace st') = terminated (trace st) /\
    (now st + inject_Z (Z.of_nat k) <= now st')%Q /\
    (ready = false -> k = n) /\
    (ready = true -> (1 <= k)%nat).
Proof.
  induction n as [|n IH]; intros st.
  - exists 0%nat, false, st. split; [reflexivity|]. split; [lia|]. split; [lia|].
    split; [reflexivity|].
    split; [change (inject_Z (Z.of_nat 0)) with 0%Q; lra|]. split; [reflexivity|discriminate].
  - cbn [TorInstance.wait_probe]. unfold bind at 1, time_sleep.
    set (st1 := after (EvSleep 1) 1 e st).
    unfold bind at 1. destruct (probe_run self e st1) as (ready & ->).
    set (st2 := after (EvHttpGet (socks_port self) false) 0 e st1).
    assert (Hl : lookups (trace st2) = S (lookups (trace st))).
    { unfold st2, st1. cbn [after trace]. rewrite !lookups_snoc. simpl. lia. }
    assert (Hd : terminated (trace st2) = terminated (trace st)).
    { unfold st2, st1. cbn [after trace]. rewrite !terminated_snoc, !app_nil_r. reflexivity. }
    assert (Hn : (now st + 1 <= now st2)%Q).
    { pose proof (after_elapsed (EvSleep 1) 1 e st) as H1. fold st1 in H1.
      pose proof (after_elapsed (EvHttpGet (socks_port self) false) 0 e st1) as H2.
      fold st2 in H2. lra. }
    destruct ready.
    + exists 1%nat, true, st2. split; [reflexivity|]. split; [lia|]. split; [lia|].
      split; [exact Hd|]. split; [exact Hn|]. split; [discriminate|lia].
    + destruct (IH st2) as (k & ready & st' & Hrun & Hk & Hl' & Hd' & Hn' & Hf & Ht).
      exists (S k), ready, st'. split; [exact Hrun|]. split; [lia|]. split; [lia|].
      split; [congruence|]. split.
      * rewrite Nat2Z.inj_succ. unfold Z.succ. rewrite inject_Z_plus.
        change (inject_Z 1) with 1%Q. lra.
      * split; [intros Hr; rewrite (Hf Hr); reflexivity|intros _; lia].
Qed.

(** X21: when tor.exe is there and the process is spawned, [start] returns
    after k probes of the SOCKS port, 1 <= k <= 180, each one preceded by a
    sleep of one second, so that at least k seconds have passed; it returns
    False, having stopped the process, only after all 180 probes failed. *)
Theorem start_probes_once_a_second (self : TorInstance) (e : env) (st : state) :
  process self = None ->
  env_exists e (length (trace st)) = Returned true ->
  env_popen e (S (length (trace st))) = Returned tt ->
  exists (k : nat) (ok : bool) (self' : TorInstance) (st' : state),
    TorInstance.start self e st = (Returned (ok, self'), st') /\
    (1 <= k <= 180)%nat /\
    lookups (trace st') = (lookups (trace st) + k)%nat /\
    (now st + inject_Z (Z.of_nat k) <= now st')%Q /\
    (ok = false -> k = 180%nat /\
       terminated (trace st') = (terminated (trace st) ++ [socks_port self])%list).
Proof.
  intros Hp Hexists Hpopen. unfold TorInstance.start. rewrite Hp.
  unfold bind at 1. unfold call_exn at 1. rewrite Hexists. cbn [negb].
  unfold try_except, bind at 1. unfold call_exn at 1.
  set (st1 := after (EvPathExists (socks_port self)) 0 e st).
  assert (Hlen : length (trace st1) = S (length (trace st))).
  { unfold st1. cbn [after trace]. rewrite length_app. simpl. lia. }
  rewrite Hlen, Hpopen.
  set (st2 := after (EvPopen (socks_port self)) 0 e st1).
  assert (Hl2 : lookups (trace st2) = lookups (trace st)).
  { unfold st2, st1. cbn [after trace]. rewrite !lookups_snoc. simpl. lia. }
  assert (Ht2 : terminated (trace st2) = terminated (trace st)).
  { unfold st2, st1. cbn [after trace]. rewrite !terminated_snoc, !app_nil_r. reflexivity. }
  assert (Hn2 : (now st <= now st2)%Q).
  { pose proof (after_elapsed (EvPathExists (socks_port self)) 0 e st) as H1. fold st1 in H1.
    pose proof (after_elapsed (EvPopen (socks_port self)) 0 e st1) as H2. fold st2 in H2.
    lra. }
  destruct (wait_probe_count 180 (TorInstance.set_process self (Some tt)) e st2)
    as (k & ready & st3 & Hwait & Hk & Hl3 & Hd3 & Hn3 & Hf & Ht).
  unfold bind at 1. rewrite Hwait. destruct ready; cbn [negb].
  - exists k, true. eexists. exists st3. split; [reflexivity|].
    split; [specialize (Ht eq_refl); lia|]. split; [lia|]. split; [lra|].
    intros Hx. discriminate Hx.
  - unfold bind.
    destruct (stop_spec (TorInstance.set_process self (Some tt)) e st3)
      as (st4 & Hstop & _ & Hcase).
    rewrite Hstop. cbn [process TorInstance.set_process socks_port] in Hcase.
    pose proof (outside_stop (TorInstance.set_process self (Some tt)) e st3) as [_ Hn4].
    rewrite Hstop in Hn4. cbn [snd] in Hn4.
    specialize (Hf eq_refl). subst k.
    exists 180%nat, false. eexists. exists st4. split; [reflexivity|].
    split; [lia|]. split.
    + rewrite Hcase, lookups_snoc. simpl. lia.
    + split; [lra|]. intros _. split; [reflexivity|].
      rewrite Hcase, terminated_snoc.
      rewrite Hd3, Ht2. reflexivity.
Qed.

Lemma start_probes_once_a_second_witness :
  exists (k : nat) (ok : bool) (self' : TorInstance) (st' : state),
    TorInstance.start (TorInstance.__init__ 9050 9051 true) offline_env (fresh_state 1)
      = (Returned (ok, self'), st') /\
    (1 <= k <= 180)%nat.
Proof.
  destruct (start_probes_once_a_second (TorInstance.__init__ 9050 9051 true) offline_env
              (fresh_state 1)) as (k & ok & self' & st' & Hrun & Hk & _).
  - reflexivity.
  - reflexivity.
  - reflexivity.
  - exists k, ok, self', st'. split; [exact Hrun|exact Hk].
Defined.

(** ** Address validation in the status table *)

Lemma split_cons_inv (c : ascii) (s a b : string) (rest : list string) :
  Py.split c s = a :: b :: rest ->
  exists r, s = (a ++ String c r)%string /\ lacks c a = true /\ Py.split c r = b :: rest.
Proof.
  revert a. induction s as [|x s IH]; intros a H.
  - discriminate H.
  - cbn [Py.split] in H. destruct (Ascii.eqb x c) eqn:Hx.
    + injection H as <- H. apply Ascii.eqb_eq in Hx. subst x.
      exists s. repeat split. exact H.
    + unfold Py.cons_head in H.
      destruct (Py.split c s) as [|p ps] eqn:E; [discriminate H|].
      injection H as <- ->. destruct (IH p eq_refl) as (r & -> & Hp & Hr).
      exists r. split; [reflexivity|]. split; [|exact Hr].
      cbn [lacks]. rewrite Hx, Hp. reflexivity.
Qed.

Lemma in_range_octets (int : string -> option Z) (parts : list string) :
  IpCheckWorker.in_range int parts = true <->
  Forall (fun part => exists num, int part = Some num /\ 0 <= num <= 255) parts.
Proof.
  induction parts as [|part parts IH]; cbn [IpCheckWorker.in_range].
  - split; [constructor|reflexivity].
  - rewrite Forall_cons. destruct (int part) as [num|].
    + destruct (Z.ltb_spec num 0); cbn [orb].
      * split; [discriminate|]. intros [(n & Hn & Hr) _]. injection Hn as ->. lia.
      * destruct (Z.ltb_spec 255 num).
        -- split; [discriminate|]. intros [(n & Hn & Hr) _]. injection Hn as ->. lia.
        -- rewrite IH. split; [intros Hall; split; [exists num; split; [reflexivity|lia]|exact Hall]|].
           intros [_ Hall]. exact Hall.
    + split; [discriminate|]. intros [(n & Hn & _) _]. discriminate Hn.
Qed.

(** X22: [_is_valid_ip] accepts exactly the texts made of four parts
    separated by three dots, each part being read by [int] as a number from
    0 to 255.  The placeholder texts need no separate rule for this: given
    that [int] refuses the empty text, none of them is of that form. *)
Theorem is_valid_ip_dotted_quad (int : string -> option Z) (ip_str : string) :
  int "" = None ->
  IpCheckWorker._is_valid_ip int ip_str = true <->
  exists a b c d,
    ip_str = (a ++ String "." (b ++ String "." (c ++ String "." d)))%string /\
    octet int a /\ octet int b /\ octet int c /\ octet int d.
Proof.
  intros Hempty. unfold IpCheckWorker._is_valid_ip. cbv zeta. split.
  - destruct (_ || _); [discriminate|].
    destruct (Py.split "." ip_str) as [|a [|b [|c [|d [|x rest]]]]] eqn:E;
      cbn [length Nat.eqb negb]; try discriminate.
    intros H. apply in_range_octets in H.
    apply Forall_cons in H as [Ha H]. apply Forall_cons in H as [Hb H].
    apply Forall_cons in H as [Hc H]. apply Forall_cons in H as [Hd _].
    apply split_cons_inv in E as (r1 & -> & La & E).
    apply split_cons_inv in E as (r2 & -> & Lb & E).
    apply split_cons_inv in E as (r3 & -> & Lc & E).
    apply split_one_inv in E as [-> Ld].
    exists a, b, c, d. split; [reflexivity|]. repeat split; assumption.
  - intros (a & b & c & d & Hs & [La Ha] & [Lb Hb] & [Lc Hc] & [Ld Hd]).
    assert (E : Py.split "." ip_str = [a; b; c; d]).
    { rewrite Hs, (split_app_lacks "." a _ La), (split_app_lacks "." b _ Lb),
        (split_app_lacks "." c _ Lc), (split_lacks "." d Ld). reflexivity. }
    assert (Hall : IpCheckWorker.in_range int [a; b; c; d] = true).
    { apply in_range_octets. repeat constructor; assumption. }
    destruct (_ || _) eqn:Htest.
    + exfalso. apply orb_true_iff in Htest as [Hnil|Hph].
      * apply String.eqb_eq in Hnil. rewrite Hnil in E. discriminate E.
      * cbn [existsb IpCheckWorker.placeholders] in Hph.
        repeat (apply orb_true_iff in Hph as [Hph|Hph];
                [apply String.eqb_eq in Hph; rewrite Hph in E; cbn in E;
                 try discriminate E; injection E as <- <- <- <-;
                 destruct Hd as (n & Hn & _); congruence|]).
        discriminate Hph.
    + rewrite E. cbn [length Nat.eqb negb]. exact Hall.
Qed.

Lemma is_valid_ip_dotted_quad_witness :
  IpCheckWorker._is_valid_ip ascii_int "10.0.255.1" = true.
Proof.
  apply (is_valid_ip_dotted_quad ascii_int "10.0.255.1"); [reflexivity|].
  exists "10", "0", "255", "1". split; [reflexivity|].
  split; [|split; [|split]].
  - split; [reflexivity|]. exists 10. split; [reflexivity|lia].
  - split; [reflexivity|]. exists 0. split; [reflexivity|lia].
  - split; [reflexivity|]. exists 255. split; [reflexivity|lia].
  - split; [reflexivity|]. exists 1. split; [reflexivity|lia].
Defined.

(** ** Targets that do not fit the SOCKS5 request *)

(** X23: for a host name longer than 255 bytes or a port outside 0..65535
    the CONNECT request cannot be built.  [connect_to_tor] finds that out
    only after it has connected and the backend has accepted the method
    negotiation: it then returns None without sending a request, and the
    socket it connected is not closed. *)
Theorem connect_to_tor_unencodable_target (target_host : string) (target_port : Z)
    (e : env) (st : state) (tor_port : Z) (reply : string) :
  let k := length (trace st) in
  fst (TorPoolManager.get_proxy_port e st) = Returned tor_port ->
  tor_port <> 0 ->
  env_io e k = Returned tt ->
  env_io e (k + 1)%nat = Returned tt ->
  env_recv e (k + 2)%nat = Returned reply ->
  Py.byte_at (String.substring 0 2 reply) 1 = Some 0 ->
  ~ ((String.length target_host <= 255)%nat /\ 0 <= target_port <= 65535) ->
  exists st1,
    HybridProxyHandler.connect_to_tor target_host target_port e st = (Returned None, st1) /\
    pool st1 = pool st /\
    trace st1 =
      (trace st ++ [EvConnect tor_port;
                    EvSendAll Backend HybridProxyHandler.method_request;
                    EvRecv Backend 2 false])%list /\
    ~ In (EvClose Backend) [EvConnect tor_port;
                            EvSendAll Backend HybridProxyHandler.method_request;
                            EvRecv Backend 2 false].
Proof.
  intros k Hport Hnz Hconn Hsend Hrecv Hreply Hbad.
  unfold HybridProxyHandler.connect_to_tor. unfold bind at 1.
  pose proof (get_proxy_port_pure e st) as Hpure.
  destruct (TorPoolManager.get_proxy_port e st) as [r st0].
  cbn [fst snd] in *. subst r st0.
  destruct (Z.eqb_spec tor_port 0) as [|_]; [contradiction|].
  unfold try_except.
  unfold bind at 1, HybridProxyHandler.connect, call_exn at 1. fold k. rewrite Hconn.
  set (s1 := after (EvConnect tor_port) 0 e st).
  assert (L1 : length (trace s1) = (k + 1)%nat)
    by (unfold s1; cbn [after trace]; rewrite length_app; reflexivity).
  unfold bind at 1, HybridProxyHandler.sendall at 1, call_exn at 1. rewrite L1, Hsend.
  set (s2 := after _ 0 e s1).
  assert (L2 : length (trace s2) = (k + 2)%nat)
    by (unfold s2; cbn [after trace]; rewrite length_app, L1; simpl; lia).
  unfold bind at 1, HybridProxyHandler.recv at 1, bind at 1, call_exn at 1.
  rewrite L2, Hrecv. unfold ret at 1.
  set (s3 := after _ 0 e s2).
  change (Z.to_nat 2) with 2%nat.
  assert (Hacc : HybridProxyHandler.accepted (String.substring 0 2 reply) e s3
                 = (Returned true, s3)).
  { unfold HybridProxyHandler.accepted.
    destruct (String.substring 0 2 reply) as [|c rest]; [discriminate Hreply|].
    rewrite Hreply. reflexivity. }
  unfold bind at 1. rewrite Hacc. cbn [negb].
  assert (Hreq : HybridProxyHandler.connect_request target_host target_port e s3
                 = (Raised StructError, s3)).
  { unfold HybridProxyHandler.connect_request, Py.pack_B, Py.pack_H, raise.
    destruct (Z.leb_spec 0 (Z.of_nat (String.length target_host))); [|lia].
    destruct (Z.leb_spec (Z.of_nat (String.length target_host)) 255); cbn [andb];
      [|reflexivity].
    destruct (Z.leb_spec 0 target_port); cbn [andb]; [|reflexivity].
    destruct (Z.leb_spec target_port 65535); cbn [andb]; [|reflexivity].
    exfalso. apply Hbad. lia. }
  unfold bind at 1. rewrite Hreq. unfold ret.
  exists s3. split; [reflexivity|]. split; [reflexivity|]. split.
  - unfold s3, s2, s1. cbn [after trace]. rewrite <- !app_assoc. reflexivity.
  - cbn. intros [H|[H|[H|[]]]]; discriminate H.
Qed.

Lemma connect_to_tor_unencodable_target_witness :
  exists st1,
    HybridProxyHandler.connect_to_tor "example.com" 70000
      (sample_env 0 (String "005" (String "000" ""))) (sample_state 1 0) = (Returned None, st1) /\
    trace st1 = [EvConnect 9050;
                 EvSendAll Backend HybridProxyHandler.method_request;
                 EvRecv Backend 2 false].
Proof.
  destruct (connect_to_tor_unencodable_target "example.com" 70000
              (sample_env 0 (String "005" (String "000" ""))) (sample_state 1 0)
              9050 (String "005" (String "000" ""))) as (st1 & Hrun & _ & Htrace & _).
  - reflexivity.
  - discriminate.
  - reflexivity.
  - reflexivity.
  - reflexivity.
  - reflexivity.
  - simpl. lia.
  - exists st1. split; [exact Hrun|exact Htrace].
Defined.
